(** * Order workflow of the e-commerce microservice: embedding and properties

    A shallow embedding of [schemas/product.py], [schemas/order.py],
    [utils/pagination.py], [services/product_service.py],
    [services/order_service.py], [routers/products.py] and
    [routers/orders.py], together with the part of the document store
    (MongoDB through motor/pymongo) that these files call.

    Conventions of the embedding:
    - text is a [string] whose characters are the code points below 256, on
      which [str.strip] and [str.lower] act as Python does; a [str] with
      other code points, among them the lone surrogates that the encoder of
      the store refuses with a [UnicodeEncodeError], is not a value of the
      embedding;
    - Python [int] and the store's integers are [Z].  A BSON integer has 64
      bits: the driver raises [OverflowError] on an integer of absolute
      value [2 ^ 63] or more, and the store refuses an increment that leaves
      that range.  The embedding does not raise these errors; the properties
      that send an integer to the store which the request chose freely state
      the range as a hypothesis;
    - a BSON datetime is a [Z];
    - an [ObjectId] is a number, an [N]: the number held in its 12 bytes,
      and from [2 ^ 96] on the shorter ids that [ObjectId(s)] builds from a
      text with white space in it; the store compares ids as values;
    - a collection is a finite map from [_id] to document;
    - an [await] on the store is a point where writes of concurrent requests
      may land and where the driver may fail; both are decided by a
      [Schedule].  The clock, the generated ids and the part of the regular
      expression engine that is not embedded are read from an [Oracle];
    - the application has connected to its database ([db.connect_to_mongo]
      has run at start-up), so [get_collection], which the services call when
      they are built, returns the collection. *)

From Stdlib Require Import ZArith NArith Floats Ascii String List Lia.
From stdpp Require Import gmap strings list sorting pretty.

Local Open Scope string_scope.

(** ** Text: the fragment of Python's [str] methods the schemas use *)

Module Text.

(** [c.isspace()] for a code point below 256: TAB, LF, VT, FF, CR, FS, GS, RS,
    US, the space, NEL (133) and the no-break space (160). *)
Definition is_space (c : ascii) : bool :=
  let n := N_of_ascii c in
  (((9 <=? n) && (n <=? 13)) || ((28 <=? n) && (n <=? 32))
   || (n =? 133) || (n =? 160))%N.

(** [c.lower()] for a code point below 256: [A-Z], and the upper-case letters
    of Latin-1 (192 to 222, without the multiplication sign 215). *)
Definition lower_char (c : ascii) : ascii :=
  let n := N_of_ascii c in
  if (((65 <=? n) && (n <=? 90))
      || ((192 <=? n) && (n <=? 222) && negb (n =? 215)))%N
  then ascii_of_N (n + 32) else c.

(** [s.lower()] *)
Fixpoint lower (s : string) : string :=
  match s with
  | EmptyString => EmptyString
  | String c r => String (lower_char c) (lower r)
  end.

(** [s.lstrip()] *)
Fixpoint lstrip (s : string) : string :=
  match s with
  | EmptyString => EmptyString
  | String c r => if is_space c then lstrip r else s
  end.

(** [s.rstrip()] *)
Fixpoint rstrip (s : string) : string :=
  match s with
  | EmptyString => EmptyString
  | String c r =>
      match rstrip r with
      | EmptyString => if is_space c then EmptyString else String c EmptyString
      | r' => String c r'
      end
  end.

(** [s.strip()] *)
Definition strip (s : string) : string := rstrip (lstrip s).

(** Python truthiness of a [str]: [bool(s)]. *)
Definition truthy (s : string) : bool :=
  match s with EmptyString => false | _ => true end.

End Text.

(** ** [bson.ObjectId]

    An [ObjectId] of the store is 12 bytes; as a number, read big-endian, it
    is below [2 ^ 96].  [ObjectId(s)] takes any string of 24 characters that
    [bytes.fromhex] reads, and [bytes.fromhex] skips ASCII white space before
    each byte (Python 3.7 and later): a text of 24 characters with white
    space in it gives an id of fewer than 12 bytes.  Such ids are numbered
    from [2 ^ 96] on, one number for each byte string; to the store they
    are keys like the others. *)

Module ObjectId.

Definition hex_value (c : ascii) : option N :=
  let n := N_of_ascii c in
  if ((48 <=? n) && (n <=? 57))%N then Some (n - 48)%N
  else if ((97 <=? n) && (n <=? 102))%N then Some (n - 87)%N
  else if ((65 <=? n) && (n <=? 70))%N then Some (n - 55)%N
  else None.

(** The number a string of hexadecimal digits writes after [acc];
    [None] when a character is not a digit. *)
Fixpoint from_hex (acc : N) (s : string) : option N :=
  match s with
  | EmptyString => Some acc
  | String c r =>
      match hex_value c with
      | Some d => from_hex (16 * acc + d)%N r
      | None => None
      end
  end.

(** The white space [bytes.fromhex] skips: TAB, LF, VT, FF, CR and the
    space. *)
Definition is_hex_space (c : ascii) : bool :=
  let n := N_of_ascii c in
  (((9 <=? n) && (n <=? 13)) || (n =? 32))%N.

(** [bytes.fromhex(s)]: the number of bytes read and their big-endian value.
    White space is skipped before a byte; the two digits of a byte follow
    one another, [top] being the first digit of a byte whose second digit is
    still to come.  Any other character, and a digit left alone at the end,
    is a [ValueError] ([None]). *)
Fixpoint bytes_fromhex (top : option N) (count : nat) (acc : N) (s : string)
    : option (nat * N) :=
  match s with
  | EmptyString =>
      match top with
      | None => Some (count, acc)
      | Some _ => None
      end
  | String c r =>
      match top with
      | None =>
          if is_hex_space c then bytes_fromhex None count acc r
          else match hex_value c with
               | Some t => bytes_fromhex (Some t) count acc r
               | None => None
               end
      | Some t =>
          match hex_value c with
          | Some d => bytes_fromhex None (S count) (256 * acc + 16 * t + d)%N r
          | None => None
          end
      end
  end.

(** The number of an id of [count] bytes with big-endian value [value]. *)
Definition of_bytes (count : nat) (value : N) : N :=
  if (count =? 12)%nat then value
  else (2 ^ 96 + 256 ^ N.of_nat count + value)%N.

(** [ObjectId(s)]: a string of 24 characters that [bytes.fromhex] reads,
    otherwise [InvalidId] ([None]). *)
Definition parse (s : string) : option N :=
  if (String.length s =? 24)%nat then
    match bytes_fromhex None 0 0%N s with
    | Some (count, value) => Some (of_bytes count value)
    | None => None
    end
  else None.

(** [ObjectId.is_valid(s)] *)
Definition is_valid (s : string) : bool :=
  match parse s with Some _ => true | None => false end.

Definition hex_digit (d : N) : ascii :=
  if (d <? 10)%N then ascii_of_N (48 + d) else ascii_of_N (87 + d).

Fixpoint to_hex (k : nat) (n : N) (tail : string) : string :=
  match k with
  | O => tail
  | S k' => to_hex k' (n / 16)%N (String (hex_digit (n mod 16)%N) tail)
  end.

(** [str(oid)], the bytes in hexadecimal: 24 lower-case digits for an id of
    12 bytes, two for each byte of a shorter one. *)
Definition str (oid : N) : string :=
  if (oid <? 2 ^ 96)%N then to_hex 24 oid EmptyString
  else
    let numbered := (oid - 2 ^ 96)%N in
    to_hex (2 * N.to_nat (N.log2 numbered / 8)) numbered EmptyString.

(** The ids of 12 bytes. *)
Definition wf (oid : N) : Prop := (oid < 2 ^ 96)%N.

End ObjectId.

(** ** Exceptions and results *)

Inductive exn : Type :=
| ValueError (msg : string)
| FileNotFoundError (msg : string)
| ValidationError         (* pydantic.ValidationError, a ValueError *)
| TypeError               (* subscripting [None] *)
| InvalidId               (* bson.errors.InvalidId *)
| DuplicateKeyError       (* pymongo.errors.DuplicateKeyError *)
| OperationFailure        (* pymongo.errors.OperationFailure *)
| PyMongoError            (* any other driver or network failure *)
| HTTPException (status_code : Z) (detail : string).

(** [isinstance(e, ValueError)] *)
Definition is_ValueError (e : exn) : bool :=
  match e with ValueError _ | ValidationError => true | _ => false end.

(** [isinstance(e, FileNotFoundError)] *)
Definition is_FileNotFoundError (e : exn) : bool :=
  match e with FileNotFoundError _ => true | _ => false end.

(** [str(e)].  The text of a [ValueError], of a [FileNotFoundError] and of an
    [HTTPException] is the one it was built with.  The text of the other
    exceptions is chosen by the library that raises them; a fixed text
    stands for it here, and no property is stated about that text. *)
Definition exn_str (e : exn) : string :=
  match e with
  | ValueError msg | FileNotFoundError msg => msg
  | HTTPException _ detail => detail
  | ValidationError => "validation error"
  | TypeError => "'NoneType' object is not subscriptable"
  | InvalidId => "not a valid ObjectId"
  | DuplicateKeyError => "E11000 duplicate key error"
  | OperationFailure => "operation failure"
  | PyMongoError => "driver failure"
  end.

Inductive result (A : Type) : Type :=
| Ok (a : A)
| Raise (e : exn).
Arguments Ok {A} a.
Arguments Raise {A} e.

(** ** Schemas (pydantic models) *)

Module PyObjectId.

(** [PyObjectId.validate(v)] *)
Definition validate (v : string) : result N :=
  if negb (ObjectId.is_valid v) then Raise (ValueError "Invalid ObjectId")
  else match ObjectId.parse v with
       | Some oid => Ok oid
       | None => Raise InvalidId
       end.

End PyObjectId.

Module ProductIn.

Record t : Type := mk {
  name : string;
  price : float;
  size : list string;
  available_quantity : Z
}.

(** The [@validator('name')] function. *)
Definition validate_name (v : string) : result string :=
  let v := Text.strip v in
  if negb (Text.truthy v) then Raise (ValueError "Product name cannot be empty")
  else Ok v.

(** The loop of [validate_sizes]. *)
Fixpoint valid_sizes (v : list string) : result (list string) :=
  match v with
  | [] => Ok []
  | size :: rest =>
      let size := Text.strip size in
      if negb (Text.truthy size) then Raise (ValueError "Size cannot be empty")
      else match valid_sizes rest with
           | Ok valid => Ok (Text.lower size :: valid)
           | Raise e => Raise e
           end
  end.

(** The [@validator('size')] function. *)
Definition validate_sizes (v : list string) : result (list string) :=
  match v with
  | [] => Raise (ValueError "At least one size must be provided")
  | _ => valid_sizes v
  end.

(** [Field(..., min_length=1, max_length=200)], then the validator. *)
Definition name_field (v : string) : result string :=
  if negb (1 <=? String.length v)%nat
  then Raise (ValueError "ensure this value has at least 1 characters")
  else if negb (String.length v <=? 200)%nat
  then Raise (ValueError "ensure this value has at most 200 characters")
  else validate_name v.

(** [Field(..., gt=0)] on a [float]. *)
Definition price_field (v : float) : result float :=
  if PrimFloat.ltb 0%float v then Ok v
  else Raise (ValueError "ensure this value is greater than 0").

(** [Field(..., min_items=1)], then the validator. *)
Definition size_field (v : list string) : result (list string) :=
  if (1 <=? List.length v)%nat then validate_sizes v
  else Raise (ValueError "ensure this value has at least 1 items").

(** [Field(..., ge=0)] *)
Definition available_quantity_field (v : Z) : result Z :=
  if (0 <=? v)%Z then Ok v
  else Raise (ValueError "ensure this value is greater than or equal to 0").

(** Construction of a [ProductIn] from request data: every field is checked,
    and any failure makes the construction raise [ValidationError]. *)
Definition validate (data : t) : result t :=
  match name_field (name data), price_field (price data),
        size_field (size data),
        available_quantity_field (available_quantity data) with
  | Ok n, Ok p, Ok s, Ok q => Ok (mk n p s q)
  | _, _, _, _ => Raise ValidationError
  end.

End ProductIn.

Module ProductOut.

Record t : Type := mk {
  id : string;
  name : string;
  price : float;
  size : list string;
  available_quantity : Z
}.

End ProductOut.

Module OrderIn.

Record t : Type := mk {
  user_id : string;
  product_id : string;
  quantity : Z
}.

(** The [@validator('user_id', 'product_id')] function. *)
Definition validate_ids (v : string) : result string :=
  let v := Text.strip v in
  if negb (Text.truthy v) then Raise (ValueError "ID cannot be empty")
  else Ok v.

(** The [@validator('product_id')] function. *)
Definition validate_object_id (v : string) : result string :=
  if negb (ObjectId.is_valid v) then Raise (ValueError "Invalid product ID format")
  else Ok v.

Definition user_id_field (v : string) : result string :=
  if (1 <=? String.length v)%nat then validate_ids v
  else Raise (ValueError "ensure this value has at least 1 characters").

Definition product_id_field (v : string) : result string :=
  if (1 <=? String.length v)%nat then
    match validate_ids v with
    | Ok v => validate_object_id v
    | Raise e => Raise e
    end
  else Raise (ValueError "ensure this value has at least 1 characters").

(** [Field(..., gt=0)] *)
Definition quantity_field (v : Z) : result Z :=
  if (0 <? v)%Z then Ok v
  else Raise (ValueError "ensure this value is greater than 0").

(** Construction of an [OrderIn] from request data. *)
Definition validate (data : t) : result t :=
  match user_id_field (user_id data), product_id_field (product_id data),
        quantity_field (quantity data) with
  | Ok u, Ok p, Ok q => Ok (mk u p q)
  | _, _, _ => Raise ValidationError
  end.

End OrderIn.

Module OrderOut.

Record t : Type := mk {
  id : string;
  user_id : string;
  product_id : string;
  quantity : Z;
  created_at : Z
}.

End OrderOut.

Module PaginationParams.

Record t : Type := mk {
  limit : Z;
  offset : Z
}.

(** [PaginationParams(limit=..., offset=...)]: [ge=1, le=100] and [ge=0]. *)
Definition validate (data : t) : result t :=
  if ((1 <=? limit data) && (limit data <=? 100) && (0 <=? offset data))%Z
  then Ok data else Raise ValidationError.

(** The [skip] property. *)
Definition skip (p : t) : Z := offset p.

End PaginationParams.

Module PaginationMeta.

Record t : Type := mk {
  total : Z;
  limit : Z;
  offset : Z;
  has_next : bool;
  has_previous : bool
}.

(** [PaginationMeta.create(total, pagination)] *)
Definition create (total : Z) (pagination : PaginationParams.t) : t :=
  mk total (PaginationParams.limit pagination)
    (PaginationParams.offset pagination)
    (PaginationParams.offset pagination + PaginationParams.limit pagination
       <? total)%Z
    (0 <? PaginationParams.offset pagination)%Z.

End PaginationMeta.

(** Python's [v or default] on an optional [int]: [None] and [0] are
    falsy. *)
Definition or_default (v : option Z) (default : Z) : Z :=
  match v with
  | Some x => if (x =? 0)%Z then default else x
  | None => default
  end.

(** [calculate_skip_limit(page, per_page, offset, limit)]; the
    [PaginationParams] it builds is validated. *)
Definition calculate_skip_limit (page per_page offset limit : option Z)
    : result PaginationParams.t :=
  let '(calculated_offset, calculated_limit) :=
    match page, per_page with
    | Some page, Some per_page => ((page - 1) * per_page, per_page)%Z
    | _, _ => (or_default offset 0, or_default limit 10)
    end in
  PaginationParams.validate
    (PaginationParams.mk calculated_limit calculated_offset).

(** ** The store's regular expressions

    The [$regex] operator hands the pattern to PCRE.  The fragment embedded
    here has literal characters, [.], a backslash before a character that is
    neither a letter nor a digit, and the greedy quantifiers [*], [+] and [?]
    after one of these.  A pattern with anything else (anchors, groups,
    classes, alternation, braces, lazy or possessive quantifiers, a character
    above 127) is left to the [Oracle]. *)

Module Regex.

Inductive atom : Type :=
| Lit (c : ascii)
| Dot.

Inductive quantifier : Type := Once | Star | Plus | Opt.

Inductive token : Type :=
| TAtom (a : atom)
| TQuant (q : quantifier).

Definition item : Type := atom * quantifier.

Definition is_alnum (c : ascii) : bool :=
  let n := N_of_ascii c in
  (((48 <=? n) && (n <=? 57)) || ((65 <=? n) && (n <=? 90))
   || ((97 <=? n) && (n <=? 122)))%N.

(** The characters PCRE reads as syntax outside a class. *)
Definition is_meta (c : ascii) : bool :=
  existsb (Ascii.eqb c)
    ["\"; "^"; "$"; "."; "["; "]"; "|"; "("; ")"; "?"; "*"; "+"; "{"; "}"]%char.

Definition is_ascii (c : ascii) : bool := (N_of_ascii c <? 128)%N.

(** A character that stands for itself in a pattern. *)
Definition is_plain (c : ascii) : bool := is_ascii c && negb (is_meta c).

Fixpoint tokens (s : string) : option (list token) :=
  match s with
  | EmptyString => Some []
  | String c r =>
      if Ascii.eqb c "\" then
        match r with
        | EmptyString => None
        | String d r' =>
            if is_ascii d && negb (is_alnum d)
            then option_map (cons (TAtom (Lit d))) (tokens r')
            else None
        end
      else if Ascii.eqb c "." then option_map (cons (TAtom Dot)) (tokens r)
      else if Ascii.eqb c "*" then option_map (cons (TQuant Star)) (tokens r)
      else if Ascii.eqb c "+" then option_map (cons (TQuant Plus)) (tokens r)
      else if Ascii.eqb c "?" then option_map (cons (TQuant Opt)) (tokens r)
      else if is_plain c then option_map (cons (TAtom (Lit c))) (tokens r)
      else None
  end.

(** An atom, then at most one quantifier; a quantifier with nothing to repeat
    (or one that modifies another quantifier) is outside the fragment. *)
Fixpoint items (ts : list token) : option (list item) :=
  match ts with
  | [] => Some []
  | TQuant _ :: _ => None
  | TAtom a :: TQuant q :: rest => option_map (cons (a, q)) (items rest)
  | TAtom a :: rest => option_map (cons (a, Once)) (items rest)
  end.

Definition compile (pattern : string) : option (list item) :=
  match tokens pattern with
  | Some ts => items ts
  | None => None
  end.

(** One subject character against one atom.  Pattern characters of the
    fragment are ASCII; with the [i] option such a character matches a subject
    character exactly when both lower-case to the same character.  The dot
    matches everything but the line feed. *)
Definition atom_matches (caseless : bool) (a : atom) (d : ascii) : bool :=
  match a with
  | Dot => negb (Ascii.eqb d "010")
  | Lit c =>
      if caseless then Ascii.eqb (Text.lower_char c) (Text.lower_char d)
      else Ascii.eqb c d
  end.

(** [k] after zero or more characters matching [a]. *)
Fixpoint repeat_then (caseless : bool) (a : atom) (k : string -> bool)
    (s : string) : bool :=
  k s ||
  match s with
  | EmptyString => false
  | String d r => atom_matches caseless a d && repeat_then caseless a k r
  end.

(** Does the pattern match a prefix of [s]? *)
Fixpoint match_here (caseless : bool) (p : list item) (s : string) : bool :=
  match p with
  | [] => true
  | (a, q) :: rest =>
      let k := match_here caseless rest in
      let one (k' : string -> bool) :=
        match s with
        | EmptyString => false
        | String d r => atom_matches caseless a d && k' r
        end in
      match q with
      | Once => one k
      | Opt => k s || one k
      | Star => repeat_then caseless a k s
      | Plus => one (repeat_then caseless a k)
      end
  end.

(** Unanchored search: does the pattern match somewhere in [s]? *)
Fixpoint search (caseless : bool) (p : list item) (s : string) : bool :=
  match_here caseless p s ||
  match s with
  | EmptyString => false
  | String _ r => search caseless p r
  end.

End Regex.

(** ** Documents and collections *)

Module ProductDoc.

Record t : Type := mk {
  name : string;
  price : float;
  size : list string;
  available_quantity : Z;
  created_at : Z;
  updated_at : Z
}.

End ProductDoc.

Module OrderDoc.

Record t : Type := mk {
  user_id : string;
  product_id : string;
  quantity : Z;
  created_at : Z
}.

End OrderDoc.

(** The database: the [products] and the [orders] collection. *)
Record World : Type := mkWorld {
  products : gmap N ProductDoc.t;
  orders : gmap N OrderDoc.t
}.

Definition empty_world : World := mkWorld ∅ ∅.

Module Collection.

(** [insert_one(doc)], [oid] being the [_id] the driver generated for [doc];
    the unique index on [_id] rejects an id that is already stored. *)
Definition insert_one {D : Type} (c : gmap N D) (oid : N) (doc : D)
    : result (gmap N D) :=
  match c !! oid with
  | Some _ => Raise DuplicateKeyError
  | None => Ok (<[oid := doc]> c)
  end.

(** [find_one({"_id": oid})] *)
Definition find_one {D : Type} (c : gmap N D) (oid : N) : option D := c !! oid.

(** [delete_one({"_id": oid})] *)
Definition delete_one {D : Type} (c : gmap N D) (oid : N) : gmap N D :=
  delete oid c.

Record UpdateResult : Type := mkUpdateResult {
  matched_count : Z;
  modified_count : Z
}.

(** [update_one({"_id": oid, "available_quantity": {"$gte": bound}},
               {"$inc": {"available_quantity": change},
                "$set": {"updated_at": now}})]:
    one atomic step of the store.  A matched document counts as modified when
    the update changes one of its fields. *)
Definition update_one_quantity (c : gmap N ProductDoc.t) (oid : N)
    (bound change now : Z) : gmap N ProductDoc.t * UpdateResult :=
  match c !! oid with
  | Some doc =>
      if (bound <=? ProductDoc.available_quantity doc)%Z then
        let doc' :=
          ProductDoc.mk (ProductDoc.name doc) (ProductDoc.price doc)
            (ProductDoc.size doc)
            (ProductDoc.available_quantity doc + change)
            (ProductDoc.created_at doc) now in
        let changed :=
          negb (change =? 0)%Z || negb (ProductDoc.updated_at doc =? now)%Z in
        (<[oid := doc']> c, mkUpdateResult 1 (if changed then 1 else 0))
      else (c, mkUpdateResult 0 0)
  | None => (c, mkUpdateResult 0 0)
  end.

(** *** Cursors *)

Inductive sort_key : Type := SortId | SortCreatedAt.

Record Cursor (Q : Type) : Type := mkCursor {
  query : Q;
  skipped : Z;
  limited : Z;
  ordering : option (sort_key * Z)
}.
Arguments mkCursor {Q}.
Arguments query {Q}.
Arguments skipped {Q}.
Arguments limited {Q}.
Arguments ordering {Q}.

(** [collection.find(query)] *)
Definition find {Q : Type} (q : Q) : Cursor Q := mkCursor q 0 0 None.

(** [cursor.skip(n)]: pymongo refuses a negative [n]. *)
Definition skip {Q : Type} (cur : Cursor Q) (n : Z) : result (Cursor Q) :=
  if (n <? 0)%Z then Raise (ValueError "skip must be >= 0")
  else Ok (mkCursor (query cur) n (limited cur) (ordering cur)).

(** [cursor.limit(n)] *)
Definition limit {Q : Type} (cur : Cursor Q) (n : Z) : Cursor Q :=
  mkCursor (query cur) (skipped cur) n (ordering cur).

(** [cursor.sort(key, direction)] *)
Definition sort {Q : Type} (cur : Cursor Q) (key : sort_key) (direction : Z)
    : Cursor Q :=
  mkCursor (query cur) (skipped cur) (limited cur) (Some (key, direction)).

(** The order a sort specification puts on the documents. *)
Definition doc_le {D : Type} (created : D -> Z) (spec : sort_key * Z)
    (x y : N * D) : Prop :=
  match spec with
  | (SortId, direction) =>
      if (0 <? direction)%Z then (x.1 <= y.1)%N else (y.1 <= x.1)%N
  | (SortCreatedAt, direction) =>
      if (0 <? direction)%Z then (created x.2 <= created y.2)%Z
      else (created y.2 <= created x.2)%Z
  end.

#[global] Instance doc_le_dec {D : Type} (created : D -> Z)
    (spec : sort_key * Z) (x y : N * D) : Decision (doc_le created spec x y).
Proof.
  unfold doc_le. destruct spec as [[] direction];
    destruct (0 <? direction)%Z; apply _.
Defined.

(** What the server does with a cursor when it is read, in whatever order
    [skip], [limit] and [sort] were called on it: the documents that match,
    put in order, then the skip, then the limit ([0] is no limit, a negative
    limit counts as its absolute value). *)
Definition to_list {Q D : Type} (created : D -> Z)
    (matches : Q -> N -> D -> bool) (cur : Cursor Q) (c : gmap N D)
    : list (N * D) :=
  let found := List.filter (fun kv => matches (query cur) kv.1 kv.2)
                 (map_to_list c) in
  let sorted := match ordering cur with
                | Some spec => merge_sort (doc_le created spec) found
                | None => found
                end in
  let rest := drop (Z.to_nat (skipped cur)) sorted in
  if (limited cur =? 0)%Z then rest
  else take (Z.to_nat (Z.abs (limited cur))) rest.

(** *** Queries on [products] *)

Record ProductQuery : Type := mkProductQuery {
  name_regex : option (string * string);   (* [$regex], [$options] *)
  size_in : option (list string)           (* [$in] *)
}.

(** [$options] containing [i]. *)
Definition caseless (options : string) : bool :=
  existsb (Ascii.eqb "i") (list_ascii_of_string options).

(** The matcher of a pattern: the embedded fragment, or else what the engine
    ([beyond]) makes of it; [None] is a pattern the store rejects. *)
Definition regex_matcher (beyond : string -> string -> option (string -> bool))
    (pattern options : string) : option (string -> bool) :=
  match Regex.compile pattern with
  | Some p => Some (Regex.search (caseless options) p)
  | None => beyond pattern options
  end.

Definition product_matches (name_ok : string -> bool) (q : ProductQuery)
    (oid : N) (doc : ProductDoc.t) : bool :=
  match name_regex q with
  | Some _ => name_ok (ProductDoc.name doc)
  | None => true
  end &&
  match size_in q with
  | Some values =>
      existsb (fun s => existsb (String.eqb s) values) (ProductDoc.size doc)
  | None => true
  end.

(** The test a query puts on names; [None] when the store rejects its
    pattern. *)
Definition name_matcher (beyond : string -> string -> option (string -> bool))
    (q : ProductQuery) : option (string -> bool) :=
  match name_regex q with
  | Some (pattern, options) => regex_matcher beyond pattern options
  | None => Some (fun _ => true)
  end.

(** Reading a cursor on [products]; a pattern the store rejects fails the
    whole query. *)
Definition products_to_list
    (beyond : string -> string -> option (string -> bool))
    (cur : Cursor ProductQuery) (c : gmap N ProductDoc.t)
    : result (list (N * ProductDoc.t)) :=
  match name_matcher beyond (query cur) with
  | Some name_ok =>
      Ok (to_list ProductDoc.created_at (product_matches name_ok) cur c)
  | None => Raise OperationFailure
  end.

(** *** Queries on [orders]: [{"user_id": user_id}] *)

Definition order_matches (user_id : string) (oid : N) (doc : OrderDoc.t) : bool :=
  String.eqb (OrderDoc.user_id doc) user_id.

Definition orders_to_list (cur : Cursor string) (c : gmap N OrderDoc.t)
    : list (N * OrderDoc.t) :=
  to_list OrderDoc.created_at order_matches cur c.

End Collection.

(** ** Concurrent requests and the environment *)

(** The document [create_product] builds from a validated [ProductIn]. *)
Definition product_doc_of (product : ProductIn.t) (created updated : Z)
    : ProductDoc.t :=
  ProductDoc.mk (ProductIn.name product) (ProductIn.price product)
    (ProductIn.size product) (ProductIn.available_quantity product)
    created updated.

(** The bound of the stock guard in [update_product_quantity]:
    [abs(quantity_change) if quantity_change < 0 else 0]. *)
Definition stock_guard (quantity_change : Z) : Z :=
  if (quantity_change <? 0)%Z then Z.abs quantity_change else 0%Z.

(** A write that another request of the service lands on the store: the
    insertion of a validated product, the guarded quantity update, the
    insertion of an order, the deletion of an order. *)
Inductive action : Type :=
| ActCreateProduct (data : ProductIn.t) (oid : N) (created updated : Z)
| ActUpdateQuantity (oid : N) (quantity_change now : Z)
| ActInsertOrder (oid : N) (doc : OrderDoc.t)
| ActDeleteOrder (oid : N).

Definition apply_action (w : World) (a : action) : World :=
  match a with
  | ActCreateProduct data oid created updated =>
      match ProductIn.validate data with
      | Ok product =>
          match Collection.insert_one (products w) oid
                  (product_doc_of product created updated) with
          | Ok c => mkWorld c (orders w)
          | Raise _ => w
          end
      | Raise _ => w
      end
  | ActUpdateQuantity oid quantity_change now =>
      mkWorld
        (Collection.update_one_quantity (products w) oid
           (stock_guard quantity_change) quantity_change now).1
        (orders w)
  | ActInsertOrder oid doc =>
      match Collection.insert_one (orders w) oid doc with
      | Ok c => mkWorld (products w) c
      | Raise _ => w
      end
  | ActDeleteOrder oid =>
      mkWorld (products w) (Collection.delete_one (orders w) oid)
  end.

Definition interfere (acts : list action) (w : World) : World :=
  fold_left apply_action acts w.

(** What a request reads from outside the store: the clock ([utcnow], by
    reading), the [ObjectId] the driver generates (by store call), and the
    regular expression engine beyond the embedded fragment. *)
Record Oracle : Type := mkOracle {
  clock : nat -> Z;
  gen_id : nat -> N;
  regex_beyond : string -> string -> option (string -> bool)
}.

(** What happens around a request: the writes of other requests that land
    just before its k-th store call, and whether that call fails in the
    driver.  Beyond the end of the lists nothing lands and nothing fails. *)
Record Schedule : Type := mkSchedule {
  interleaved : list (list action);
  faults : list bool
}.

(** A request running alone against a healthy store. *)
Definition alone : Schedule := mkSchedule [] [].

Record RunState : Type := mkRunState {
  world : World;
  calls : nat;     (* store calls made so far *)
  ticks : nat      (* clock readings made so far *)
}.

(** ** The monad of request handlers *)

Definition M (A : Type) : Type :=
  Oracle -> Schedule -> RunState -> result A * RunState.

Definition ret {A : Type} (a : A) : M A := fun _ _ st => (Ok a, st).

Definition raise {A : Type} (e : exn) : M A := fun _ _ st => (Raise e, st).

Definition bind {A B : Type} (m : M A) (k : A -> M B) : M B :=
  fun orc sch st =>
    match m orc sch st with
    | (Ok a, st') => k a orc sch st'
    | (Raise e, st') => (Raise e, st')
    end.

Notation "x <- m ;; k" := (bind m (fun x => k))
  (at level 62, m at level 50, k at level 62, right associativity, only parsing).
Notation "m ;;; k" := (bind m (fun _ => k))
  (at level 62, k at level 62, right associativity, only parsing).

(** [try: m / except Exception as e: handler(e)] *)
Definition try_except {A : Type} (m : M A) (handler : exn -> M A) : M A :=
  fun orc sch st =>
    match m orc sch st with
    | (Ok a, st') => (Ok a, st')
    | (Raise e, st') => handler e orc sch st'
    end.

(** A value or an exception computed without touching the store. *)
Definition lift {A : Type} (r : result A) : M A :=
  match r with
  | Ok a => ret a
  | Raise e => raise e
  end.

(** [datetime.utcnow()] *)
Definition utcnow : M Z :=
  fun orc _ st =>
    (Ok (clock orc (ticks st)),
     mkRunState (world st) (calls st) (S (ticks st))).

(** [await] of one store operation: the writes scheduled before it land, then
    the operation runs as one atomic step, unless the driver fails. *)
Definition await {A : Type} (op : Oracle -> nat -> World -> result A * World)
    : M A :=
  fun orc sch st =>
    let k := calls st in
    let w := interfere (nth k (interleaved sch) []) (world st) in
    if nth k (faults sch) false
    then (Raise PyMongoError, mkRunState w (S k) (ticks st))
    else let '(r, w') := op orc k w in
         (r, mkRunState w' (S k) (ticks st)).

(** Running a handler from a given database. *)
Definition run {A : Type} (m : M A) (orc : Oracle) (sch : Schedule) (w : World)
    : result A * World :=
  let '(r, st) := m orc sch (mkRunState w 0 0) in (r, world st).

(** [except Exception as e: logger.error(...); raise] *)
Definition log_and_reraise {A : Type} (e : exn) : M A := raise e.

(** ** The awaited calls on the two collections ([db.get_collection]) *)

Module Db.

(** [collection.insert_one(product_doc)].  The document holds text of the
    embedding, which the encoder accepts, so that the call fails only as the
    store does: on a duplicate [_id], or when the [Schedule] says so. *)
Definition products_insert_one (doc : ProductDoc.t) : M N :=
  await (fun orc k w =>
    let oid := gen_id orc k in
    match Collection.insert_one (products w) oid doc with
    | Ok c => (Ok oid, mkWorld c (orders w))
    | Raise e => (Raise e, w)
    end).

Definition products_find_one (oid : N) : M (option ProductDoc.t) :=
  await (fun _ _ w => (Ok (Collection.find_one (products w) oid), w)).

Definition products_update_one_quantity (oid : N) (bound change now : Z)
    : M Collection.UpdateResult :=
  await (fun _ _ w =>
    let '(c, res) :=
      Collection.update_one_quantity (products w) oid bound change now in
    (Ok res, mkWorld c (orders w))).

Definition products_to_list (cur : Collection.Cursor Collection.ProductQuery)
    : M (list (N * ProductDoc.t)) :=
  await (fun orc _ w =>
    (Collection.products_to_list (regex_beyond orc) cur (products w), w)).

Definition orders_insert_one (doc : OrderDoc.t) : M N :=
  await (fun orc k w =>
    let oid := gen_id orc k in
    match Collection.insert_one (orders w) oid doc with
    | Ok c => (Ok oid, mkWorld (products w) c)
    | Raise e => (Raise e, w)
    end).

Definition orders_find_one (oid : N) : M (option OrderDoc.t) :=
  await (fun _ _ w => (Ok (Collection.find_one (orders w) oid), w)).

Definition orders_delete_one (oid : N) : M unit :=
  await (fun _ _ w =>
    (Ok tt, mkWorld (products w) (Collection.delete_one (orders w) oid))).

Definition orders_to_list (cur : Collection.Cursor string)
    : M (list (N * OrderDoc.t)) :=
  await (fun _ _ w => (Ok (Collection.orders_to_list cur (orders w)), w)).

End Db.

(** [ObjectId(s)] *)
Definition ObjectId_new (s : string) : M N :=
  match ObjectId.parse s with
  | Some oid => ret oid
  | None => raise InvalidId
  end.

(** [cursor.skip(pagination.offset).limit(pagination.limit)] when a
    pagination is given. *)
Definition paginate {Q : Type} (cur : Collection.Cursor Q)
    (pagination : option PaginationParams.t) : M (Collection.Cursor Q) :=
  match pagination with
  | Some p =>
      cur <- lift (Collection.skip cur (PaginationParams.offset p)) ;;
      ret (Collection.limit cur (PaginationParams.limit p))
  | None => ret cur
  end.

(** ** [services/product_service.py] *)

Module ProductService.

Definition product_out (oid : N) (doc : ProductDoc.t) : ProductOut.t :=
  ProductOut.mk (ObjectId.str oid) (ProductDoc.name doc) (ProductDoc.price doc)
    (ProductDoc.size doc) (ProductDoc.available_quantity doc).

Definition create_product (product : ProductIn.t) : M ProductOut.t :=
  try_except
    (created_at <- utcnow ;;
     updated_at <- utcnow ;;
     let product_doc := product_doc_of product created_at updated_at in
     inserted_id <- Db.products_insert_one product_doc ;;
     (* [if not result.inserted_id]: an ObjectId is never falsy *)
     created_product <- Db.products_find_one inserted_id ;;
     match created_product with
     | Some doc => ret (product_out inserted_id doc)
     | None => raise TypeError
     end)
    log_and_reraise.

Definition list_products (name_filter size_filter : option string)
    (pagination : option PaginationParams.t) : M (list ProductOut.t) :=
  try_except
    (let query :=
       Collection.mkProductQuery
         (match name_filter with
          | Some f => if Text.truthy f then Some (f, "i") else None
          | None => None
          end)
         (match size_filter with
          | Some f => if Text.truthy f then Some [Text.lower f] else None
          | None => None
          end) in
     let cursor := Collection.find query in
     cursor <- paginate cursor pagination ;;
     let cursor := Collection.sort cursor Collection.SortId 1 in
     products <- Db.products_to_list cursor ;;
     ret (List.map (fun kv => product_out kv.1 kv.2) products))
    log_and_reraise.

Definition get_product_by_id (product_id : string) : M (option ProductDoc.t) :=
  try_except
    (if negb (ObjectId.is_valid product_id) then ret None
     else
       oid <- ObjectId_new product_id ;;
       Db.products_find_one oid)
    log_and_reraise.

(** [update_product_quantity].  [ObjectId(product_id)] is built with no
    check before it, so that an id [ObjectId] refuses raises [InvalidId],
    which the [except] clause logs and raises again.  [quantity_change] and
    the bound of the guard go to the store as they are (see the convention
    on integers). *)
Definition update_product_quantity (product_id : string) (quantity_change : Z)
    : M bool :=
  try_except
    (oid <- ObjectId_new product_id ;;
     let bound := stock_guard quantity_change in
     now <- utcnow ;;
     res <- Db.products_update_one_quantity oid bound quantity_change now ;;
     ret (0 <? Collection.modified_count res)%Z)
    log_and_reraise.

End ProductService.

(** ** [services/order_service.py] *)

Module OrderService.

Definition order_out (oid : N) (doc : OrderDoc.t) : OrderOut.t :=
  OrderOut.mk (ObjectId.str oid) (OrderDoc.user_id doc)
    (OrderDoc.product_id doc) (OrderDoc.quantity doc) (OrderDoc.created_at doc).

Definition create_order (order : OrderIn.t) : M OrderOut.t :=
  try_except
    (product <- ProductService.get_product_by_id (OrderIn.product_id order) ;;
     match product with
     | None =>
         raise (FileNotFoundError
                  ("Product with ID " ++ OrderIn.product_id order ++ " not found"))
     | Some product =>
         if (ProductDoc.available_quantity product <? OrderIn.quantity order)%Z
         then
           raise (ValueError
                    ("Insufficient quantity. Available: "
                     ++ pretty (ProductDoc.available_quantity product)
                     ++ ", Requested: " ++ pretty (OrderIn.quantity order)))
         else
           created_at <- utcnow ;;
           let order_doc :=
             OrderDoc.mk (OrderIn.user_id order) (OrderIn.product_id order)
               (OrderIn.quantity order) created_at in
           inserted_id <- Db.orders_insert_one order_doc ;;
           (* [if not result.inserted_id]: an ObjectId is never falsy *)
           quantity_updated <-
             ProductService.update_product_quantity
               (OrderIn.product_id order) (- OrderIn.quantity order) ;;
           if negb quantity_updated then
             Db.orders_delete_one inserted_id ;;;
             raise (ValueError "Failed to update product quantity")
           else
             created_order <- Db.orders_find_one inserted_id ;;
             match created_order with
             | Some doc => ret (order_out inserted_id doc)
             | None => raise TypeError
             end
     end)
    (fun e =>
       if is_ValueError e || is_FileNotFoundError e then raise e
       else raise (ValueError "Failed to create order due to system error")).

Definition list_user_orders (user_id : string)
    (pagination : option PaginationParams.t) : M (list OrderOut.t) :=
  try_except
    (let cursor :=
       Collection.sort (Collection.find user_id) Collection.SortCreatedAt (-1) in
     cursor <- paginate cursor pagination ;;
     orders <- Db.orders_to_list cursor ;;
     ret (List.map (fun kv => order_out kv.1 kv.2) orders))
    log_and_reraise.

Definition get_order_by_id (order_id : string) : M (option OrderDoc.t) :=
  try_except
    (if negb (ObjectId.is_valid order_id) then ret None
     else
       oid <- ObjectId_new order_id ;;
       Db.orders_find_one oid)
    log_and_reraise.

End OrderService.

(** ** [routers/orders.py] and [routers/products.py]

    Each handler builds its service first, inside its [try]; with the
    database connected that cannot fail, and the handlers below start after
    it. *)

Module OrdersRouter.

(** The [except] clauses of [create_order], in their order. *)
Definition create_order_error (e : exn) : exn :=
  if is_ValueError e then HTTPException 400 (exn_str e)
  else if is_FileNotFoundError e then HTTPException 404 (exn_str e)
  else HTTPException 500 "Failed to create order".

Definition create_order (order : OrderIn.t) : M OrderOut.t :=
  try_except
    (created_order <- OrderService.create_order order ;;
     ret created_order)
    (fun e => raise (create_order_error e)).

Definition list_user_orders (user_id : string) (limit offset : Z)
    : M (list OrderOut.t) :=
  try_except
    (pagination <- lift (PaginationParams.validate
                           (PaginationParams.mk limit offset)) ;;
     OrderService.list_user_orders user_id (Some pagination))
    (fun e =>
       raise (HTTPException 500 ("Failed to retrieve orders: " ++ exn_str e))).

End OrdersRouter.

Module ProductsRouter.

(** The [except] clauses of [create_product], in their order. *)
Definition create_product_error (e : exn) : exn :=
  if is_ValueError e then HTTPException 400 (exn_str e)
  else HTTPException 500 "Failed to create product".

Definition create_product (product : ProductIn.t) : M ProductOut.t :=
  try_except
    (created_product <- ProductService.create_product product ;;
     ret created_product)
    (fun e => raise (create_product_error e)).

Definition list_products (name size : option string) (limit offset : Z)
    : M (list ProductOut.t) :=
  try_except
    (pagination <- lift (PaginationParams.validate
                           (PaginationParams.mk limit offset)) ;;
     ProductService.list_products name size (Some pagination))
    (fun _ => raise (HTTPException 500 "Failed to retrieve products")).

End ProductsRouter.

(** ** The application: request bodies are built into models before the
    handler runs *)

Module App.

Definition post_products (data : ProductIn.t) : M ProductOut.t :=
  product <- lift (ProductIn.validate data) ;;
  ProductsRouter.create_product product.

Definition post_orders (data : OrderIn.t) : M OrderOut.t :=
  order <- lift (OrderIn.validate data) ;;
  OrdersRouter.create_order order.

End App.

(** ** The system as a whole: requests and reachable databases *)

Inductive request : Type :=
| PostProducts (data : ProductIn.t)
| GetProducts (name size : option string) (limit offset : Z)
| PostOrders (data : OrderIn.t)
| GetOrders (user_id : string) (limit offset : Z)
| CreateOrder (order : OrderIn.t)
| UpdateProductQuantity (product_id : string) (quantity_change : Z).

Definition discard {A : Type} (m : M A) : M unit := m ;;; ret tt.

Definition handle (r : request) : M unit :=
  match r with
  | PostProducts data => discard (App.post_products data)
  | GetProducts name size limit offset =>
      discard (ProductsRouter.list_products name size limit offset)
  | PostOrders data => discard (App.post_orders data)
  | GetOrders user_id limit offset =>
      discard (OrdersRouter.list_user_orders user_id limit offset)
  | CreateOrder order => discard (OrderService.create_order order)
  | UpdateProductQuantity product_id quantity_change =>
      discard (ProductService.update_product_quantity product_id quantity_change)
  end.

(** The databases the system can reach from [w0]: any number of requests,
    each with any oracle and under any schedule (so with any writes of
    concurrent requests in between, and with any failures of the driver). *)
Inductive reachable_from (w0 : World) : World -> Prop :=
| reach_start : reachable_from w0 w0
| reach_request (w : World) (r : request) (orc : Oracle) (sch : Schedule) :
    reachable_from w0 w ->
    reachable_from w0 (run (handle r) orc sch w).2.

(** No product has a negative stock. *)
Definition stock_nonneg (w : World) : Prop :=
  forall (oid : N) (doc : ProductDoc.t),
    products w !! oid = Some doc -> (0 <= ProductDoc.available_quantity doc)%Z.

(** ** Notions the statements use *)

(** A handler keeps [Inv], whatever the oracle and the schedule. *)
Definition preserves (Inv : World -> Prop) {A : Type} (m : M A) : Prop :=
  forall orc sch st, Inv (world st) -> Inv (world (m orc sch st).2).

(** [stock_nonneg] on the collection alone. *)
Definition stock_ok (c : gmap N ProductDoc.t) : Prop :=
  forall oid doc, c !! oid = Some doc ->
                  (0 <= ProductDoc.available_quantity doc)%Z.

(** A stored product after [amount] left the stock at time [now]. *)
Definition decremented (doc : ProductDoc.t) (amount now : Z) : ProductDoc.t :=
  ProductDoc.mk (ProductDoc.name doc) (ProductDoc.price doc)
    (ProductDoc.size doc) (ProductDoc.available_quantity doc - amount)
    (ProductDoc.created_at doc) now.

(** A stored product after [amount] was added to the stock at time [now]. *)
Definition restocked (doc : ProductDoc.t) (amount now : Z) : ProductDoc.t :=
  ProductDoc.mk (ProductDoc.name doc) (ProductDoc.price doc)
    (ProductDoc.size doc) (ProductDoc.available_quantity doc + amount)
    (ProductDoc.created_at doc) now.

(** *** The steps of [create_order] *)

(** The database a store call of a request sees: the one the request left,
    with the writes of other requests scheduled before its [k]-th call. *)
Definition seen (sch : Schedule) (k : nat) (w : World) : World :=
  interfere (nth k (interleaved sch) []) w.

(** The order document [create_order] inserts. *)
Definition order_doc_of (order : OrderIn.t) (created_at : Z) : OrderDoc.t :=
  OrderDoc.mk (OrderIn.user_id order) (OrderIn.product_id order)
    (OrderIn.quantity order) created_at.

(** The database right after the insertion of the order, second store call
    of [create_order]. *)
Definition after_insert (orc : Oracle) (sch : Schedule) (w : World)
    (order : OrderIn.t) : World :=
  let w1 := seen sch 1 (seen sch 0 w) in
  mkWorld (products w1)
    (<[gen_id orc 1 := order_doc_of order (clock orc 0)]> (orders w1)).

(** The decrement [create_order] attempts, third store call, on product
    [oid]: the collection it leaves and the result it reports. *)
Definition decrement_attempt (orc : Oracle) (sch : Schedule) (w : World)
    (order : OrderIn.t) (oid : N)
    : gmap N ProductDoc.t * Collection.UpdateResult :=
  Collection.update_one_quantity
    (products (seen sch 2 (after_insert orc sch w order))) oid
    (stock_guard (- OrderIn.quantity order)) (- OrderIn.quantity order)
    (clock orc 1).

(** The database the fourth store call of [create_order] sees. *)
Definition after_decrement (orc : Oracle) (sch : Schedule) (w : World)
    (order : OrderIn.t) (oid : N) : World :=
  seen sch 3
    (mkWorld (decrement_attempt orc sch w order oid).1
       (orders (seen sch 2 (after_insert orc sch w order)))).

(** What the last [except] clause of [create_order] raises. *)
Definition system_error : exn :=
  ValueError "Failed to create order due to system error".

(** A 5xx answer. *)
Definition is_server_error {A : Type} (r : result A) : bool :=
  match r with
  | Raise (HTTPException status _) => ((500 <=? status) && (status <? 600))%Z
  | _ => false
  end.

(** *** Sizes and names *)

(** A size entry as the schema stores it. *)
Definition normal_size (s : string) : string := Text.lower (Text.strip s).

(** [needle] occurs in [hay] when case is ignored. *)
Definition contains_ci (needle hay : string) : Prop :=
  exists pre post : string,
    Text.lower hay = pre ++ Text.lower needle ++ post.

(** The same, computed. *)
Fixpoint prefixb (p s : string) : bool :=
  match p, s with
  | EmptyString, _ => true
  | String c p', String d s' => Ascii.eqb c d && prefixb p' s'
  | String _ _, EmptyString => false
  end.

Fixpoint infixb (p s : string) : bool :=
  prefixb p s ||
  match s with
  | EmptyString => false
  | String _ s' => infixb p s'
  end.

Definition contains_cib (needle hay : string) : bool :=
  infixb (Text.lower needle) (Text.lower hay).

(** A string of characters that stand for themselves in a pattern. *)
Fixpoint all_plain (s : string) : bool :=
  match s with
  | EmptyString => true
  | String c r => Regex.is_plain c && all_plain r
  end.

(** What such a string is read as, and what it compiles to. *)
Fixpoint literal_tokens (s : string) : list Regex.token :=
  match s with
  | EmptyString => []
  | String c r => Regex.TAtom (Regex.Lit c) :: literal_tokens r
  end.

Fixpoint literal_items (s : string) : list Regex.item :=
  match s with
  | EmptyString => []
  | String c r => (Regex.Lit c, Regex.Once) :: literal_items r
  end.

(** *** The shape of stored products *)

(** Every stored product satisfies [P]. *)
Definition products_all (P : ProductDoc.t -> Prop) (w : World) : Prop :=
  forall (oid : N) (doc : ProductDoc.t), products w !! oid = Some doc -> P doc.

(** The shape [ProductIn] gives a product: a name that is not empty, has no
    white space around it and at most 200 characters, a positive price, and
    at least one size, each one not empty, stripped and lower-cased. *)
Definition well_formed (doc : ProductDoc.t) : Prop :=
  ProductDoc.name doc <> EmptyString /\
  Text.strip (ProductDoc.name doc) = ProductDoc.name doc /\
  (String.length (ProductDoc.name doc) <= 200)%nat /\
  PrimFloat.ltb 0%float (ProductDoc.price doc) = true /\
  ProductDoc.size doc <> [] /\
  Forall (fun s => s <> EmptyString /\ Text.strip s = s /\ Text.lower s = s)
    (ProductDoc.size doc).

(** *** Listings *)

(** The query [list_products] builds from its filters. *)
Definition products_query (name_filter size_filter : option string)
    : Collection.ProductQuery :=
  Collection.mkProductQuery
    (match name_filter with
     | Some f => if Text.truthy f then Some (f, "i") else None
     | None => None
     end)
    (match size_filter with
     | Some f => if Text.truthy f then Some [Text.lower f] else None
     | None => None
     end).

(** The response models of a list of stored products. *)
Definition product_outs (docs : list (N * ProductDoc.t)) : list ProductOut.t :=
  List.map (fun kv => ProductService.product_out kv.1 kv.2) docs.

(** The response models of a list of stored orders. *)
Definition order_outs (docs : list (N * OrderDoc.t)) : list OrderOut.t :=
  List.map (fun kv => OrderService.order_out kv.1 kv.2) docs.

(** ** Examples: oracles, databases, requests and schedules *)

Definition example_oracle : Oracle :=
  mkOracle (fun k => 1000 + Z.of_nat k)%Z (fun k => N.of_nat (k + 1))
    (fun _ _ => None).

(** The oracle of a later request: a later clock, other generated ids. *)
Definition later_oracle : Oracle :=
  mkOracle (fun k => 2000 + Z.of_nat k)%Z (fun k => N.of_nat (k + 11))
    (fun _ _ => None).

Definition widget : ProductDoc.t :=
  ProductDoc.mk "Widget" 9.5%float ["small"] 5 900 900.

Definition widget_id : string := "000000000000000000000007".

(** A database with five widgets. *)
Definition example_world : World := mkWorld {[ 7%N := widget ]} ∅.

(** A database with three products. *)
Definition catalogue : World :=
  mkWorld
    {[ 7%N := widget;
       3%N := ProductDoc.mk "abc" 1.5%float ["m"] 2 800 800;
       9%N := ProductDoc.mk "Gadget" 4.5%float ["large"] 1 950 950 ]}
    ∅.

Definition two_widgets : OrderIn.t := OrderIn.mk "u1" widget_id 2.

Definition three_widgets : OrderIn.t := OrderIn.mk "u1" widget_id 3.

(** A concurrent order takes four of the five widgets after the order of
    this request was inserted and before its own decrement. *)
Definition lost_race : Schedule :=
  mkSchedule [[]; []; [ActUpdateQuantity 7 (- 4) 950]] [].

(** The driver fails on the second store call, the insertion of the order. *)
Definition insert_fails : Schedule := mkSchedule [] [false; true].

(** The driver fails on the first store call. *)
Definition first_call_fails : Schedule := mkSchedule [] [true].

Definition shirt : ProductIn.t :=
  ProductIn.mk "  Shirt " 19.5%float [" Small"; "M "] 5.

Definition shirt_twice_small : ProductIn.t :=
  ProductIn.mk "Shirt" 19.5%float ["S"; "s"] 5.

Definition blank_name : ProductIn.t :=
  ProductIn.mk "   " 19.5%float ["s"] 5.


(** A concurrent order takes one of the five widgets after the order of
    this request was inserted and before its own decrement. *)
Definition won_race : Schedule :=
  mkSchedule [[]; []; [ActUpdateQuantity 7 (- 1) 950]] [].

(** The driver fails on the third store call: for [create_order], the
    decrement. *)
Definition decrement_fails : Schedule := mkSchedule [] [false; false; true].

(** The race of [lost_race], and then the driver fails on the fourth store
    call: the deletion of the order. *)
Definition rollback_fails : Schedule :=
  mkSchedule [[]; []; [ActUpdateQuantity 7 (- 4) 950]]
    [false; false; false; true].


(** * Properties *)

(** ** The embedding on small inputs *)

Example strip_lower_example :
  Text.strip "  Large  " = "Large" /\ Text.lower "LarGe" = "large" /\
  normal_size " XL " = "xl".
Proof. repeat split. Qed.

Example object_id_example :
  ObjectId.parse widget_id = Some 7%N /\ ObjectId.str 7 = widget_id /\
  ObjectId.parse "507F1F77BCF86CD799439011"
    = ObjectId.parse "507f1f77bcf86cd799439011" /\
  ObjectId.is_valid "invalid_id_format" = false.
Proof. repeat split. Qed.

(** [bytes.fromhex] skips white space before a byte, not inside it: a text
    of 24 characters with six spaces is an id of nine bytes, whose text has
    18 digits. *)
Example object_id_white_space_example :
  ObjectId.is_valid "00 00 00 00 00 00 000000" = true /\
  ObjectId.parse "00 00 00 00 00 00 000000" = Some (2 ^ 96 + 256 ^ 9)%N /\
  ObjectId.str (2 ^ 96 + 256 ^ 9) = "000000000000000000" /\
  ObjectId.parse "0a 1B 2c 3D 4e 5F 6a7B8c"
    = Some (2 ^ 96 + 256 ^ 9 + 186425448081912396684)%N /\
  ObjectId.str (2 ^ 96 + 256 ^ 9 + 186425448081912396684)
    = "0a1b2c3d4e5f6a7b8c" /\
  ObjectId.is_valid "0 000 00 00 00 00 000000" = false /\
  ObjectId.is_valid "00000000000000000000000 " = false.
Proof. repeat split; by vm_compute. Qed.

Example compile_example :
  Regex.compile "a.c" = Some [(Regex.Lit "a", Regex.Once);
                              (Regex.Dot, Regex.Once);
                              (Regex.Lit "c", Regex.Once)]%char /\
  Regex.compile "lap+top" = Some [(Regex.Lit "l", Regex.Once);
                                  (Regex.Lit "a", Regex.Once);
                                  (Regex.Lit "p", Regex.Plus);
                                  (Regex.Lit "t", Regex.Once);
                                  (Regex.Lit "o", Regex.Once);
                                  (Regex.Lit "p", Regex.Once)]%char /\
  Regex.compile "a\.c" = Some (literal_items "a.c") /\
  Regex.compile "(a" = None /\ Regex.compile "a*?" = None.
Proof. repeat split. Qed.

Example search_example :
  Collection.regex_matcher (fun _ _ => None) "LAP" "i"
    = Some (Regex.search true (literal_items "LAP")) /\
  Regex.search true (literal_items "LAP") "Gaming Laptop" = true /\
  Regex.search false (literal_items "LAP") "Gaming Laptop" = false /\
  Regex.search true (literal_items "lap") "Wireless Mouse" = false.
Proof. repeat split. Qed.

Example validate_example :
  ProductIn.validate shirt
    = Ok (ProductIn.mk "Shirt" 19.5%float ["small"; "m"] 5) /\
  ProductIn.validate (ProductIn.mk "Shirt" (-10)%float ["s"] 5)
    = Raise ValidationError /\
  ProductIn.validate (ProductIn.mk "Shirt" 19.5%float ["s"; "  "] 5)
    = Raise ValidationError /\
  ProductIn.validate (ProductIn.mk "Shirt" 19.5%float ["s"] (-5))
    = Raise ValidationError.
Proof. repeat split. Qed.

(** Five widgets: an order for three is created and leaves two; the same
    order again is refused for insufficient stock and leaves the two. *)
Example five_widgets_scenario :
  run (App.post_orders three_widgets) example_oracle alone example_world
    = (Ok (OrderOut.mk "000000000000000000000002" "u1" widget_id 3 1000),
       mkWorld {[ 7%N := decremented widget 3 1001 ]}
               {[ 2%N := order_doc_of three_widgets 1000 ]}) /\
  run (App.post_orders three_widgets) later_oracle alone
      (mkWorld {[ 7%N := decremented widget 3 1001 ]}
               {[ 2%N := order_doc_of three_widgets 1000 ]})
    = (Raise (HTTPException 400
                "Insufficient quantity. Available: 2, Requested: 3"),
       mkWorld {[ 7%N := decremented widget 3 1001 ]}
               {[ 2%N := order_doc_of three_widgets 1000 ]}).
Proof. split; vm_compute; reflexivity. Qed.

(** ** Running handlers *)


Lemma nth_nil {A : Type} (k : nat) (d : A) : nth k [] d = d.
Proof. by destruct k. Qed.

Lemma await_alone {A : Type} (op : Oracle -> nat -> World -> result A * World)
    (orc : Oracle) (st : RunState) :
  await op orc alone st =
  ((op orc (calls st) (world st)).1,
   mkRunState (op orc (calls st) (world st)).2 (S (calls st)) (ticks st)).
Proof.
  unfold await, alone, interleaved, faults. rewrite !nth_nil. simpl.
  by destruct (op orc (calls st) (world st)).
Qed.

Lemma await_at {A : Type} (op : Oracle -> nat -> World -> result A * World)
    (orc : Oracle) (sch : Schedule) (st : RunState) :
  nth (calls st) (faults sch) false = false ->
  await op orc sch st =
  let w := interfere (nth (calls st) (interleaved sch) []) (world st) in
  ((op orc (calls st) w).1,
   mkRunState (op orc (calls st) w).2 (S (calls st)) (ticks st)).
Proof.
  intros Hf. unfold await. rewrite Hf. simpl.
  by destruct (op orc (calls st) _).
Qed.

Lemma await_fault {A : Type} (op : Oracle -> nat -> World -> result A * World)
    (orc : Oracle) (sch : Schedule) (st : RunState) :
  nth (calls st) (faults sch) false = true ->
  await op orc sch st =
  (Raise PyMongoError,
   mkRunState (interfere (nth (calls st) (interleaved sch) []) (world st))
     (S (calls st)) (ticks st)).
Proof. intros Hf. unfold await. by rewrite Hf. Qed.

(** ** The guarded quantity update *)

Lemma update_product_quantity_alone (orc : Oracle) (w : World)
    (product_id : string) (quantity_change : Z) :
  run (ProductService.update_product_quantity product_id quantity_change)
      orc alone w =
  match ObjectId.parse product_id with
  | None => (Raise InvalidId, w)
  | Some oid =>
      let upd :=
        Collection.update_one_quantity (products w) oid
          (stock_guard quantity_change) quantity_change (clock orc 0) in
      (Ok (0 <? Collection.modified_count upd.2)%Z, mkWorld upd.1 (orders w))
  end.
Proof.
  unfold run, ProductService.update_product_quantity, try_except, bind,
    ObjectId_new, Db.products_update_one_quantity, utcnow.
  destruct (ObjectId.parse product_id) as [oid|]; simpl; [|done].
  rewrite await_alone; simpl.
  by destruct (Collection.update_one_quantity _ _ _ _ _).
Qed.

Lemma update_one_quantity_hit (c : gmap N ProductDoc.t) (oid : N)
    (bound change now : Z) (doc : ProductDoc.t) :
  c !! oid = Some doc ->
  (bound <= ProductDoc.available_quantity doc)%Z ->
  change <> 0%Z ->
  Collection.update_one_quantity c oid bound change now =
  (<[oid := restocked doc change now]> c, Collection.mkUpdateResult 1 1).
Proof.
  intros Hdoc Hbound Hchange. unfold Collection.update_one_quantity.
  rewrite Hdoc.
  destruct (Z.leb_spec bound (ProductDoc.available_quantity doc)); [|lia].
  destruct (Z.eqb_spec change 0); [done|]. reflexivity.
Qed.



Lemma restocked_neg (doc : ProductDoc.t) (amount now : Z) :
  restocked doc (- amount) now = decremented doc amount now.
Proof. unfold restocked, decremented. f_equal. Qed.



(** The decrement at a text that [ObjectId] refuses: ["widget"] names no
    stored product and the amount is positive, yet the operation does not
    return false, it raises [InvalidId]. *)
Lemma decrement_quantity_malformed_id_raises :
  ObjectId.is_valid "widget" = false /\
  (run (ProductService.update_product_quantity "widget" (- 1))
       example_oracle alone example_world).1 = Raise InvalidId /\
  (run (ProductService.update_product_quantity "widget" (- 1))
       example_oracle alone example_world).1 <> Ok false.
Proof.
  split; [reflexivity | split]; [vm_compute; reflexivity | vm_compute; discriminate].
Qed.

(** ** Invariants of the database *)

Section Preservation.

Variable Inv : World -> Prop.

Hypothesis Inv_action : forall w a, Inv w -> Inv (apply_action w a).

Lemma Inv_interfere (acts : list action) (w : World) :
  Inv w -> Inv (interfere acts w).
Proof.
  unfold interfere. revert w.
  induction acts as [|a acts IH]; intros w Hw; simpl; [done|].
  apply IH, Inv_action, Hw.
Qed.

Lemma preserves_ret {A : Type} (a : A) : preserves Inv (ret a).
Proof. by intros orc sch st. Qed.

Lemma preserves_raise {A : Type} (e : exn) : preserves Inv (@raise A e).
Proof. by intros orc sch st. Qed.

Lemma preserves_lift {A : Type} (r : result A) : preserves Inv (lift r).
Proof. destruct r; [apply preserves_ret | apply preserves_raise]. Qed.

Lemma preserves_utcnow : preserves Inv utcnow.
Proof. by intros orc sch st. Qed.

Lemma preserves_bind {A B : Type} (m : M A) (k : A -> M B) :
  preserves Inv m -> (forall a, preserves Inv (k a)) -> preserves Inv (bind m k).
Proof.
  intros Hm Hk orc sch st Hst. unfold bind.
  specialize (Hm orc sch st Hst).
  destruct (m orc sch st) as [[a|e] st']; simpl in *; [by apply Hk | done].
Qed.

Lemma preserves_try_except {A : Type} (m : M A) (h : exn -> M A) :
  preserves Inv m -> (forall e, preserves Inv (h e)) -> preserves Inv (try_except m h).
Proof.
  intros Hm Hh orc sch st Hst. unfold try_except.
  specialize (Hm orc sch st Hst).
  destruct (m orc sch st) as [[a|e] st']; simpl in *; [done | by apply Hh].
Qed.

Lemma preserves_await {A : Type}
    (op : Oracle -> nat -> World -> result A * World) :
  (forall orc k w, Inv w -> Inv (op orc k w).2) -> preserves Inv (await op).
Proof.
  intros Hop orc sch st Hst. unfold await.
  pose proof (Inv_interfere (nth (calls st) (interleaved sch) []) _ Hst) as Hw.
  destruct (nth (calls st) (faults sch) false); simpl; [done|].
  specialize (Hop orc (calls st) _ Hw).
  by destruct (op orc (calls st) _).
Qed.

Lemma preserves_bind_lift {A B : Type} (r : result A) (k : A -> M B) :
  (forall a, r = Ok a -> preserves Inv (k a)) -> preserves Inv (bind (lift r) k).
Proof.
  intros Hk orc sch st Hst. destruct r as [a|e]; [|done].
  by apply (Hk a eq_refl).
Qed.

End Preservation.

(** *** Validated products *)

Lemma ProductIn_validate_Ok (data product : ProductIn.t) :
  ProductIn.validate data = Ok product ->
  ProductIn.name_field (ProductIn.name data) = Ok (ProductIn.name product) /\
  ProductIn.price_field (ProductIn.price data) = Ok (ProductIn.price product) /\
  ProductIn.size_field (ProductIn.size data) = Ok (ProductIn.size product) /\
  ProductIn.available_quantity_field (ProductIn.available_quantity data)
    = Ok (ProductIn.available_quantity product).
Proof.
  unfold ProductIn.validate.
  destruct (ProductIn.name_field _), (ProductIn.price_field _),
    (ProductIn.size_field _), (ProductIn.available_quantity_field _);
    try discriminate.
  by intros [= <-].
Qed.

Lemma ProductIn_validate_quantity (data product : ProductIn.t) :
  ProductIn.validate data = Ok product ->
  (0 <= ProductIn.available_quantity product)%Z.
Proof.
  intros (_ & _ & _ & Hq)%ProductIn_validate_Ok.
  unfold ProductIn.available_quantity_field in Hq.
  destruct (Z.leb_spec 0 (ProductIn.available_quantity data)); [|done].
  by injection Hq as <-.
Qed.

(** *** The stock never goes below zero *)

Lemma stock_ok_insert (c : gmap N ProductDoc.t) (oid : N) (doc : ProductDoc.t) :
  stock_ok c -> (0 <= ProductDoc.available_quantity doc)%Z ->
  stock_ok (<[oid := doc]> c).
Proof.
  intros Hc Hdoc oid' doc'. rewrite lookup_insert.
  case_decide; [by intros [= <-] | apply Hc].
Qed.

Lemma stock_ok_insert_one (c c' : gmap N ProductDoc.t) (oid : N)
    (doc : ProductDoc.t) :
  stock_ok c -> (0 <= ProductDoc.available_quantity doc)%Z ->
  Collection.insert_one c oid doc = Ok c' -> stock_ok c'.
Proof.
  intros Hc Hdoc. unfold Collection.insert_one.
  destruct (c !! oid); [done|]. intros [= <-]. by apply stock_ok_insert.
Qed.

(** The guard of [update_product_quantity] is what keeps the stock from going
    negative: a negative change needs that much in stock, any other change
    needs a stock that is not negative already. *)
Lemma stock_ok_update_one_quantity (c : gmap N ProductDoc.t) (oid : N)
    (change now : Z) :
  stock_ok c ->
  stock_ok (Collection.update_one_quantity c oid (stock_guard change) change now).1.
Proof.
  intros Hc. unfold Collection.update_one_quantity.
  destruct (c !! oid) as [doc|] eqn:Hdoc; [|done].
  destruct (Z.leb_spec (stock_guard change) (ProductDoc.available_quantity doc))
    as [Hguard|]; [|done].
  simpl. apply stock_ok_insert; [done|]. simpl.
  unfold stock_guard in Hguard.
  destruct (Z.ltb_spec change 0); lia.
Qed.

Lemma stock_nonneg_action (w : World) (a : action) :
  stock_nonneg w -> stock_nonneg (apply_action w a).
Proof.
  intros Hw. destruct a as [data oid t1 t2|oid change now|oid doc|oid]; simpl.
  - destruct (ProductIn.validate data) as [product|] eqn:Hv; [|done].
    destruct (Collection.insert_one _ _ _) as [c|] eqn:Hins; [|done].
    eapply stock_ok_insert_one; [exact Hw| |exact Hins].
    by apply (ProductIn_validate_quantity data).
  - by apply stock_ok_update_one_quantity.
  - by destruct (Collection.insert_one _ _ _).
  - done.
Qed.

Lemma keeps_products_insert_one (doc : ProductDoc.t) :
  (0 <= ProductDoc.available_quantity doc)%Z ->
  preserves stock_nonneg (Db.products_insert_one doc).
Proof.
  intros Hdoc. apply preserves_await; [apply stock_nonneg_action|].
  intros orc k w Hw. cbv zeta.
  destruct (Collection.insert_one (products w) (gen_id orc k) doc)
    as [c|] eqn:Hins; simpl; [|done].
  by eapply stock_ok_insert_one.
Qed.

Lemma keeps_products_update_one_quantity (oid : N) (change now : Z) :
  preserves stock_nonneg
    (Db.products_update_one_quantity oid (stock_guard change) change now).
Proof.
  apply preserves_await; [apply stock_nonneg_action|].
  intros orc k w Hw.
  pose proof (stock_ok_update_one_quantity (products w) oid change now Hw) as H.
  by destruct (Collection.update_one_quantity _ _ _ _ _).
Qed.

Lemma keeps_orders_insert_one (doc : OrderDoc.t) :
  preserves stock_nonneg (Db.orders_insert_one doc).
Proof.
  apply preserves_await; [apply stock_nonneg_action|].
  intros orc k w Hw. cbv zeta.
  by destruct (Collection.insert_one (orders w) (gen_id orc k) doc).
Qed.

Ltac keep_stock :=
  repeat first
    [ apply preserves_ret
    | apply preserves_raise
    | apply preserves_lift
    | apply preserves_utcnow
    | apply keeps_products_update_one_quantity
    | apply keeps_orders_insert_one
    | apply preserves_bind; [|intros ?]
    | apply preserves_try_except; [|intros ?]
    | apply preserves_await; [apply stock_nonneg_action | by intros ???]
    | match goal with
      | |- preserves _ (if ?x then _ else _) => destruct x
      | |- preserves _ (match ?x with Some _ => _ | None => _ end) => destruct x
      | |- preserves _ (match ?x with Ok _ => _ | Raise _ => _ end) => destruct x
      | |- forall _, preserves _ _ => intros ?
      end ].

Lemma keeps_create_product (product : ProductIn.t) :
  (0 <= ProductIn.available_quantity product)%Z ->
  preserves stock_nonneg (ProductService.create_product product).
Proof.
  intros Hq. unfold ProductService.create_product, log_and_reraise,
    Db.products_find_one.
  apply preserves_try_except; [|keep_stock].
  apply preserves_bind; [keep_stock|intros t1].
  apply preserves_bind; [keep_stock|intros t2].
  apply preserves_bind; [by apply keeps_products_insert_one|intros oid].
  keep_stock.
Qed.

Lemma keeps_list_products (name size : option string)
    (pagination : option PaginationParams.t) :
  preserves stock_nonneg (ProductService.list_products name size pagination).
Proof.
  unfold ProductService.list_products, log_and_reraise, paginate,
    Db.products_to_list.
  keep_stock.
Qed.

Lemma keeps_get_product_by_id (product_id : string) :
  preserves stock_nonneg (ProductService.get_product_by_id product_id).
Proof.
  unfold ProductService.get_product_by_id, log_and_reraise, ObjectId_new,
    Db.products_find_one.
  keep_stock.
Qed.

Lemma keeps_update_product_quantity (product_id : string) (change : Z) :
  preserves stock_nonneg
    (ProductService.update_product_quantity product_id change).
Proof.
  unfold ProductService.update_product_quantity, log_and_reraise, ObjectId_new.
  keep_stock.
Qed.

Lemma keeps_create_order (order : OrderIn.t) :
  preserves stock_nonneg (OrderService.create_order order).
Proof.
  unfold OrderService.create_order.
  apply preserves_try_except; [|keep_stock].
  apply preserves_bind; [apply keeps_get_product_by_id|intros product].
  destruct product as [product|]; [|keep_stock].
  destruct (_ <? _)%Z; [keep_stock|].
  apply preserves_bind; [keep_stock|intros t].
  apply preserves_bind; [keep_stock|intros oid].
  apply preserves_bind; [apply keeps_update_product_quantity|intros updated].
  unfold Db.orders_delete_one, Db.orders_find_one.
  keep_stock.
Qed.

Lemma keeps_list_user_orders (user_id : string)
    (pagination : option PaginationParams.t) :
  preserves stock_nonneg (OrderService.list_user_orders user_id pagination).
Proof.
  unfold OrderService.list_user_orders, log_and_reraise, paginate,
    Db.orders_to_list.
  keep_stock.
Qed.

Lemma keeps_handle (r : request) : preserves stock_nonneg (handle r).
Proof.
  destruct r as [data|name size limit offset|data|user_id limit offset
                |order|product_id change];
    unfold handle, discard.
  - unfold App.post_products, ProductsRouter.create_product.
    apply preserves_bind; [|keep_stock].
    apply preserves_bind_lift. intros product Hv.
    apply preserves_try_except; [|keep_stock].
    apply preserves_bind; [|keep_stock].
    apply keeps_create_product.
    by apply (ProductIn_validate_quantity data).
  - unfold ProductsRouter.list_products.
    apply preserves_bind; [|keep_stock].
    apply preserves_try_except; [|keep_stock].
    apply preserves_bind; [keep_stock|intros pagination].
    apply keeps_list_products.
  - unfold App.post_orders, OrdersRouter.create_order.
    apply preserves_bind; [|keep_stock].
    apply preserves_bind; [keep_stock|intros order].
    apply preserves_try_except; [|keep_stock].
    apply preserves_bind; [apply keeps_create_order|keep_stock].
  - unfold OrdersRouter.list_user_orders.
    apply preserves_bind; [|keep_stock].
    apply preserves_try_except; [|keep_stock].
    apply preserves_bind; [keep_stock|intros pagination].
    apply keeps_list_user_orders.
  - apply preserves_bind; [apply keeps_create_order|keep_stock].
  - apply preserves_bind; [apply keeps_update_product_quantity|keep_stock].
Qed.


(** C2.  Start from a database in which no stock is negative (the empty one,
    for instance) and let the system serve any sequence of requests: product
    creations, listings, quantity updates with any change, order creations
    that succeed, fail or are rolled back, each one under any schedule of
    concurrent writes and driver failures.  In every database reached, every
    product has an available quantity of at least zero. *)
Theorem stock_never_negative (w0 w : World) (oid : N) (doc : ProductDoc.t) :
  stock_nonneg w0 ->
  reachable_from w0 w ->
  products w !! oid = Some doc ->
  (0 <= ProductDoc.available_quantity doc)%Z.
Proof.
  intros H0 Hreach. revert oid doc. change (stock_nonneg w).
  induction Hreach as [|w r orc sch _ IH]; [exact H0|].
  unfold run.
  pose proof (keeps_handle r orc sch (mkRunState w 0 0) IH) as Hkeep.
  by destruct (handle r orc sch _).
Qed.


Lemma empty_world_stock_nonneg : stock_nonneg empty_world.
Proof. intros oid doc. unfold empty_world, products. by rewrite lookup_empty. Qed.

Lemma stock_never_negative_witness :
  exists doc : ProductDoc.t,
    products
      (run (handle (PostOrders (OrderIn.mk "u1" "000000000000000000000001" 3)))
           later_oracle alone
           (run (handle (PostProducts shirt)) example_oracle alone
                empty_world).2).2 !! 1%N = Some doc /\
    ProductDoc.available_quantity doc = 2%Z /\
    (0 <= ProductDoc.available_quantity doc)%Z.
Proof.
  set (w1 := (run (handle (PostProducts shirt)) example_oracle alone
                empty_world).2).
  set (w2 := (run (handle (PostOrders
                             (OrderIn.mk "u1" "000000000000000000000001" 3)))
                later_oracle alone w1).2).
  assert (Hreach : reachable_from empty_world w2)
    by apply reach_request, reach_request, reach_start.
  destruct (products w2 !! 1%N) as [doc|] eqn:Hdoc; [|by vm_compute in Hdoc].
  exists doc. split; [reflexivity|]. split.
  - vm_compute in Hdoc. by injection Hdoc as <-.
  - exact (stock_never_negative empty_world w2 1%N doc
             empty_world_stock_nonneg Hreach Hdoc).
Defined.



(** ** The order workflow *)

Lemma seen_alone (k : nat) (w : World) : seen alone k w = w.
Proof. unfold seen, alone, interleaved. by rewrite nth_nil. Qed.

Lemma get_product_by_id_at (product_id : string) (orc : Oracle)
    (sch : Schedule) (st : RunState) :
  nth (calls st) (faults sch) false = false ->
  ProductService.get_product_by_id product_id orc sch st =
  match ObjectId.parse product_id with
  | None => (Ok None, st)
  | Some oid =>
      let w := seen sch (calls st) (world st) in
      (Ok (products w !! oid), mkRunState w (S (calls st)) (ticks st))
  end.
Proof.
  intros Hf.
  unfold ProductService.get_product_by_id, try_except, ObjectId.is_valid,
    ObjectId_new, bind, Db.products_find_one.
  destruct (ObjectId.parse product_id) as [oid|]; simpl; [|done].
  by rewrite await_at.
Qed.

Lemma router_create_order_run (order : OrderIn.t) (orc : Oracle)
    (sch : Schedule) (w : World) :
  run (OrdersRouter.create_order order) orc sch w =
  match run (OrderService.create_order order) orc sch w with
  | (Ok out, w') => (Ok out, w')
  | (Raise e, w') => (Raise (OrdersRouter.create_order_error e), w')
  end.
Proof.
  unfold run, OrdersRouter.create_order, try_except, bind, ret, raise.
  by destruct (OrderService.create_order order orc sch _) as [[out|e] st].
Qed.

(** C4.  Let the lookup of the product go through.  When it finds no
    product (the id is malformed or not stored), [create_order] fails with
    [FileNotFoundError], answered 404; when it finds a product whose
    available quantity is below the requested one, [create_order] fails with
    the [ValueError] for insufficient stock, answered 400.  In both cases the
    request stops there and has written nothing: the database it leaves is the
    one its lookup saw, without a new order and with every product as it was.
    Alone on the store, that is the database it started from. *)
Theorem create_order_rejection_writes_nothing (orc : Oracle) (sch : Schedule)
    (w : World) (order : OrderIn.t) :
  nth 0 (faults sch) false = false ->
  let w_seen :=
    match ObjectId.parse (OrderIn.product_id order) with
    | Some _ => seen sch 0 w
    | None => w
    end in
  let found :=
    match ObjectId.parse (OrderIn.product_id order) with
    | Some oid => products w_seen !! oid
    | None => None
    end in
  let not_found :=
    "Product with ID " ++ OrderIn.product_id order ++ " not found" in
  let insufficient (doc : ProductDoc.t) :=
    "Insufficient quantity. Available: "
    ++ pretty (ProductDoc.available_quantity doc)
    ++ ", Requested: " ++ pretty (OrderIn.quantity order) in
  (found = None ->
     run (OrderService.create_order order) orc sch w
       = (Raise (FileNotFoundError not_found), w_seen) /\
     run (OrdersRouter.create_order order) orc sch w
       = (Raise (HTTPException 404 not_found), w_seen)) /\
  (forall doc, found = Some doc ->
     (ProductDoc.available_quantity doc < OrderIn.quantity order)%Z ->
     run (OrderService.create_order order) orc sch w
       = (Raise (ValueError (insufficient doc)), w_seen) /\
     run (OrdersRouter.create_order order) orc sch w
       = (Raise (HTTPException 400 (insufficient doc)), w_seen)) /\
  (sch = alone -> w_seen = w).
Proof.
  intros Hf w_seen found not_found insufficient.
  assert (Hrouter : forall e w',
    run (OrderService.create_order order) orc sch w = (Raise e, w') ->
    run (OrdersRouter.create_order order) orc sch w
      = (Raise (OrdersRouter.create_order_error e), w'))
    by (intros e w' He; by rewrite router_create_order_run, He).
  split; [|split].
  - intros Hnone.
    assert (run (OrderService.create_order order) orc sch w
            = (Raise (FileNotFoundError not_found), w_seen)) as Hservice.
    { subst w_seen found.
      unfold run, OrderService.create_order, try_except, bind. cbv beta.
      rewrite get_product_by_id_at by exact Hf. simpl.
      destruct (ObjectId.parse (OrderIn.product_id order)) as [oid|]; simpl.
      - by rewrite Hnone.
      - done. }
    split; [exact Hservice | by rewrite (Hrouter _ _ Hservice)].
  - intros doc Hsome Hlow.
    assert (run (OrderService.create_order order) orc sch w
            = (Raise (ValueError (insufficient doc)), w_seen)) as Hservice.
    { subst w_seen found.
      unfold run, OrderService.create_order, try_except, bind. cbv beta.
      rewrite get_product_by_id_at by exact Hf. simpl.
      destruct (ObjectId.parse (OrderIn.product_id order)) as [oid|]; simpl;
        [|done].
      rewrite Hsome.
      by destruct (Z.ltb_spec (ProductDoc.available_quantity doc)
                     (OrderIn.quantity order)); [|lia]. }
    split; [exact Hservice | by rewrite (Hrouter _ _ Hservice)].
  - intros ->. subst w_seen.
    destruct (ObjectId.parse (OrderIn.product_id order));
      [apply seen_alone | done].
Qed.

Lemma create_order_rejection_writes_nothing_witness :
  run (OrdersRouter.create_order
         (OrderIn.mk "u1" "000000000000000000000008" 1))
      example_oracle alone example_world
    = (Raise (HTTPException 404
                "Product with ID 000000000000000000000008 not found"),
       example_world) /\
  run (OrdersRouter.create_order (OrderIn.mk "u1" widget_id 6))
      example_oracle alone example_world
    = (Raise (HTTPException 400
                "Insufficient quantity. Available: 5, Requested: 6"),
       example_world).
Proof.
  split.
  - destruct (create_order_rejection_writes_nothing example_oracle alone
                example_world (OrderIn.mk "u1" "000000000000000000000008" 1)
                eq_refl) as [Hnone _].
    apply Hnone. reflexivity.
  - destruct (create_order_rejection_writes_nothing example_oracle alone
                example_world (OrderIn.mk "u1" widget_id 6) eq_refl)
      as (_ & Hlow & _).
    apply (Hlow widget); [reflexivity | simpl; lia].
Defined.

Lemma update_product_quantity_at (product_id : string) (change : Z)
    (orc : Oracle) (sch : Schedule) (st : RunState) :
  nth (calls st) (faults sch) false = false ->
  ProductService.update_product_quantity product_id change orc sch st =
  match ObjectId.parse product_id with
  | None => (Raise InvalidId, st)
  | Some oid =>
      let w := seen sch (calls st) (world st) in
      let upd :=
        Collection.update_one_quantity (products w) oid (stock_guard change)
          change (clock orc (ticks st)) in
      (Ok (0 <? Collection.modified_count upd.2)%Z,
       mkRunState (mkWorld upd.1 (orders w)) (S (calls st)) (S (ticks st)))
  end.
Proof.
  intros Hf.
  unfold ProductService.update_product_quantity, try_except, bind,
    ObjectId_new, Db.products_update_one_quantity, utcnow.
  destruct (ObjectId.parse product_id) as [oid|]; simpl; [|done].
  rewrite await_at by exact Hf. simpl. unfold seen.
  by destruct (Collection.update_one_quantity _ _ _ _ _).
Qed.

(** [create_order] once the product was found with enough stock, the driver
    not failing during the four store calls. *)
Lemma create_order_past_check (orc : Oracle) (sch : Schedule) (w : World)
    (order : OrderIn.t) (oid : N) (doc : ProductDoc.t) :
  nth 0 (faults sch) false = false ->
  nth 1 (faults sch) false = false ->
  nth 2 (faults sch) false = false ->
  nth 3 (faults sch) false = false ->
  ObjectId.parse (OrderIn.product_id order) = Some oid ->
  products (seen sch 0 w) !! oid = Some doc ->
  (OrderIn.quantity order <= ProductDoc.available_quantity doc)%Z ->
  run (OrderService.create_order order) orc sch w =
  match orders (seen sch 1 (seen sch 0 w)) !! gen_id orc 1 with
  | Some _ => (Raise system_error, seen sch 1 (seen sch 0 w))
  | None =>
      let w3 := after_decrement orc sch w order oid in
      if (0 <? Collection.modified_count
                 (decrement_attempt orc sch w order oid).2)%Z
      then match orders w3 !! gen_id orc 1 with
           | Some stored => (Ok (OrderService.order_out (gen_id orc 1) stored), w3)
           | None => (Raise system_error, w3)
           end
      else (Raise (ValueError "Failed to update product quantity"),
            mkWorld (products w3)
              (Collection.delete_one (orders w3) (gen_id orc 1)))
  end.
Proof.
  intros Hf0 Hf1 Hf2 Hf3 Hparse Hdoc Hle.
  unfold run, OrderService.create_order, try_except, bind. cbv beta.
  rewrite get_product_by_id_at by exact Hf0. rewrite Hparse. simpl.
  rewrite Hdoc.
  destruct (Z.ltb_spec (ProductDoc.available_quantity doc)
              (OrderIn.quantity order)); [lia|].
  unfold utcnow, Db.orders_insert_one. simpl.
  rewrite await_at by exact Hf1. simpl. fold (seen sch 1 (seen sch 0 w)).
  unfold Collection.insert_one.
  destruct (orders (seen sch 1 (seen sch 0 w)) !! gen_id orc 1) eqn:Hfresh;
    simpl; [done|].
  rewrite update_product_quantity_at by exact Hf2. rewrite Hparse. simpl.
  fold (order_doc_of order (clock orc 0)).
  change (mkWorld (products (seen sch 1 (seen sch 0 w)))
            (<[gen_id orc 1 := order_doc_of order (clock orc 0)]>
               (orders (seen sch 1 (seen sch 0 w)))))
    with (after_insert orc sch w order).
  fold (decrement_attempt orc sch w order oid).
  destruct (0 <? Collection.modified_count
                   (decrement_attempt orc sch w order oid).2)%Z; simpl.
  - unfold Db.orders_find_one. rewrite await_at by exact Hf3. simpl.
    unfold Collection.find_one, after_decrement.
    fold (seen sch 3
            (mkWorld (decrement_attempt orc sch w order oid).1
               (orders (seen sch 2 (after_insert orc sch w order))))).
    by destruct (orders (seen sch 3 _) !! gen_id orc 1).
  - unfold Db.orders_delete_one. rewrite await_at by exact Hf3. simpl.
    reflexivity.
Qed.

(** ** Listings *)

Lemma to_list_stored {Q D : Type} (created : D -> Z)
    (matches : Q -> N -> D -> bool) (cur : Collection.Cursor Q)
    (c : gmap N D) (kv : N * D) :
  kv ∈ Collection.to_list created matches cur c ->
  c !! kv.1 = Some kv.2 /\ matches (Collection.query cur) kv.1 kv.2 = true.
Proof.
  unfold Collection.to_list. intros Hin.
  assert (Hin' : kv ∈ List.filter
                   (fun kv => matches (Collection.query cur) kv.1 kv.2)
                   (map_to_list c)).
  { destruct (Collection.limited cur =? 0)%Z.
    - apply subseteq_drop in Hin.
      destruct (Collection.ordering cur); [|done].
      by rewrite merge_sort_Permutation in Hin.
    - apply subseteq_take, subseteq_drop in Hin.
      destruct (Collection.ordering cur); [|done].
      by rewrite merge_sort_Permutation in Hin. }
  apply list_elem_of_In, filter_In in Hin' as [Hin' Hmatch].
  split; [|done].
  apply list_elem_of_In in Hin'. destruct kv as [k v].
  by apply elem_of_map_to_list.
Qed.

Lemma list_user_orders_alone (user_id : string)
    (pagination : option PaginationParams.t) (orc : Oracle) (w : World) :
  run (OrderService.list_user_orders user_id pagination) orc alone w =
  let sorted :=
    Collection.sort (Collection.find user_id) Collection.SortCreatedAt (-1) in
  match pagination with
  | Some p =>
      match Collection.skip sorted (PaginationParams.offset p) with
      | Ok cur =>
          (Ok (List.map (fun kv => OrderService.order_out kv.1 kv.2)
                 (Collection.orders_to_list
                    (Collection.limit cur (PaginationParams.limit p))
                    (orders w))), w)
      | Raise e => (Raise e, w)
      end
  | None =>
      (Ok (List.map (fun kv => OrderService.order_out kv.1 kv.2)
             (Collection.orders_to_list sorted (orders w))), w)
  end.
Proof.
  unfold run, OrderService.list_user_orders, try_except, bind, paginate,
    Db.orders_to_list, log_and_reraise.
  destruct pagination as [p|]; simpl; [|done].
  by destruct (Collection.skip _ _) as [cur|e].
Qed.

(** Every order a listing returns is built from a stored order document. *)
Lemma list_user_orders_stored (user_id : string)
    (pagination : option PaginationParams.t) (orc : Oracle) (w : World)
    (listed : list OrderOut.t) (out : OrderOut.t) :
  (run (OrderService.list_user_orders user_id pagination) orc alone w).1
    = Ok listed ->
  out ∈ listed ->
  exists oid stored,
    orders w !! oid = Some stored /\ out = OrderService.order_out oid stored.
Proof.
  rewrite list_user_orders_alone. cbv zeta.
  assert (Hmap : forall cur,
    out ∈ List.map (fun kv => OrderService.order_out kv.1 kv.2)
            (Collection.orders_to_list cur (orders w)) ->
    exists oid stored,
      orders w !! oid = Some stored /\ out = OrderService.order_out oid stored).
  { intros cur Hin. apply list_elem_of_In, in_map_iff in Hin
      as ([oid stored] & <- & Hin%list_elem_of_In).
    apply to_list_stored in Hin as [Hin _]. by exists oid, stored. }
  destruct pagination as [p|].
  - destruct (Collection.skip _ _) as [cur|e]; simpl; [|done].
    intros [= <-]. apply Hmap.
  - simpl. intros [= <-]. apply Hmap.
Qed.

(** C3 (as amended).  Take a [create_order] call whose four store calls the
    driver serves, whose lookup finds the product with enough stock, whose
    order document is inserted, and whose stock decrement then reports that it
    changed nothing (the stock went to a concurrent order, or the product is
    gone).  The workflow deletes the order it just inserted and fails with the
    [ValueError] "Failed to update product quantity", which the HTTP boundary
    answers with status 400 and that message.  The order is not in the
    database the request leaves, and no listing read from that database
    returns it. *)
Theorem lost_decrement_rolls_back (orc : Oracle) (sch : Schedule) (w : World)
    (order : OrderIn.t) (oid : N) (doc : ProductDoc.t) :
  nth 0 (faults sch) false = false ->
  nth 1 (faults sch) false = false ->
  nth 2 (faults sch) false = false ->
  nth 3 (faults sch) false = false ->
  ObjectId.parse (OrderIn.product_id order) = Some oid ->
  products (seen sch 0 w) !! oid = Some doc ->
  (OrderIn.quantity order <= ProductDoc.available_quantity doc)%Z ->
  orders (seen sch 1 (seen sch 0 w)) !! gen_id orc 1 = None ->
  (Collection.modified_count (decrement_attempt orc sch w order oid).2 <= 0)%Z ->
  let w3 := after_decrement orc sch w order oid in
  let final :=
    mkWorld (products w3) (Collection.delete_one (orders w3) (gen_id orc 1)) in
  orders (after_insert orc sch w order) !! gen_id orc 1
    = Some (order_doc_of order (clock orc 0)) /\
  run (OrderService.create_order order) orc sch w
    = (Raise (ValueError "Failed to update product quantity"), final) /\
  run (OrdersRouter.create_order order) orc sch w
    = (Raise (HTTPException 400 "Failed to update product quantity"), final) /\
  orders final !! gen_id orc 1 = None /\
  (forall user_id pagination orc' listed out,
     (run (OrderService.list_user_orders user_id pagination) orc' alone final).1
       = Ok listed ->
     out ∈ listed ->
     exists oid' stored,
       oid' <> gen_id orc 1 /\ orders final !! oid' = Some stored /\
       out = OrderService.order_out oid' stored).
Proof.
  intros Hf0 Hf1 Hf2 Hf3 Hparse Hdoc Hle Hfresh Hlost w3 final.
  assert (Hgone : orders final !! gen_id orc 1 = None)
    by apply lookup_delete_eq.
  assert (Hservice : run (OrderService.create_order order) orc sch w
            = (Raise (ValueError "Failed to update product quantity"), final)).
  { rewrite (create_order_past_check orc sch w order oid doc) by assumption.
    rewrite Hfresh. cbv zeta.
    by destruct (Z.ltb_spec 0 (Collection.modified_count
                   (decrement_attempt orc sch w order oid).2)); [lia|]. }
  repeat split.
  - unfold after_insert. simpl. apply lookup_insert_eq.
  - exact Hservice.
  - by rewrite router_create_order_run, Hservice.
  - exact Hgone.
  - intros user_id pagination orc' listed out Hrun Hin.
    destruct (list_user_orders_stored _ _ _ _ _ _ Hrun Hin)
      as (oid' & stored & Hstored & ->).
    exists oid', stored. repeat split; [|done].
    intros ->. by rewrite Hgone in Hstored.
Qed.

Lemma lost_decrement_rolls_back_witness :
  (run (OrdersRouter.create_order three_widgets)
       example_oracle lost_race example_world).1
    = Raise (HTTPException 400 "Failed to update product quantity") /\
  orders (run (OrdersRouter.create_order three_widgets)
              example_oracle lost_race example_world).2 !! 2%N = None.
Proof.
  destruct (lost_decrement_rolls_back example_oracle lost_race example_world
              three_widgets 7%N widget eq_refl eq_refl eq_refl eq_refl eq_refl
              ltac:(vm_compute; reflexivity)
              ltac:(vm_compute; discriminate)
              ltac:(vm_compute; reflexivity)
              ltac:(vm_compute; discriminate))
    as (_ & _ & Hrouter & Hgone & _).
  rewrite Hrouter. split; [reflexivity | exact Hgone].
Defined.

(** C3 (as stated) fails on the answer: in the lost race above the order is
    inserted and the decrement changes nothing, the order is rolled back, and
    the answer is a 400, not a 5xx. *)
Lemma lost_decrement_answer_is_not_5xx :
  orders (after_insert example_oracle lost_race example_world three_widgets)
    !! 2%N = Some (order_doc_of three_widgets 1000) /\
  Collection.modified_count
    (decrement_attempt example_oracle lost_race example_world
       three_widgets 7%N).2 = 0%Z /\
  (run (OrdersRouter.create_order three_widgets)
       example_oracle lost_race example_world).1
    = Raise (HTTPException 400 "Failed to update product quantity") /\
  is_server_error
    (run (OrdersRouter.create_order three_widgets)
         example_oracle lost_race example_world).1 = false.
Proof. repeat split; vm_compute; reflexivity. Qed.

(** ** How failures of the store are answered *)

(** Whatever goes wrong inside [create_order] leaves it as a [ValueError] or
    a [FileNotFoundError]: the last [except] clause turns every other
    exception into a [ValueError]. *)
Lemma create_order_raises (order : OrderIn.t) (orc : Oracle) (sch : Schedule)
    (st st' : RunState) (e : exn) :
  OrderService.create_order order orc sch st = (Raise e, st') ->
  is_ValueError e || is_FileNotFoundError e = true.
Proof.
  unfold OrderService.create_order, try_except.
  match goal with
  | |- context [bind ?m ?k orc sch st] =>
      destruct (bind m k orc sch st) as [[out|e0] st0]
  end; [done|].
  destruct (is_ValueError e0 || is_FileNotFoundError e0) eqn:Hcls;
    unfold raise; intros [= <- <-]; [exact Hcls | reflexivity].
Qed.

Lemma create_order_lookup_fault (order : OrderIn.t) (orc : Oracle)
    (sch : Schedule) (w : World) (oid : N) :
  ObjectId.parse (OrderIn.product_id order) = Some oid ->
  nth 0 (faults sch) false = true ->
  run (OrderService.create_order order) orc sch w
    = (Raise system_error, seen sch 0 w).
Proof.
  intros Hparse Hfault.
  unfold run, OrderService.create_order, ProductService.get_product_by_id,
    try_except, bind, ObjectId.is_valid, ObjectId_new, Db.products_find_one.
  rewrite Hparse. simpl. by rewrite await_fault.
Qed.

(** C5: what the code does.  Once the service is built, the handler of
    [POST /orders] never answers with a 5xx status, whatever the order, the
    oracle and the schedule: nothing that goes wrong inside
    [OrderService.create_order] reaches the [except Exception] clause of the
    handler, because the service has already turned every unexpected
    exception into a [ValueError].  So when the driver fails on the lookup of
    the product, the first store call, the answer is 400 with the message
    "Failed to create order due to system error"; and likewise when it fails
    on the insertion of an order that passed every check.  A driver failure
    in the creation of a product, in contrast, reaches the 500 clause of its
    handler. *)
Theorem storage_failure_is_answered_400 :
  (forall (order : OrderIn.t) (orc : Oracle) (sch : Schedule) (w : World),
     is_server_error (run (OrdersRouter.create_order order) orc sch w).1
       = false) /\
  (forall (order : OrderIn.t) (orc : Oracle) (sch : Schedule) (w : World)
          (oid : N),
     ObjectId.parse (OrderIn.product_id order) = Some oid ->
     nth 0 (faults sch) false = true ->
     run (OrdersRouter.create_order order) orc sch w
       = (Raise (HTTPException 400
                   "Failed to create order due to system error"),
          seen sch 0 w)) /\
  run (App.post_orders three_widgets) example_oracle insert_fails example_world
    = (Raise (HTTPException 400 "Failed to create order due to system error"),
       example_world) /\
  run (App.post_products shirt) example_oracle first_call_fails empty_world
    = (Raise (HTTPException 500 "Failed to create product"), empty_world).
Proof.
  split; [|split; [|split; vm_compute; reflexivity]].
  - intros order orc sch w. rewrite router_create_order_run. unfold run.
    destruct (OrderService.create_order order orc sch _) as [[out|e] st]
      eqn:Hrun; simpl; [done|].
    apply create_order_raises in Hrun. unfold OrdersRouter.create_order_error.
    destruct (is_ValueError e); [done|].
    by destruct (is_FileNotFoundError e).
  - intros order orc sch w oid Hparse Hfault.
    by rewrite router_create_order_run,
      (create_order_lookup_fault order orc sch w oid Hparse Hfault).
Qed.

Lemma storage_failure_is_answered_400_witness :
  run (OrdersRouter.create_order three_widgets) example_oracle
      first_call_fails example_world
    = (Raise (HTTPException 400 "Failed to create order due to system error"),
       example_world).
Proof.
  destruct storage_failure_is_answered_400 as (_ & Hlookup & _).
  exact (Hlookup three_widgets example_oracle first_call_fails example_world
           7%N eq_refl eq_refl).
Defined.

(** ** Object ids and their text *)

Lemma hex_value_digit (d : N) :
  (d < 16)%N -> ObjectId.hex_value (ObjectId.hex_digit d) = Some d.
Proof.
  intros Hd.
  assert (d = 0 \/ d = 1 \/ d = 2 \/ d = 3 \/ d = 4 \/ d = 5 \/ d = 6 \/ d = 7
          \/ d = 8 \/ d = 9 \/ d = 10 \/ d = 11 \/ d = 12 \/ d = 13 \/ d = 14
          \/ d = 15)%N as Hcases by lia.
  repeat (destruct Hcases as [->|Hcases]; [reflexivity|]).
  by subst d.
Qed.

Lemma from_hex_to_hex (k : nat) (n acc : N) (tail : string) :
  ObjectId.from_hex acc (ObjectId.to_hex k n tail) =
  ObjectId.from_hex (acc * 16 ^ N.of_nat k + n mod 16 ^ N.of_nat k)%N tail.
Proof.
  revert n tail. induction k as [|k IH]; intros n tail.
  - simpl. rewrite N.mod_1_r. f_equal. lia.
  - cbn [ObjectId.to_hex]. rewrite IH. cbn [ObjectId.from_hex].
    rewrite hex_value_digit by (apply N.mod_lt; lia).
    f_equal. rewrite Nat2N.inj_succ, N.pow_succ_r', N.Div0.mod_mul_r. lia.
Qed.

Lemma length_to_hex (k : nat) (n : N) (tail : string) :
  String.length (ObjectId.to_hex k n tail) = (k + String.length tail)%nat.
Proof.
  revert n tail. induction k as [|k IH]; intros n tail; [done|].
  cbn [ObjectId.to_hex]. rewrite IH. simpl. lia.
Qed.

(** The text of an id of 12 bytes. *)
Lemma str_wf (oid : N) :
  ObjectId.wf oid -> ObjectId.str oid = ObjectId.to_hex 24 oid EmptyString.
Proof.
  unfold ObjectId.wf, ObjectId.str. intros Hwf.
  by destruct (N.ltb_spec oid (2 ^ 96)); [|lia].
Qed.

Lemma hex_value_not_hex_space (c : ascii) (d : N) :
  ObjectId.hex_value c = Some d -> ObjectId.is_hex_space c = false.
Proof.
  destruct c as [[] [] [] [] [] [] [] []]; vm_compute; congruence.
Qed.

(** On a string of digits, [bytes.fromhex] reads the number the digits
    write, one byte for two digits. *)
Lemma bytes_fromhex_digits (s : string) (top : option N) (count : nat)
    (acc v : N) :
  ObjectId.from_hex
    (match top with Some t => 16 * acc + t | None => acc end)%N s = Some v ->
  Nat.even (String.length s + match top with Some _ => 1 | None => 0 end)
    = true ->
  exists count' : nat,
    ObjectId.bytes_fromhex top count acc s = Some (count', v) /\
    (2 * count' = 2 * count + String.length s
                  + match top with Some _ => 1 | None => 0 end)%nat.
Proof.
  revert top count acc.
  induction s as [|c r IH]; intros top count acc.
  - destruct top as [t|]; simpl; [done|].
    intros [= <-] _. exists count. split; [done|lia].
  - cbn [ObjectId.from_hex ObjectId.bytes_fromhex String.length].
    destruct (ObjectId.hex_value c) as [d|] eqn:Hc; [|done].
    destruct top as [t|].
    + intros Hv Heven.
      destruct (IH None (S count) (256 * acc + 16 * t + d)%N) as (count' & Hrun & Hcount).
      * cbn beta iota. rewrite <- Hv. f_equal. lia.
      * rewrite <- Heven. rewrite Nat.add_0_r.
        replace (S (String.length r) + 1)%nat with (S (S (String.length r)))
          by lia.
        done.
      * exists count'. split; [exact Hrun|lia].
    + rewrite (hex_value_not_hex_space c d Hc).
      intros Hv Heven.
      destruct (IH (Some d) count acc) as (count' & Hrun & Hcount).
      * exact Hv.
      * rewrite <- Heven. f_equal. lia.
      * exists count'. split; [exact Hrun|lia].
Qed.

(** Reading back the text of an id gives the id. *)
Lemma parse_str (oid : N) :
  ObjectId.wf oid -> ObjectId.parse (ObjectId.str oid) = Some oid.
Proof.
  intros Hwf. rewrite (str_wf oid Hwf). unfold ObjectId.parse.
  rewrite length_to_hex. simpl String.length.
  destruct (bytes_fromhex_digits (ObjectId.to_hex 24 oid EmptyString) None 0
              0%N oid) as (count & Hrun & Hcount).
  - rewrite from_hex_to_hex. cbn [ObjectId.from_hex].
    f_equal. rewrite N.mul_0_l, N.add_0_l. apply N.mod_small. exact Hwf.
  - by rewrite length_to_hex.
  - rewrite length_to_hex in Hcount. simpl in Hcount.
    cbn [Nat.eqb]. rewrite Hrun.
    by replace count with 12%nat by lia.
Qed.

Lemma str_inj (oid1 oid2 : N) :
  ObjectId.wf oid1 -> ObjectId.wf oid2 ->
  ObjectId.str oid1 = ObjectId.str oid2 -> oid1 = oid2.
Proof.
  intros H1 H2 Heq. apply parse_str in H1, H2.
  rewrite Heq in H1. congruence.
Qed.

(** ** Orders that go through *)

(** A request alone on a healthy store, for a stored product with enough
    stock, a positive quantity and a fresh generated id: the order is stored
    and returned, and the stock goes down by the quantity. *)
Lemma create_order_alone_success (orc : Oracle) (w : World) (order : OrderIn.t)
    (oid : N) (doc : ProductDoc.t) :
  ObjectId.parse (OrderIn.product_id order) = Some oid ->
  products w !! oid = Some doc ->
  (0 < OrderIn.quantity order)%Z ->
  (OrderIn.quantity order <= ProductDoc.available_quantity doc)%Z ->
  orders w !! gen_id orc 1 = None ->
  run (OrderService.create_order order) orc alone w =
  (Ok (OrderService.order_out (gen_id orc 1) (order_doc_of order (clock orc 0))),
   mkWorld
     (<[oid := decremented doc (OrderIn.quantity order) (clock orc 1)]>
        (products w))
     (<[gen_id orc 1 := order_doc_of order (clock orc 0)]> (orders w))).
Proof.
  intros Hparse Hdoc Hpos Hle Hfresh.
  rewrite (create_order_past_check orc alone w order oid doc);
    rewrite ?seen_alone; try done.
  rewrite Hfresh. cbv zeta.
  assert (Hguard : stock_guard (- OrderIn.quantity order)
                   = OrderIn.quantity order)
    by (unfold stock_guard;
        destruct (Z.ltb_spec (- OrderIn.quantity order) 0); lia).
  assert (Hattempt :
    decrement_attempt orc alone w order oid =
    (<[oid := decremented doc (OrderIn.quantity order) (clock orc 1)]>
       (products w), Collection.mkUpdateResult 1 1)).
  { unfold decrement_attempt, after_insert. rewrite !seen_alone. simpl.
    rewrite Hguard.
    rewrite (update_one_quantity_hit _ _ _ _ _ doc) by (auto; lia).
    by rewrite restocked_neg. }
  unfold after_decrement. rewrite Hattempt, !seen_alone. simpl.
  unfold after_insert. rewrite !seen_alone. simpl.
  by rewrite lookup_insert_eq.
Qed.

(** C6.  [create_order] is not idempotent.  Let a product be stored with an
    available quantity of at least twice the (positive) quantity of an order,
    and let the same order be submitted twice in a row, each time alone on a
    healthy store and with a generated id that is not yet in the collection.
    Both calls succeed, the two orders returned have different ids, both are
    stored, and the available quantity of the product has gone down by twice
    the quantity. *)
Theorem create_order_twice_orders_twice (orc1 orc2 : Oracle) (w : World)
    (order : OrderIn.t) (oid : N) (doc : ProductDoc.t) :
  ObjectId.parse (OrderIn.product_id order) = Some oid ->
  products w !! oid = Some doc ->
  (0 < OrderIn.quantity order)%Z ->
  (2 * OrderIn.quantity order <= ProductDoc.available_quantity doc)%Z ->
  let first := run (OrderService.create_order order) orc1 alone w in
  let second := run (OrderService.create_order order) orc2 alone first.2 in
  ObjectId.wf (gen_id orc1 1) ->
  ObjectId.wf (gen_id orc2 1) ->
  orders w !! gen_id orc1 1 = None ->
  orders first.2 !! gen_id orc2 1 = None ->
  exists (out1 out2 : OrderOut.t) (doc' : ProductDoc.t),
    first.1 = Ok out1 /\
    second.1 = Ok out2 /\
    OrderOut.id out1 <> OrderOut.id out2 /\
    orders second.2 !! gen_id orc1 1 = Some (order_doc_of order (clock orc1 0)) /\
    orders second.2 !! gen_id orc2 1 = Some (order_doc_of order (clock orc2 0)) /\
    products second.2 !! oid = Some doc' /\
    ProductDoc.available_quantity doc'
      = (ProductDoc.available_quantity doc - 2 * OrderIn.quantity order)%Z.
Proof.
  intros Hparse Hdoc Hpos Hle first second Hwf1 Hwf2 Hfresh1.
  subst second first.
  rewrite (create_order_alone_success orc1 w order oid doc)
    by (auto; lia).
  cbn [fst snd]. intros Hfresh2.
  set (doc1 := decremented doc (OrderIn.quantity order) (clock orc1 1)).
  rewrite (create_order_alone_success orc2 _ order oid doc1);
    [|exact Hparse|apply lookup_insert_eq|exact Hpos|simpl; lia|exact Hfresh2].
  cbn [fst snd products orders].
  assert (Hne : gen_id orc1 1 <> gen_id orc2 1).
  { intros Heq. cbn [orders] in Hfresh2.
    by rewrite <- Heq, lookup_insert_eq in Hfresh2. }
  eexists _, _, _. repeat split.
  - simpl. intros Heq. by apply Hne, str_inj.
  - by rewrite lookup_insert_ne, lookup_insert_eq.
  - apply lookup_insert_eq.
  - apply lookup_insert_eq.
  - simpl. lia.
Qed.

Lemma create_order_twice_orders_twice_witness :
  let first :=
    run (OrderService.create_order two_widgets) example_oracle alone
      example_world in
  let second :=
    run (OrderService.create_order two_widgets) later_oracle alone first.2 in
  exists (out1 out2 : OrderOut.t) (doc' : ProductDoc.t),
    first.1 = Ok out1 /\
    second.1 = Ok out2 /\
    OrderOut.id out1 <> OrderOut.id out2 /\
    orders second.2 !! 2%N = Some (order_doc_of two_widgets 1000) /\
    orders second.2 !! 12%N = Some (order_doc_of two_widgets 2000) /\
    products second.2 !! 7%N = Some doc' /\
    ProductDoc.available_quantity doc' = (5 - 2 * 2)%Z.
Proof.
  apply (create_order_twice_orders_twice example_oracle later_oracle
           example_world two_widgets 7%N widget).
  - reflexivity.
  - reflexivity.
  - simpl. lia.
  - simpl. lia.
  - vm_compute. reflexivity.
  - vm_compute. reflexivity.
  - reflexivity.
  - vm_compute. reflexivity.
Defined.

(** ** Text *)

Lemma lower_char_idemp (c : ascii) :
  Text.lower_char (Text.lower_char c) = Text.lower_char c.
Proof. destruct c as [[] [] [] [] [] [] [] []]; reflexivity. Qed.

Lemma is_space_lower_char (c : ascii) :
  Text.is_space (Text.lower_char c) = Text.is_space c.
Proof. destruct c as [[] [] [] [] [] [] [] []]; reflexivity. Qed.

Lemma lower_idemp (s : string) : Text.lower (Text.lower s) = Text.lower s.
Proof.
  induction s as [|c s IH]; [done|]. simpl. by rewrite lower_char_idemp, IH.
Qed.

Lemma lower_empty (s : string) : Text.lower s = EmptyString -> s = EmptyString.
Proof. by destruct s. Qed.

Lemma lstrip_lower (s : string) :
  Text.lstrip (Text.lower s) = Text.lower (Text.lstrip s).
Proof.
  induction s as [|c s IH]; [done|]. simpl. rewrite is_space_lower_char.
  by destruct (Text.is_space c).
Qed.

Lemma rstrip_lower (s : string) :
  Text.rstrip (Text.lower s) = Text.lower (Text.rstrip s).
Proof.
  induction s as [|c s IH]; [done|]. simpl. rewrite IH, is_space_lower_char.
  destruct (Text.rstrip s); simpl; [|done].
  by destruct (Text.is_space c).
Qed.

Lemma strip_lower (s : string) :
  Text.strip (Text.lower s) = Text.lower (Text.strip s).
Proof. unfold Text.strip. by rewrite lstrip_lower, rstrip_lower. Qed.

Lemma rstrip_idemp (s : string) : Text.rstrip (Text.rstrip s) = Text.rstrip s.
Proof.
  induction s as [|c s IH]; [done|]. simpl.
  destruct (Text.rstrip s) as [|d r] eqn:Hr.
  - destruct (Text.is_space c) eqn:Hc; simpl; [done|]. by rewrite Hc.
  - simpl in *. rewrite IH. by destruct r.
Qed.

(** What [lstrip] leaves does not start with a space. *)
Lemma lstrip_head (s : string) (c : ascii) (r : string) :
  Text.lstrip s = String c r -> Text.is_space c = false.
Proof.
  induction s as [|d s IH]; [done|]. simpl.
  destruct (Text.is_space d) eqn:Hd; [exact IH|]. by intros [= <- <-].
Qed.

Lemma lstrip_rstrip_head (c : ascii) (r : string) :
  Text.is_space c = false ->
  Text.lstrip (Text.rstrip (String c r)) = Text.rstrip (String c r).
Proof.
  intros Hc. simpl. destruct (Text.rstrip r); rewrite ?Hc; simpl; by rewrite Hc.
Qed.

Lemma strip_idemp (s : string) : Text.strip (Text.strip s) = Text.strip s.
Proof.
  unfold Text.strip.
  destruct (Text.lstrip s) as [|c r] eqn:Hs; [done|].
  rewrite (lstrip_rstrip_head c r) by exact (lstrip_head s c r Hs).
  apply rstrip_idemp.
Qed.

(** *** Sizes as the schema stores them *)

Lemma normal_size_trimmed (s : string) :
  Text.strip (normal_size s) = normal_size s.
Proof. unfold normal_size. by rewrite strip_lower, strip_idemp. Qed.

Lemma normal_size_lower (s : string) :
  Text.lower (normal_size s) = normal_size s.
Proof. unfold normal_size. apply lower_idemp. Qed.

Lemma valid_sizes_Ok (v sizes : list string) :
  ProductIn.valid_sizes v = Ok sizes ->
  sizes = List.map normal_size v /\
  Forall (fun s => Text.strip s <> EmptyString) v.
Proof.
  revert sizes. induction v as [|s v IH]; intros sizes; simpl.
  - by intros [= <-].
  - destruct (Text.strip s) as [|c r] eqn:Hs; simpl; [done|].
    destruct (ProductIn.valid_sizes v) as [valid|]; [|done].
    intros [= <-]. destruct (IH valid eq_refl) as [-> Hv].
    split.
    + unfold normal_size at 2. by rewrite Hs.
    + constructor; [by rewrite Hs | done].
Qed.

Lemma size_field_Ok (v sizes : list string) :
  ProductIn.size_field v = Ok sizes ->
  v <> [] /\ sizes = List.map normal_size v /\
  Forall (fun s => Text.strip s <> EmptyString) v.
Proof.
  unfold ProductIn.size_field, ProductIn.validate_sizes.
  destruct v as [|s v]; [done|]. simpl (1 <=? _)%nat. cbv iota.
  intros H%valid_sizes_Ok. by split.
Qed.

(** ** Product creation *)

Lemma post_products_alone (orc : Oracle) (w : World) (data : ProductIn.t) :
  run (App.post_products data) orc alone w =
  match ProductIn.validate data with
  | Raise e => (Raise e, w)
  | Ok product =>
      let doc := product_doc_of product (clock orc 0) (clock orc 1) in
      match products w !! gen_id orc 0 with
      | Some _ => (Raise (HTTPException 500 "Failed to create product"), w)
      | None =>
          (Ok (ProductService.product_out (gen_id orc 0) doc),
           mkWorld (<[gen_id orc 0 := doc]> (products w)) (orders w))
      end
  end.
Proof.
  unfold run, App.post_products, bind.
  destruct (ProductIn.validate data) as [product|e]; simpl; [|done].
  unfold ProductsRouter.create_product, ProductService.create_product,
    try_except, bind, utcnow, Db.products_insert_one, Db.products_find_one.
  simpl. rewrite await_alone. simpl. unfold Collection.insert_one.
  destruct (products w !! gen_id orc 0) eqn:Hfresh; simpl; [done|].
  unfold Collection.find_one. by rewrite lookup_insert_eq.
Qed.

Lemma validate_rejects (data : ProductIn.t) :
  (exists e, ProductIn.name_field (ProductIn.name data) = Raise e) \/
  (exists e, ProductIn.price_field (ProductIn.price data) = Raise e) \/
  (exists e, ProductIn.size_field (ProductIn.size data) = Raise e) ->
  ProductIn.validate data = Raise ValidationError.
Proof.
  unfold ProductIn.validate.
  intros [[e He]|[[e He]|[e He]]]; rewrite He;
    repeat match goal with
           | |- context [match ?x with Ok _ => _ | Raise _ => _ end] =>
               destruct x
           end; reflexivity.
Qed.

Lemma float_nonpositive (x : float) :
  PrimFloat.leb x 0%float = true -> PrimFloat.ltb 0%float x = false.
Proof.
  rewrite leb_spec, ltb_spec. unfold SFleb, SFltb.
  replace (Prim2SF 0%float) with (S754_zero false) by reflexivity.
  destruct (Prim2SF x) as [[]|[]| |[] m e]; simpl; congruence.
Qed.

(** C8 (as amended).  When a product creation succeeds, the product is stored
    under the id returned, and its size list is the list of the sizes given,
    each one trimmed and then lower-cased, in the order given: a list that is
    not empty, of strings that are not empty, are trimmed and are lower-case.
    Entries that are equal after this are all kept.  The creation is rejected
    with a validation error, the database staying as it was, when the name is
    empty after trimming, when the price is not positive, or when the size
    list is empty. *)
Theorem product_creation_normalises (orc : Oracle) (w : World)
    (data : ProductIn.t) :
  (forall out w',
     run (App.post_products data) orc alone w = (Ok out, w') ->
     exists oid doc,
       ProductOut.id out = ObjectId.str oid /\
       products w' !! oid = Some doc /\
       ProductDoc.size doc = List.map normal_size (ProductIn.size data) /\
       ProductDoc.size doc <> [] /\
       Forall (fun s => s <> EmptyString /\ Text.strip s = s /\ Text.lower s = s)
         (ProductDoc.size doc)) /\
  (Text.strip (ProductIn.name data) = EmptyString \/
   PrimFloat.leb (ProductIn.price data) 0%float = true \/
   ProductIn.size data = [] ->
   forall sch, run (App.post_products data) orc sch w = (Raise ValidationError, w)).
Proof.
  split.
  - intros out w'. rewrite post_products_alone.
    destruct (ProductIn.validate data) as [product|] eqn:Hv; [|done].
    cbv zeta. destruct (products w !! gen_id orc 0); [done|].
    intros [= <- <-].
    apply ProductIn_validate_Ok in Hv as (_ & _ & Hsize & _).
    apply size_field_Ok in Hsize as (Hne & Hsizes & Hstrip).
    eexists _, _. split; [reflexivity|]. split; [apply lookup_insert_eq|].
    simpl. rewrite Hsizes. split; [done|]. split.
    + by destruct (ProductIn.size data).
    + apply Forall_map. eapply Forall_impl; [exact Hstrip|].
      intros s Hs. simpl. repeat split.
      * unfold normal_size. intros Hempty%lower_empty. done.
      * apply normal_size_trimmed.
      * apply normal_size_lower.
  - intros Hbad sch.
    assert (Hv : ProductIn.validate data = Raise ValidationError).
    { apply validate_rejects. destruct Hbad as [Hname|[Hprice|Hsize]].
      - left. unfold ProductIn.name_field, ProductIn.validate_name.
        rewrite Hname. simpl.
        repeat match goal with
               | |- context [if ?b then _ else _] => destruct b
               end; eauto.
      - right; left. unfold ProductIn.price_field.
        rewrite (float_nonpositive _ Hprice). eauto.
      - right; right. rewrite Hsize. eauto. }
    unfold run, App.post_products, bind. by rewrite Hv.
Qed.

Lemma product_creation_normalises_witness :
  (exists oid doc,
     products (run (App.post_products shirt) example_oracle alone
                 empty_world).2 !! oid = Some doc /\
     ProductDoc.size doc = ["small"; "m"]) /\
  run (App.post_products blank_name) example_oracle alone empty_world
    = (Raise ValidationError, empty_world).
Proof.
  split.
  - destruct (product_creation_normalises example_oracle empty_world shirt)
      as [Hok _].
    destruct (run (App.post_products shirt) example_oracle alone empty_world)
      as [r w'] eqn:Hrun.
    vm_compute in Hrun. injection Hrun as <- <-.
    destruct (Hok _ _ eq_refl) as (oid & doc & _ & Hdoc & Hsize & _).
    exists oid, doc. split; [exact Hdoc | exact Hsize].
  - destruct (product_creation_normalises example_oracle empty_world blank_name)
      as [_ Hbad].
    apply Hbad. left. reflexivity.
Defined.

(** C8 (as stated) fails on duplicates: the sizes ["S"] and ["s"] are both
    stored, as ["s"] twice. *)
Lemma duplicate_sizes_are_kept :
  (run (App.post_products shirt_twice_small) example_oracle alone
     empty_world).1
    = Ok (ProductOut.mk "000000000000000000000001" "Shirt" 19.5%float
            ["s"; "s"] 5) /\
  option_map ProductDoc.size
    (products (run (App.post_products shirt_twice_small) example_oracle alone
                 empty_world).2 !! 1%N)
    = Some ["s"; "s"] /\
  ~ NoDup ["s"; "s"].
Proof.
  split; [vm_compute; reflexivity|]. split; [vm_compute; reflexivity|].
  intros Hnd. apply NoDup_cons in Hnd as [Hin _]. apply Hin. by left.
Qed.

(** ** Product listings *)

Lemma list_products_alone (name_filter size_filter : option string)
    (pagination : option PaginationParams.t) (orc : Oracle) (w : World) :
  run (ProductService.list_products name_filter size_filter pagination)
      orc alone w =
  let found := Collection.find (products_query name_filter size_filter) in
  let read cur :=
    match Collection.products_to_list (regex_beyond orc)
            (Collection.sort cur Collection.SortId 1) (products w) with
    | Ok docs => (Ok (product_outs docs), w)
    | Raise e => (Raise e, w)
    end in
  match pagination with
  | Some p =>
      match Collection.skip found (PaginationParams.offset p) with
      | Ok cur => read (Collection.limit cur (PaginationParams.limit p))
      | Raise e => (Raise e, w)
      end
  | None => read found
  end.
Proof.
  unfold run, ProductService.list_products, try_except, bind, paginate,
    Db.products_to_list, log_and_reraise.
  fold (products_query name_filter size_filter).
  destruct pagination as [p|]; simpl.
  - destruct (Collection.skip _ _) as [cur|e]; simpl; [|done].
    by destruct (Collection.products_to_list _ _ _).
  - by destruct (Collection.products_to_list _ _ _).
Qed.

(** A cursor reads a slice of what the same cursor reads without skip and
    limit. *)
Lemma to_list_slice {Q D : Type} (created : D -> Z)
    (matches : Q -> N -> D -> bool) (q : Q) (s l : Z)
    (spec : option (Collection.sort_key * Z)) (c : gmap N D) :
  l <> 0%Z ->
  Collection.to_list created matches (Collection.mkCursor q s l spec) c =
  take (Z.to_nat (Z.abs l))
    (drop (Z.to_nat s)
       (Collection.to_list created matches (Collection.mkCursor q 0 0 spec) c)).
Proof.
  intros Hl. unfold Collection.to_list. simpl.
  by destruct (Z.eqb_spec l 0).
Qed.

#[local] Instance by_id_total {D : Type} (created : D -> Z) :
  Total (Collection.doc_le created (Collection.SortId, 1%Z)).
Proof. intros x y. simpl. lia. Qed.

#[local] Instance by_id_trans {D : Type} (created : D -> Z) :
  Transitive (Collection.doc_le created (Collection.SortId, 1%Z)).
Proof. intros x y z. simpl. lia. Qed.

Lemma NoDup_fst_filter {D : Type} (f : N * D -> bool) (l : list (N * D)) :
  NoDup (l.*1) -> NoDup ((List.filter f l).*1).
Proof.
  induction l as [|x l IH]; simpl; [done|].
  intros [Hx Hl]%NoDup_cons. destruct (f x); simpl; [|by apply IH].
  apply NoDup_cons. split; [|by apply IH].
  intros (y & Hy & Hin)%list_elem_of_fmap. apply Hx.
  apply list_elem_of_fmap. exists y. split; [done|].
  apply list_elem_of_In. apply list_elem_of_In, filter_In in Hin. tauto.
Qed.

Lemma strictly_ascending {D : Type} (created : D -> Z) (l : list (N * D)) :
  StronglySorted (Collection.doc_le created (Collection.SortId, 1%Z)) l ->
  NoDup (l.*1) ->
  StronglySorted (fun x y => (x.1 < y.1)%N) l.
Proof.
  induction 1 as [|x l Hsorted IH Hall]; [constructor|].
  simpl. intros [Hx Hl]%NoDup_cons. constructor; [by apply IH|].
  apply Forall_forall. intros y Hy.
  pose proof (proj1 (Forall_forall _ _) Hall y Hy) as Hle. simpl in Hle.
  assert (x.1 <> y.1); [|lia].
  intros Heq. apply Hx. rewrite Heq. apply list_elem_of_fmap. by exists y.
Qed.

(** Sorted by [_id], the documents come with strictly ascending ids. *)
Lemma to_list_by_id_ascending {Q D : Type} (created : D -> Z)
    (matches : Q -> N -> D -> bool) (q : Q) (c : gmap N D) :
  StronglySorted (fun x y => (x.1 < y.1)%N)
    (Collection.to_list created matches
       (Collection.mkCursor q 0 0 (Some (Collection.SortId, 1%Z))) c).
Proof.
  unfold Collection.to_list. simpl.
  apply (strictly_ascending created).
  - apply StronglySorted_merge_sort; apply _.
  - rewrite merge_sort_Permutation.
    apply NoDup_fst_filter, NoDup_fst_map_to_list.
Qed.



(** ** Name filters *)

Lemma tokens_plain (s : string) :
  all_plain s = true -> Regex.tokens s = Some (literal_tokens s).
Proof.
  induction s as [|c s IH]; [done|]. simpl.
  intros [Hc Hs]%andb_true_iff. rewrite (IH Hs), Hc. simpl.
  unfold Regex.is_plain, Regex.is_meta in Hc.
  apply andb_true_iff in Hc as [_ Hmeta]. apply negb_true_iff in Hmeta.
  simpl in Hmeta. repeat (apply orb_false_iff in Hmeta as [? Hmeta]).
  by repeat match goal with H : Ascii.eqb c _ = false |- _ => rewrite H; clear H end.
Qed.

Lemma items_literal (s : string) :
  Regex.items (literal_tokens s) = Some (literal_items s).
Proof.
  induction s as [|c s IH]; [done|].
  cbn [literal_tokens literal_items]. destruct s as [|d s].
  - reflexivity.
  - cbn [literal_tokens] in *.
    change (Regex.items
              (Regex.TAtom (Regex.Lit c) :: Regex.TAtom (Regex.Lit d)
               :: literal_tokens s))
      with (option_map (cons (Regex.Lit c, Regex.Once))
              (Regex.items (Regex.TAtom (Regex.Lit d) :: literal_tokens s))).
    by rewrite IH.
Qed.

Lemma compile_plain (s : string) :
  all_plain s = true -> Regex.compile s = Some (literal_items s).
Proof.
  intros Hs. unfold Regex.compile. rewrite (tokens_plain s Hs).
  apply items_literal.
Qed.

Lemma match_here_literal (p s : string) :
  Regex.match_here true (literal_items p) s
  = prefixb (Text.lower p) (Text.lower s).
Proof.
  revert s. induction p as [|c p IH]; intros s; [done|].
  destruct s as [|d s]; [done|]. simpl. by rewrite IH.
Qed.

Lemma search_literal (p s : string) :
  Regex.search true (literal_items p) s = contains_cib p s.
Proof.
  unfold contains_cib. induction s as [|d s IH].
  - simpl. by rewrite (match_here_literal p EmptyString).
  - cbn [Regex.search Text.lower infixb].
    by rewrite IH, (match_here_literal p (String d s)).
Qed.

Lemma prefixb_spec (p s : string) :
  prefixb p s = true <-> exists post, s = p ++ post.
Proof.
  revert s. induction p as [|c p IH]; intros s; simpl.
  - split; [by exists s | done].
  - destruct s as [|d s].
    + split; [done | by intros [post ?]].
    + rewrite andb_true_iff, IH. split.
      * intros [->%Ascii.eqb_eq [post ->]]. by exists post.
      * intros [post [= -> ->]]. split; [apply Ascii.eqb_refl | by exists post].
Qed.

Lemma infixb_spec (p s : string) :
  infixb p s = true <-> exists pre post, s = pre ++ p ++ post.
Proof.
  induction s as [|d s IH]; simpl.
  - rewrite orb_false_r, prefixb_spec. split.
    + intros [post ->]. by exists EmptyString, post.
    + intros [pre [post Heq]]. destruct pre; [by exists post | done].
  - rewrite orb_true_iff, prefixb_spec, IH. split.
    + intros [[post Heq]|[pre [post ->]]].
      * by exists EmptyString, post.
      * by exists (String d pre), post.
    + intros [pre [post Heq]]. destruct pre as [|e pre].
      * left. by exists post.
      * right. injection Heq as -> ->. by exists pre, post.
Qed.

Lemma contains_cib_spec (needle hay : string) :
  contains_cib needle hay = true <-> contains_ci needle hay.
Proof. apply infixb_spec. Qed.

Lemma to_list_unpaged_iff {Q D : Type} (created : D -> Z)
    (matches : Q -> N -> D -> bool) (q : Q)
    (spec : option (Collection.sort_key * Z)) (c : gmap N D) (kv : N * D) :
  kv ∈ Collection.to_list created matches (Collection.mkCursor q 0 0 spec) c
  <-> c !! kv.1 = Some kv.2 /\ matches q kv.1 kv.2 = true.
Proof.
  split; [apply to_list_stored|].
  intros [Hkv Hmatch]. unfold Collection.to_list. simpl.
  assert (Hin : kv ∈ List.filter (fun kv => matches q kv.1 kv.2)
                  (map_to_list c)).
  { apply list_elem_of_In, filter_In. split; [|done].
    apply list_elem_of_In. destruct kv. by apply elem_of_map_to_list. }
  destruct spec; [|done]. by rewrite merge_sort_Permutation.
Qed.

(** The unpaginated listing when the store accepts the query: the stored
    products that pass the test on names, by ascending id. *)
Lemma list_products_by_name (orc : Oracle) (w : World)
    (name_filter : option string) (name_ok : string -> bool) :
  Collection.name_matcher (regex_beyond orc) (products_query name_filter None)
    = Some name_ok ->
  exists docs : list (N * ProductDoc.t),
    run (ProductService.list_products name_filter None None) orc alone w
      = (Ok (product_outs docs), w) /\
    StronglySorted (fun x y => (x.1 < y.1)%N) docs /\
    forall oid doc,
      (oid, doc) ∈ docs <->
      products w !! oid = Some doc /\
      Collection.product_matches name_ok (products_query name_filter None)
        oid doc = true.
Proof.
  intros Hq. rewrite list_products_alone. cbv zeta.
  unfold Collection.products_to_list, Collection.sort, Collection.find.
  cbn [Collection.query Collection.skipped Collection.limited
       Collection.ordering].
  rewrite Hq. eexists. split; [reflexivity|]. split.
  - apply to_list_by_id_ascending.
  - intros oid doc. apply (to_list_unpaged_iff _ _ _ _ _ (oid, doc)).
Qed.

(** C7 (as amended).  Without pagination and without a size filter, the
    listing returns, by ascending id, exactly the stored products whose name
    passes the test of the name filter.  An absent or empty filter lets every
    name pass.  Any other filter is handed to the store as a regular
    expression with the option [i]: the names that pass are those in which
    the pattern matches somewhere, case being ignored, and the listing fails
    when the store rejects the pattern.  For a filter made only of characters
    that stand for themselves in a pattern, the names that pass are exactly
    those that contain the filter as a substring when case is ignored. *)
Theorem name_filter_is_a_pattern (orc : Oracle) (w : World)
    (name_filter : option string) :
  let listing :=
    run (ProductService.list_products name_filter None None) orc alone w in
  let lists_exactly (test : string -> Prop) :=
    exists docs : list (N * ProductDoc.t),
      listing = (Ok (product_outs docs), w) /\
      StronglySorted (fun x y => (x.1 < y.1)%N) docs /\
      forall oid doc,
        (oid, doc) ∈ docs <->
        products w !! oid = Some doc /\ test (ProductDoc.name doc) in
  (name_filter = None \/ name_filter = Some EmptyString ->
   lists_exactly (fun _ => True)) /\
  (forall f, name_filter = Some f -> f <> EmptyString ->
     match Collection.regex_matcher (regex_beyond orc) f "i" with
     | Some name_ok => lists_exactly (fun name => name_ok name = true)
     | None => listing = (Raise OperationFailure, w)
     end) /\
  (forall f p, Regex.compile f = Some p ->
     Collection.regex_matcher (regex_beyond orc) f "i"
       = Some (Regex.search true p)) /\
  (forall f, name_filter = Some f -> all_plain f = true ->
     lists_exactly (contains_ci f)).
Proof.
  intros listing lists_exactly.
  assert (Hall : name_filter = None \/ name_filter = Some EmptyString ->
                 lists_exactly (fun _ => True)).
  { intros Hnone.
    destruct (list_products_by_name orc w name_filter (fun _ => true))
      as (docs & Hrun & Hsorted & Hiff).
    { by destruct Hnone as [-> | ->]. }
    exists docs. split; [exact Hrun|]. split; [exact Hsorted|].
    intros oid doc. rewrite Hiff.
    assert (Collection.product_matches (fun _ => true)
              (products_query name_filter None) oid doc = true) as ->
      by (by destruct Hnone as [-> | ->]).
    tauto. }
  assert (Hregex : forall f name_ok, name_filter = Some f -> f <> EmptyString ->
            Collection.regex_matcher (regex_beyond orc) f "i" = Some name_ok ->
            lists_exactly (fun name => name_ok name = true)).
  { intros f name_ok -> Hf Hm.
    destruct (list_products_by_name orc w (Some f) name_ok)
      as (docs & Hrun & Hsorted & Hiff).
    { unfold Collection.name_matcher, products_query. simpl.
      by destruct f. }
    exists docs. split; [exact Hrun|]. split; [exact Hsorted|].
    intros oid doc. rewrite Hiff.
    unfold Collection.product_matches, products_query. simpl.
    destruct f; [done|]. simpl. by rewrite andb_true_r. }
  split; [exact Hall|]. split; [|split].
  - intros f Hname Hf.
    destruct (Collection.regex_matcher _ _ _) as [name_ok|] eqn:Hm;
      [by apply (Hregex f)|].
    subst listing name_filter. rewrite list_products_alone. cbv zeta.
    unfold Collection.products_to_list, Collection.sort, Collection.find,
      Collection.name_matcher, products_query.
    destruct f; [done|]. simpl. by rewrite Hm.
  - intros f p Hp. unfold Collection.regex_matcher. by rewrite Hp.
  - intros f Hname Hplain. destruct f as [|c f].
    { destruct (Hall (or_intror Hname)) as (docs & Hrun & Hsorted & Hiff).
      exists docs. split; [exact Hrun|]. split; [exact Hsorted|].
      intros oid doc. rewrite Hiff.
      assert (contains_ci EmptyString (ProductDoc.name doc))
        by (by exists EmptyString, (Text.lower (ProductDoc.name doc))).
      tauto. }
    destruct (Hregex (String c f)
                (Regex.search true (literal_items (String c f))) Hname)
      as (docs & Hrun & Hsorted & Hiff); [done | |].
    { unfold Collection.regex_matcher. by rewrite (compile_plain _ Hplain). }
    exists docs. split; [exact Hrun|]. split; [exact Hsorted|].
    intros oid doc. rewrite Hiff, search_literal, contains_cib_spec. done.
Qed.

Lemma name_filter_is_a_pattern_witness :
  exists docs : list (N * ProductDoc.t),
    run (ProductService.list_products (Some "WID") None None)
        example_oracle alone catalogue
      = (Ok (product_outs docs), catalogue) /\
    (7%N, widget) ∈ docs /\
    (3%N, ProductDoc.mk "abc" 1.5%float ["m"] 2 800 800) ∉ docs.
Proof.
  destruct (name_filter_is_a_pattern example_oracle catalogue (Some "WID"))
    as (_ & _ & _ & Hplain).
  destruct (Hplain "WID" eq_refl eq_refl) as (docs & Hrun & _ & Hiff).
  exists docs. split; [exact Hrun|]. split.
  - apply Hiff. split; [reflexivity|].
    apply contains_cib_spec. reflexivity.
  - intros [_ Hin%contains_cib_spec]%Hiff. discriminate.
Defined.

(** C7 (as stated) fails on a filter with a character of the pattern
    language: ["a.c"] is not a substring of the name ["abc"], yet the listing
    filtered by ["a.c"] returns the product named ["abc"]. *)
Lemma name_filter_dot_matches_any_character :
  (run (ProductService.list_products (Some "a.c") None None)
       example_oracle alone catalogue).1
    = Ok [ProductOut.mk "000000000000000000000003" "abc" 1.5%float ["m"] 2] /\
  ~ contains_ci "a.c" "abc".
Proof.
  split; [vm_compute; reflexivity|].
  intros Hin%contains_cib_spec. discriminate.
Qed.

(** ** The order workflow, alone and when the driver fails *)


Lemma update_one_quantity_modified (c : gmap N ProductDoc.t) (oid : N)
    (bound change now : Z) (doc : ProductDoc.t) :
  c !! oid = Some doc ->
  (0 < Collection.modified_count
         (Collection.update_one_quantity c oid bound change now).2)%Z ->
  (Collection.update_one_quantity c oid bound change now).1
    = <[oid := restocked doc change now]> c.
Proof.
  unfold Collection.update_one_quantity. intros ->.
  destruct (bound <=? ProductDoc.available_quantity doc)%Z; simpl; [done|lia].
Qed.

(** [create_order] alone on a healthy store, case by case. *)
Lemma create_order_alone (orc : Oracle) (w : World) (order : OrderIn.t) :
  run (OrderService.create_order order) orc alone w =
  let not_found :=
    FileNotFoundError
      ("Product with ID " ++ OrderIn.product_id order ++ " not found") in
  match ObjectId.parse (OrderIn.product_id order) with
  | None => (Raise not_found, w)
  | Some oid =>
      match products w !! oid with
      | None => (Raise not_found, w)
      | Some doc =>
          if (ProductDoc.available_quantity doc <? OrderIn.quantity order)%Z
          then (Raise (ValueError
                         ("Insufficient quantity. Available: "
                          ++ pretty (ProductDoc.available_quantity doc)
                          ++ ", Requested: " ++ pretty (OrderIn.quantity order))),
                w)
          else
            match orders w !! gen_id orc 1 with
            | Some _ => (Raise system_error, w)
            | None =>
                let order_doc := order_doc_of order (clock orc 0) in
                let upd :=
                  Collection.update_one_quantity (products w) oid
                    (stock_guard (- OrderIn.quantity order))
                    (- OrderIn.quantity order) (clock orc 1) in
                let inserted := <[gen_id orc 1 := order_doc]> (orders w) in
                if (0 <? Collection.modified_count upd.2)%Z
                then (Ok (OrderService.order_out (gen_id orc 1) order_doc),
                      mkWorld upd.1 inserted)
                else (Raise (ValueError "Failed to update product quantity"),
                      mkWorld upd.1
                        (Collection.delete_one inserted (gen_id orc 1)))
            end
      end
  end.
Proof.
  cbv zeta.
  destruct (ObjectId.parse (OrderIn.product_id order)) as [oid|] eqn:Hparse.
  - destruct (products w !! oid) as [doc|] eqn:Hdoc.
    + destruct (Z.ltb_spec (ProductDoc.available_quantity doc)
                  (OrderIn.quantity order)) as [Hlow|Hle].
      * unfold run, OrderService.create_order, try_except, bind. cbv beta.
        rewrite get_product_by_id_at by reflexivity. rewrite Hparse. simpl.
        rewrite seen_alone, Hdoc.
        destruct (Z.ltb_spec (ProductDoc.available_quantity doc)
                    (OrderIn.quantity order)); [|lia].
        done.
      * rewrite (create_order_past_check orc alone w order oid doc);
          rewrite ?seen_alone; try done.
        destruct (orders w !! gen_id orc 1) eqn:Hfresh; [done|].
        unfold after_decrement, decrement_attempt, after_insert.
        rewrite !seen_alone. simpl.
        destruct (0 <? _)%Z; [|done].
        by rewrite lookup_insert_eq.
    + unfold run, OrderService.create_order, try_except, bind. cbv beta.
      rewrite get_product_by_id_at by reflexivity. rewrite Hparse. simpl.
      by rewrite seen_alone, Hdoc.
  - unfold run, OrderService.create_order, try_except, bind. cbv beta.
    rewrite get_product_by_id_at by reflexivity. by rewrite Hparse.
Qed.

Lemma update_product_quantity_fault (product_id : string) (change : Z)
    (oid : N) (orc : Oracle) (sch : Schedule) (st : RunState) :
  ObjectId.parse product_id = Some oid ->
  nth (calls st) (faults sch) false = true ->
  ProductService.update_product_quantity product_id change orc sch st =
  (Raise PyMongoError,
   mkRunState (seen sch (calls st) (world st)) (S (calls st)) (S (ticks st))).
Proof.
  intros Hparse Hf.
  unfold ProductService.update_product_quantity, try_except, bind,
    ObjectId_new, Db.products_update_one_quantity, utcnow.
  rewrite Hparse. simpl. by rewrite await_fault by exact Hf.
Qed.


(** X2.  When the driver fails during the decrement, third store call of
    [create_order], the order inserted by the second call is not deleted: the
    failure of [update_product_quantity] skips the compensation, which only
    runs when the update reports that nothing was modified.  The request
    fails with the [ValueError] of the last [except] clause, answered 400,
    and with no other request writing in between the database it leaves has
    the new order and every product as it was. *)
Theorem failed_decrement_leaves_the_order (orc : Oracle) (sch : Schedule)
    (w : World) (order : OrderIn.t) (oid : N) (doc : ProductDoc.t) :
  nth 0 (faults sch) false = false ->
  nth 1 (faults sch) false = false ->
  nth 2 (faults sch) false = true ->
  ObjectId.parse (OrderIn.product_id order) = Some oid ->
  products (seen sch 0 w) !! oid = Some doc ->
  (OrderIn.quantity order <= ProductDoc.available_quantity doc)%Z ->
  orders (seen sch 1 (seen sch 0 w)) !! gen_id orc 1 = None ->
  let w' := seen sch 2 (after_insert orc sch w order) in
  run (OrderService.create_order order) orc sch w = (Raise system_error, w') /\
  run (OrdersRouter.create_order order) orc sch w
    = (Raise (HTTPException 400 "Failed to create order due to system error"),
       w') /\
  (interleaved sch = [] ->
   w' = mkWorld (products w)
          (<[gen_id orc 1 := order_doc_of order (clock orc 0)]> (orders w))).
Proof.
  intros Hf0 Hf1 Hf2 Hparse Hdoc Hle Hfresh w'.
  assert (Hservice : run (OrderService.create_order order) orc sch w
                     = (Raise system_error, w')).
  { unfold run, OrderService.create_order, try_except, bind. cbv beta.
    rewrite get_product_by_id_at by exact Hf0. rewrite Hparse. simpl.
    rewrite Hdoc.
    destruct (Z.ltb_spec (ProductDoc.available_quantity doc)
                (OrderIn.quantity order)); [lia|].
    unfold utcnow, Db.orders_insert_one. simpl.
    rewrite await_at by exact Hf1. simpl. fold (seen sch 1 (seen sch 0 w)).
    unfold Collection.insert_one. rewrite Hfresh. simpl.
    by rewrite (update_product_quantity_fault _ _ oid) by done. }
  split; [exact Hservice|]. split.
  - by rewrite router_create_order_run, Hservice.
  - intros Hnone. subst w'. unfold after_insert, seen. rewrite Hnone.
    by rewrite !nth_nil.
Qed.

Lemma failed_decrement_leaves_the_order_witness :
  run (OrdersRouter.create_order three_widgets) example_oracle decrement_fails
      example_world
    = (Raise (HTTPException 400 "Failed to create order due to system error"),
       mkWorld {[ 7%N := widget ]}
               {[ 2%N := order_doc_of three_widgets 1000 ]}).
Proof.
  destruct (failed_decrement_leaves_the_order example_oracle decrement_fails
              example_world three_widgets 7%N widget eq_refl eq_refl eq_refl
              eq_refl eq_refl ltac:(vm_compute; discriminate) eq_refl)
    as (_ & Hrouter & Hleft).
  rewrite Hrouter, Hleft by reflexivity. reflexivity.
Defined.

(** X3.  When the decrement of [create_order] reports that it modified
    nothing (the race for the stock was lost) and the driver then fails
    during the deletion of the order, fourth store call, the request fails
    with the [ValueError] of the last [except] clause, answered 400, in place
    of the one for the failed update, and the deletion has not happened: with
    no other request writing just before that call, the orders are those the
    decrement saw, the new order among them. *)
Theorem failed_rollback_leaves_the_order (orc : Oracle) (sch : Schedule)
    (w : World) (order : OrderIn.t) (oid : N) (doc : ProductDoc.t) :
  nth 0 (faults sch) false = false ->
  nth 1 (faults sch) false = false ->
  nth 2 (faults sch) false = false ->
  nth 3 (faults sch) false = true ->
  ObjectId.parse (OrderIn.product_id order) = Some oid ->
  products (seen sch 0 w) !! oid = Some doc ->
  (OrderIn.quantity order <= ProductDoc.available_quantity doc)%Z ->
  orders (seen sch 1 (seen sch 0 w)) !! gen_id orc 1 = None ->
  (Collection.modified_count (decrement_attempt orc sch w order oid).2 <= 0)%Z ->
  let w3 := after_decrement orc sch w order oid in
  run (OrderService.create_order order) orc sch w = (Raise system_error, w3) /\
  run (OrdersRouter.create_order order) orc sch w
    = (Raise (HTTPException 400 "Failed to create order due to system error"),
       w3) /\
  (nth 3 (interleaved sch) [] = [] ->
   orders w3 = orders (seen sch 2 (after_insert orc sch w order))) /\
  (nth 2 (interleaved sch) [] = [] ->
   orders (seen sch 2 (after_insert orc sch w order)) !! gen_id orc 1
     = Some (order_doc_of order (clock orc 0))).
Proof.
  intros Hf0 Hf1 Hf2 Hf3 Hparse Hdoc Hle Hfresh Hlost w3.
  assert (Hservice : run (OrderService.create_order order) orc sch w
                     = (Raise system_error, w3)).
  { unfold run, OrderService.create_order, try_except, bind. cbv beta.
    rewrite get_product_by_id_at by exact Hf0. rewrite Hparse. simpl.
    rewrite Hdoc.
    destruct (Z.ltb_spec (ProductDoc.available_quantity doc)
                (OrderIn.quantity order)); [lia|].
    unfold utcnow, Db.orders_insert_one. simpl.
    rewrite await_at by exact Hf1. simpl. fold (seen sch 1 (seen sch 0 w)).
    unfold Collection.insert_one. rewrite Hfresh. simpl.
    rewrite update_product_quantity_at by exact Hf2. rewrite Hparse. simpl.
    fold (order_doc_of order (clock orc 0)).
    change (mkWorld (products (seen sch 1 (seen sch 0 w)))
              (<[gen_id orc 1 := order_doc_of order (clock orc 0)]>
                 (orders (seen sch 1 (seen sch 0 w)))))
      with (after_insert orc sch w order).
    fold (decrement_attempt orc sch w order oid).
    destruct (Z.ltb_spec 0 (Collection.modified_count
                (decrement_attempt orc sch w order oid).2)); [lia|]. simpl.
    unfold Db.orders_delete_one. by rewrite await_fault by exact Hf3. }
  split; [exact Hservice|]. split; [|split].
  - by rewrite router_create_order_run, Hservice.
  - intros Hnone. subst w3. unfold after_decrement.
    unfold seen at 1. by rewrite Hnone.
  - intros Hnone. unfold seen at 1. rewrite Hnone. simpl.
    unfold after_insert. simpl. apply lookup_insert_eq.
Qed.

Lemma failed_rollback_leaves_the_order_witness :
  run (OrdersRouter.create_order three_widgets) example_oracle rollback_fails
      example_world
    = (Raise (HTTPException 400 "Failed to create order due to system error"),
       mkWorld {[ 7%N := decremented widget 4 950 ]}
               {[ 2%N := order_doc_of three_widgets 1000 ]}).
Proof.
  destruct (failed_rollback_leaves_the_order example_oracle rollback_fails
              example_world three_widgets 7%N widget eq_refl eq_refl eq_refl
              eq_refl eq_refl ltac:(vm_compute; reflexivity)
              ltac:(vm_compute; discriminate) ltac:(vm_compute; reflexivity)
              ltac:(vm_compute; discriminate))
    as (_ & Hrouter & _).
  rewrite Hrouter. vm_compute. reflexivity.
Defined.

(** ** Product creation when the driver fails *)



(** ** Lookups by id *)

Lemma get_order_by_id_at (order_id : string) (orc : Oracle)
    (sch : Schedule) (st : RunState) :
  nth (calls st) (faults sch) false = false ->
  OrderService.get_order_by_id order_id orc sch st =
  match ObjectId.parse order_id with
  | None => (Ok None, st)
  | Some oid =>
      let w := seen sch (calls st) (world st) in
      (Ok (orders w !! oid), mkRunState w (S (calls st)) (ticks st))
  end.
Proof.
  intros Hf.
  unfold OrderService.get_order_by_id, try_except, ObjectId.is_valid,
    ObjectId_new, bind, Db.orders_find_one.
  destruct (ObjectId.parse order_id) as [oid|]; simpl; [|done].
  by rewrite await_at.
Qed.

(** X5.  A lookup by an id that [ObjectId.is_valid] refuses (a text that
    has not 24 characters, or that [bytes.fromhex] does not read) answers
    [None] without a store call: it does not raise, it does not depend on the
    store being healthy, and no write of another request lands while it
    runs.  This holds for products and for orders. *)
Theorem lookup_by_malformed_id_is_absent (id : string) (orc : Oracle)
    (sch : Schedule) (w : World) :
  ObjectId.is_valid id = false ->
  run (ProductService.get_product_by_id id) orc sch w = (Ok None, w) /\
  run (OrderService.get_order_by_id id) orc sch w = (Ok None, w).
Proof.
  intros Hinvalid.
  unfold run, ProductService.get_product_by_id, OrderService.get_order_by_id,
    try_except.
  by rewrite Hinvalid.
Qed.

Lemma lookup_by_malformed_id_is_absent_witness :
  run (ProductService.get_product_by_id "invalid_id_format") example_oracle
      first_call_fails example_world = (Ok None, example_world) /\
  run (OrderService.get_order_by_id "invalid_id_format") example_oracle
      first_call_fails example_world = (Ok None, example_world).
Proof.
  apply (lookup_by_malformed_id_is_absent "invalid_id_format" example_oracle
           first_call_fails example_world).
  reflexivity.
Defined.

(** A lookup by an id [ObjectId] accepts, alone on a healthy store. *)
Lemma get_product_by_id_alone (id : string) (oid : N) (orc : Oracle)
    (w : World) :
  ObjectId.parse id = Some oid ->
  run (ProductService.get_product_by_id id) orc alone w
    = (Ok (products w !! oid), w).
Proof.
  intros Hparse. unfold run. rewrite get_product_by_id_at by reflexivity.
  rewrite Hparse. simpl. by rewrite seen_alone.
Qed.

Lemma get_order_by_id_alone (id : string) (oid : N) (orc : Oracle)
    (w : World) :
  ObjectId.parse id = Some oid ->
  run (OrderService.get_order_by_id id) orc alone w
    = (Ok (orders w !! oid), w).
Proof.
  intros Hparse. unfold run. rewrite get_order_by_id_at by reflexivity.
  rewrite Hparse. simpl. by rewrite seen_alone.
Qed.

(** ** From creation to lookup *)

Lemma hex_value_not_space (c : ascii) (d : N) :
  ObjectId.hex_value c = Some d -> Text.is_space c = false.
Proof.
  destruct c as [[] [] [] [] [] [] [] []]; vm_compute; congruence.
Qed.

Lemma from_hex_strip (s : string) (acc oid : N) :
  ObjectId.from_hex acc s = Some oid ->
  Text.lstrip s = s /\ Text.rstrip s = s.
Proof.
  revert acc. induction s as [|c r IH]; intros acc; simpl; [done|].
  destruct (ObjectId.hex_value c) as [d|] eqn:Hc; [|done].
  intros Hr. apply IH in Hr as [_ Hr].
  rewrite (hex_value_not_space c d Hc), Hr. split; [done|].
  by destruct r.
Qed.

(** The text of an id of 12 bytes has no white space to strip. *)
Lemma strip_str (oid : N) :
  ObjectId.wf oid -> Text.strip (ObjectId.str oid) = ObjectId.str oid.
Proof.
  intros Hwf. rewrite (str_wf oid Hwf). unfold Text.strip.
  destruct (from_hex_strip (ObjectId.to_hex 24 oid EmptyString) 0 oid)
    as [Hl Hr]; [|by rewrite Hl].
  rewrite from_hex_to_hex. cbn [ObjectId.from_hex].
  f_equal. rewrite N.mul_0_l, N.add_0_l. apply N.mod_small. exact Hwf.
Qed.

Lemma name_field_Ok (v n : string) :
  ProductIn.name_field v = Ok n ->
  n = Text.strip v /\ n <> EmptyString /\
  (1 <= String.length v <= 200)%nat.
Proof.
  unfold ProductIn.name_field, ProductIn.validate_name.
  destruct (Nat.leb_spec 1 (String.length v)); simpl; [|done].
  destruct (Nat.leb_spec (String.length v) 200); simpl; [|done].
  destruct (Text.strip v) eqn:Hs; simpl; [done|].
  intros [= <-]. repeat split; done || lia.
Qed.

Lemma price_field_Ok (v p : float) :
  ProductIn.price_field v = Ok p -> p = v /\ PrimFloat.ltb 0%float v = true.
Proof.
  unfold ProductIn.price_field.
  destruct (PrimFloat.ltb 0%float v); [|done]. by intros [= <-].
Qed.

Lemma available_quantity_field_Ok (v q : Z) :
  ProductIn.available_quantity_field v = Ok q -> q = v /\ (0 <= v)%Z.
Proof.
  unfold ProductIn.available_quantity_field.
  destruct (Z.leb_spec 0 v); [|done]. by intros [= <-].
Qed.

(** What a successful [create_order] alone on the store has done. *)
Lemma create_order_alone_Ok (orc : Oracle) (w w' : World) (order : OrderIn.t)
    (out : OrderOut.t) :
  run (OrderService.create_order order) orc alone w = (Ok out, w') ->
  exists (oid : N) (doc : ProductDoc.t),
    ObjectId.parse (OrderIn.product_id order) = Some oid /\
    products w !! oid = Some doc /\
    (OrderIn.quantity order <= ProductDoc.available_quantity doc)%Z /\
    orders w !! gen_id orc 1 = None /\
    out = OrderService.order_out (gen_id orc 1)
            (order_doc_of order (clock orc 0)) /\
    w' = mkWorld
           (<[oid := decremented doc (OrderIn.quantity order) (clock orc 1)]>
              (products w))
           (<[gen_id orc 1 := order_doc_of order (clock orc 0)]> (orders w)).
Proof.
  rewrite create_order_alone. cbv zeta.
  destruct (ObjectId.parse (OrderIn.product_id order)) as [oid|] eqn:Hparse;
    [|done].
  destruct (products w !! oid) as [doc|] eqn:Hdoc; [|done].
  destruct (Z.ltb_spec (ProductDoc.available_quantity doc)
              (OrderIn.quantity order)) as [Hlow|Hle]; [done|].
  destruct (orders w !! gen_id orc 1) eqn:Hfresh; [done|].
  destruct (Z.ltb_spec 0 (Collection.modified_count
              (Collection.update_one_quantity (products w) oid
                 (stock_guard (- OrderIn.quantity order))
                 (- OrderIn.quantity order) (clock orc 1)).2)) as [Hmod|Hmod];
    [|done].
  intros [= <- <-]. exists oid, doc. repeat split; try done.
  rewrite (update_one_quantity_modified _ _ _ _ _ doc) by done.
  by rewrite restocked_neg.
Qed.

(** X6.  An order that [create_order] returned is found by
    [get_order_by_id] under the id of the response, with the fields of the
    request: the user, the product id as the request gave it, the quantity,
    and the creation time of the response.  The generated id is one an
    [ObjectId] can hold. *)
Theorem created_order_is_found (orc orc' : Oracle) (w w' : World)
    (order : OrderIn.t) (out : OrderOut.t) :
  run (OrderService.create_order order) orc alone w = (Ok out, w') ->
  ObjectId.wf (gen_id orc 1) ->
  run (OrderService.get_order_by_id (OrderOut.id out)) orc' alone w'
    = (Ok (Some (OrderDoc.mk (OrderIn.user_id order) (OrderIn.product_id order)
                   (OrderIn.quantity order) (OrderOut.created_at out))), w') /\
  OrderOut.user_id out = OrderIn.user_id order /\
  OrderOut.product_id out = OrderIn.product_id order /\
  OrderOut.quantity out = OrderIn.quantity order.
Proof.
  intros Hrun Hwf.
  destruct (create_order_alone_Ok _ _ _ _ _ Hrun)
    as (oid & doc & _ & _ & _ & _ & -> & ->).
  split; [|done]. simpl.
  rewrite (get_order_by_id_alone _ (gen_id orc 1)) by by apply parse_str.
  simpl. by rewrite lookup_insert_eq.
Qed.

Lemma created_order_is_found_witness :
  run (OrderService.get_order_by_id "000000000000000000000002") later_oracle
      alone
      (run (OrderService.create_order three_widgets) example_oracle alone
         example_world).2
    = (Ok (Some (OrderDoc.mk "u1" widget_id 3 1000)),
       mkWorld {[ 7%N := decremented widget 3 1001 ]}
               {[ 2%N := order_doc_of three_widgets 1000 ]}).
Proof.
  destruct (created_order_is_found example_oracle later_oracle example_world
              _ three_widgets _ eq_refl ltac:(vm_compute; reflexivity))
    as (Hfound & _).
  exact Hfound.
Defined.

(** What a successful [POST /products] alone on the store has done. *)
Lemma post_products_alone_Ok (orc : Oracle) (w w' : World)
    (data : ProductIn.t) (out : ProductOut.t) :
  run (App.post_products data) orc alone w = (Ok out, w') ->
  exists product : ProductIn.t,
    ProductIn.validate data = Ok product /\
    products w !! gen_id orc 0 = None /\
    out = ProductService.product_out (gen_id orc 0)
            (product_doc_of product (clock orc 0) (clock orc 1)) /\
    w' = mkWorld
           (<[gen_id orc 0 := product_doc_of product (clock orc 0) (clock orc 1)]>
              (products w))
           (orders w).
Proof.
  rewrite post_products_alone.
  destruct (ProductIn.validate data) as [product|]; [|done]. cbv zeta.
  destruct (products w !! gen_id orc 0) eqn:Hfresh; [done|].
  intros [= <- <-]. by exists product.
Qed.

(** The fields of a validated product, from those of the request. *)
Lemma ProductIn_validate_fields (data product : ProductIn.t) :
  ProductIn.validate data = Ok product ->
  ProductIn.name product = Text.strip (ProductIn.name data) /\
  ProductIn.price product = ProductIn.price data /\
  ProductIn.size product = List.map normal_size (ProductIn.size data) /\
  ProductIn.available_quantity product = ProductIn.available_quantity data.
Proof.
  intros Hvalid.
  destruct (ProductIn_validate_Ok _ _ Hvalid) as (Hn & Hp & Hs & Hq).
  apply name_field_Ok in Hn as (Hn & _).
  apply price_field_Ok in Hp as (Hp & _).
  apply size_field_Ok in Hs as (_ & Hs & _).
  apply available_quantity_field_Ok in Hq as (Hq & _).
  done.
Qed.

(** X7.  A product that [POST /products] returned is found by
    [get_product_by_id] under the id of the response.  The stored document
    has the name of the request stripped, its price, its sizes stripped and
    lower-cased, its quantity, and the times of the first and of the second
    clock reading as [created_at] and [updated_at]; the response shows the
    same name, price, sizes and quantity. *)
Theorem created_product_is_found (orc orc' : Oracle) (w w' : World)
    (data : ProductIn.t) (out : ProductOut.t) :
  run (App.post_products data) orc alone w = (Ok out, w') ->
  ObjectId.wf (gen_id orc 0) ->
  let doc :=
    ProductDoc.mk (Text.strip (ProductIn.name data)) (ProductIn.price data)
      (List.map normal_size (ProductIn.size data))
      (ProductIn.available_quantity data) (clock orc 0) (clock orc 1) in
  run (ProductService.get_product_by_id (ProductOut.id out)) orc' alone w'
    = (Ok (Some doc), w') /\
  out = ProductService.product_out (gen_id orc 0) doc.
Proof.
  intros Hrun Hwf doc.
  destruct (post_products_alone_Ok _ _ _ _ _ Hrun)
    as (product & Hvalid & _ & -> & ->).
  destruct (ProductIn_validate_fields _ _ Hvalid) as (Hn & Hp & Hs & Hq).
  assert (Hdoc : product_doc_of product (clock orc 0) (clock orc 1) = doc)
    by (unfold product_doc_of, doc; by rewrite Hn, Hp, Hs, Hq).
  rewrite Hdoc. split; [|done]. simpl.
  rewrite (get_product_by_id_alone _ (gen_id orc 0)) by by apply parse_str.
  simpl. by rewrite lookup_insert_eq.
Qed.

Lemma created_product_is_found_witness :
  run (ProductService.get_product_by_id "000000000000000000000001")
      later_oracle alone
      (run (App.post_products shirt) example_oracle alone empty_world).2
    = (Ok (Some (ProductDoc.mk "Shirt" 19.5%float ["small"; "m"] 5 1000 1001)),
       mkWorld
         {[ 1%N := ProductDoc.mk "Shirt" 19.5%float ["small"; "m"] 5 1000 1001 ]}
         ∅).
Proof.
  destruct (created_product_is_found example_oracle later_oracle empty_world
              _ shirt _ eq_refl ltac:(vm_compute; reflexivity))
    as (Hfound & _).
  exact Hfound.
Defined.

Lemma strip_nonempty (s : string) :
  Text.strip s <> EmptyString -> (1 <= String.length s)%nat.
Proof. destruct s; simpl; [done|lia]. Qed.

(** The request data [OrderIn] accepts, and the model it builds. *)
Lemma OrderIn_validate_intro (user_id product_id : string) (quantity : Z) :
  Text.strip user_id <> EmptyString ->
  ObjectId.is_valid (Text.strip product_id) = true ->
  (0 < quantity)%Z ->
  OrderIn.validate (OrderIn.mk user_id product_id quantity)
    = Ok (OrderIn.mk (Text.strip user_id) (Text.strip product_id) quantity).
Proof.
  intros Hu Hp Hq.
  assert (Hp' : Text.strip product_id <> EmptyString)
    by (intros H; by rewrite H in Hp).
  unfold OrderIn.validate, OrderIn.user_id_field, OrderIn.product_id_field,
    OrderIn.quantity_field, OrderIn.validate_ids, OrderIn.validate_object_id.
  cbn [OrderIn.user_id OrderIn.product_id OrderIn.quantity].
  destruct (Nat.leb_spec 1 (String.length user_id));
    [|apply strip_nonempty in Hu; lia].
  destruct (Nat.leb_spec 1 (String.length product_id));
    [|apply strip_nonempty in Hp'; lia].
  destruct (Z.ltb_spec 0 quantity); [|lia].
  destruct (Text.strip user_id); [done|].
  destruct (Text.strip product_id) eqn:Hs; [done|].
  cbn [Text.truthy negb]. by rewrite Hp.
Qed.

Lemma post_orders_run (data order : OrderIn.t) (orc : Oracle)
    (sch : Schedule) (w : World) :
  OrderIn.validate data = Ok order ->
  run (App.post_orders data) orc sch w
    = run (OrdersRouter.create_order order) orc sch w.
Proof. intros Hvalid. unfold run, App.post_orders, bind. by rewrite Hvalid. Qed.

(** X8.  A product that [POST /products] returned can be ordered under the
    id of the response: for a user id that is not blank, a positive quantity
    within the quantity the product was created with, and a fresh generated
    id, [POST /orders] returns the order and the stock of the product is the
    created quantity less the ordered one. *)
Theorem created_product_can_be_ordered (orc1 orc2 : Oracle) (w w1 : World)
    (data : ProductIn.t) (out : ProductOut.t) (user : string) (q : Z) :
  run (App.post_products data) orc1 alone w = (Ok out, w1) ->
  ObjectId.wf (gen_id orc1 0) ->
  Text.strip user <> EmptyString ->
  (0 < q <= ProductIn.available_quantity data)%Z ->
  orders w1 !! gen_id orc2 1 = None ->
  exists (w2 : World) (doc : ProductDoc.t),
    run (App.post_orders (OrderIn.mk user (ProductOut.id out) q)) orc2 alone w1
      = (Ok (OrderOut.mk (ObjectId.str (gen_id orc2 1)) (Text.strip user)
               (ProductOut.id out) q (clock orc2 0)), w2) /\
    products w2 !! gen_id orc1 0 = Some doc /\
    ProductDoc.available_quantity doc
      = (ProductIn.available_quantity data - q)%Z /\
    orders w2
      = <[gen_id orc2 1 := OrderDoc.mk (Text.strip user) (ProductOut.id out) q
                             (clock orc2 0)]> (orders w).
Proof.
  intros Hrun Hwf Huser Hq Hfresh.
  destruct (post_products_alone_Ok _ _ _ _ _ Hrun)
    as (product & Hvalid & _ & -> & ->).
  destruct (ProductIn_validate_fields _ _ Hvalid) as (_ & _ & _ & Hstock).
  cbn [ProductOut.id ProductService.product_out orders] in *.
  pose proof (parse_str _ Hwf) as Hparse.
  pose proof (strip_str _ Hwf) as Hstrip.
  set (stored := product_doc_of product (clock orc1 0) (clock orc1 1)).
  set (w1 := mkWorld (<[gen_id orc1 0 := stored]> (products w)) (orders w)).
  set (order := OrderIn.mk (Text.strip user) (ObjectId.str (gen_id orc1 0)) q).
  assert (Horder : OrderIn.validate
                     (OrderIn.mk user (ObjectId.str (gen_id orc1 0)) q)
                   = Ok order).
  { rewrite OrderIn_validate_intro; [by rewrite Hstrip|done| |lia].
    rewrite Hstrip. unfold ObjectId.is_valid. by rewrite Hparse. }
  assert (Hservice :
    run (OrderService.create_order order) orc2 alone w1 =
    (Ok (OrderService.order_out (gen_id orc2 1)
           (order_doc_of order (clock orc2 0))),
     mkWorld
       (<[gen_id orc1 0 := decremented stored q (clock orc2 1)]> (products w1))
       (<[gen_id orc2 1 := order_doc_of order (clock orc2 0)]> (orders w1)))).
  { apply create_order_alone_success; try done.
    - apply lookup_insert_eq.
    - cbn [OrderIn.quantity order]. lia.
    - unfold stored, product_doc_of.
      cbn [OrderIn.quantity order ProductDoc.available_quantity]. lia. }
  eexists _, (decremented stored q (clock orc2 1)).
  split; [|split; [|split]].
  - rewrite (post_orders_run _ order) by exact Horder.
    rewrite router_create_order_run, Hservice. reflexivity.
  - apply lookup_insert_eq.
  - unfold stored, product_doc_of, decremented.
    cbn [ProductDoc.available_quantity]. lia.
  - reflexivity.
Qed.

Lemma created_product_can_be_ordered_witness :
  exists (w2 : World) (doc : ProductDoc.t),
    run (App.post_orders (OrderIn.mk " u1 " "000000000000000000000001" 3))
        later_oracle alone
        (run (App.post_products shirt) example_oracle alone empty_world).2
      = (Ok (OrderOut.mk "00000000000000000000000c" "u1"
               "000000000000000000000001" 3 2000), w2) /\
    products w2 !! 1%N = Some doc /\
    ProductDoc.available_quantity doc = 2%Z.
Proof.
  destruct (created_product_can_be_ordered example_oracle later_oracle
              empty_world _ shirt _ " u1 " 3 eq_refl
              ltac:(vm_compute; reflexivity) ltac:(vm_compute; discriminate)
              ltac:(simpl; lia) eq_refl)
    as (w2 & doc & Hrun & Hdoc & Hstock & _).
  exists w2, doc. split; [exact Hrun|]. split; [exact Hdoc|exact Hstock].
Defined.

(** ** Validated models *)

Lemma OrderIn_validate_Ok (data order : OrderIn.t) :
  OrderIn.validate data = Ok order ->
  order = OrderIn.mk (Text.strip (OrderIn.user_id data))
            (Text.strip (OrderIn.product_id data)) (OrderIn.quantity data) /\
  Text.strip (OrderIn.user_id data) <> EmptyString /\
  ObjectId.is_valid (Text.strip (OrderIn.product_id data)) = true /\
  (0 < OrderIn.quantity data)%Z.
Proof.
  unfold OrderIn.validate, OrderIn.user_id_field, OrderIn.product_id_field,
    OrderIn.quantity_field, OrderIn.validate_ids, OrderIn.validate_object_id.
  destruct (1 <=? String.length (OrderIn.user_id data))%nat; [|done].
  destruct (Text.strip (OrderIn.user_id data)) as [|c u] eqn:Hu; [done|].
  cbn [Text.truthy negb].
  destruct (1 <=? String.length (OrderIn.product_id data))%nat; [|done].
  destruct (Text.strip (OrderIn.product_id data)) as [|d p] eqn:Hp; [done|].
  cbn [Text.truthy negb].
  destruct (ObjectId.is_valid (String d p)) eqn:Hvalid; [|done].
  cbn [negb].
  destruct (Z.ltb_spec 0 (OrderIn.quantity data)); [|done].
  by intros [= <-].
Qed.

(** X9.  An [OrderIn] that was built holds the user id and the product id of
    the request stripped of surrounding white space and its quantity; the
    user id is not empty, the product id is a text [ObjectId.is_valid]
    accepts and the quantity is positive.  Building an [OrderIn] again from a built one
    gives it back unchanged. *)
Theorem order_validation_normal_form (data order : OrderIn.t) :
  OrderIn.validate data = Ok order ->
  order = OrderIn.mk (Text.strip (OrderIn.user_id data))
            (Text.strip (OrderIn.product_id data)) (OrderIn.quantity data) /\
  OrderIn.user_id order <> EmptyString /\
  ObjectId.is_valid (OrderIn.product_id order) = true /\
  (0 < OrderIn.quantity order)%Z /\
  OrderIn.validate order = Ok order.
Proof.
  intros Hvalid.
  destruct (OrderIn_validate_Ok _ _ Hvalid) as (-> & Hu & Hp & Hq).
  cbn [OrderIn.user_id OrderIn.product_id OrderIn.quantity].
  repeat split; try done.
  rewrite OrderIn_validate_intro; rewrite ?strip_idemp; try done.
Qed.

Lemma order_validation_normal_form_witness :
  OrderIn.validate (OrderIn.mk " u1 " " 507F1F77BCF86CD799439011 " 2)
    = Ok (OrderIn.mk "u1" "507F1F77BCF86CD799439011" 2) /\
  OrderIn.validate (OrderIn.mk "u1" "507F1F77BCF86CD799439011" 2)
    = Ok (OrderIn.mk "u1" "507F1F77BCF86CD799439011" 2).
Proof.
  split; [reflexivity|].
  by destruct (order_validation_normal_form
                 (OrderIn.mk " u1 " " 507F1F77BCF86CD799439011 " 2) _ eq_refl)
    as (_ & _ & _ & _ & H).
Defined.

(** X10.  A request for an order whose user id is blank, whose product id
    stripped of white space is refused by [ObjectId.is_valid], or whose
    quantity is zero or negative is refused when the [OrderIn] is built,
    before the handler runs: no store call is made and the database is the
    one the request found, under every schedule. *)
Theorem invalid_order_is_refused_unseen (data : OrderIn.t) (orc : Oracle)
    (sch : Schedule) (w : World) :
  Text.strip (OrderIn.user_id data) = EmptyString \/
  ObjectId.is_valid (Text.strip (OrderIn.product_id data)) = false \/
  (OrderIn.quantity data <= 0)%Z ->
  OrderIn.validate data = Raise ValidationError /\
  run (App.post_orders data) orc sch w = (Raise ValidationError, w).
Proof.
  intros Hbad.
  assert (Hrefused : OrderIn.validate data = Raise ValidationError).
  { destruct (OrderIn.validate data) as [order|e] eqn:Hvalid.
    - destruct (OrderIn_validate_Ok _ _ Hvalid) as (_ & Hu & Hp & Hq).
      destruct Hbad as [H|[H|H]]; [done| |lia]. by rewrite H in Hp.
    - revert Hvalid. unfold OrderIn.validate.
      by repeat case_match; intros [= <-]. }
  split; [exact Hrefused|].
  unfold run, App.post_orders, bind. by rewrite Hrefused.
Qed.

Lemma invalid_order_is_refused_unseen_witness :
  run (App.post_orders (OrderIn.mk "u1" widget_id 0)) example_oracle alone
      example_world = (Raise ValidationError, example_world) /\
  run (App.post_orders (OrderIn.mk "u1" "invalid_id_format" 1)) example_oracle
      first_call_fails example_world = (Raise ValidationError, example_world).
Proof.
  split.
  - apply (invalid_order_is_refused_unseen (OrderIn.mk "u1" widget_id 0)).
    right. right. simpl. lia.
  - apply (invalid_order_is_refused_unseen
             (OrderIn.mk "u1" "invalid_id_format" 1)).
    right. left. reflexivity.
Defined.

Lemma length_lstrip (s : string) :
  (String.length (Text.lstrip s) <= String.length s)%nat.
Proof.
  induction s as [|c r IH]; simpl; [done|].
  destruct (Text.is_space c); simpl; lia.
Qed.

Lemma length_rstrip (s : string) :
  (String.length (Text.rstrip s) <= String.length s)%nat.
Proof.
  induction s as [|c r IH]; simpl; [done|].
  destruct (Text.rstrip r); [destruct (Text.is_space c)|]; simpl in *; lia.
Qed.

(** Stripping never makes a string longer. *)
Lemma length_strip (s : string) :
  (String.length (Text.strip s) <= String.length s)%nat.
Proof.
  unfold Text.strip.
  pose proof (length_rstrip (Text.lstrip s)). pose proof (length_lstrip s). lia.
Qed.

Lemma normal_size_idemp (s : string) :
  normal_size (normal_size s) = normal_size s.
Proof.
  unfold normal_size at 1. by rewrite normal_size_trimmed, normal_size_lower.
Qed.

Lemma valid_sizes_normal (v : list string) :
  Forall (fun s => Text.strip s <> EmptyString) v ->
  ProductIn.valid_sizes (List.map normal_size v) = Ok (List.map normal_size v).
Proof.
  induction 1 as [|s v Hs _ IH]; simpl; [done|].
  rewrite normal_size_trimmed, IH, normal_size_lower.
  destruct (normal_size s) eqn:Hn; [|done].
  by apply lower_empty in Hn.
Qed.

(** X11.  A [ProductIn] that was built passes its own validation unchanged:
    its name is stripped and still within the length bounds, its price is
    positive, its sizes are stripped, lower-cased and none is empty, and its
    quantity is not negative. *)
Theorem product_validation_idempotent (data product : ProductIn.t) :
  ProductIn.validate data = Ok product ->
  ProductIn.validate product = Ok product.
Proof.
  intros Hvalid.
  destruct (ProductIn_validate_Ok _ _ Hvalid) as (Hn & Hp & Hs & Hq).
  apply name_field_Ok in Hn as (Hn & Hne & Hlen).
  apply price_field_Ok in Hp as (Hp & Hpos).
  apply size_field_Ok in Hs as (Hsome & Hs & Hall).
  apply available_quantity_field_Ok in Hq as (Hq & Hge).
  destruct product as [n p s q]. simpl in *. subst n p s q.
  unfold ProductIn.validate. simpl.
  unfold ProductIn.name_field, ProductIn.validate_name,
    ProductIn.price_field, ProductIn.size_field, ProductIn.validate_sizes,
    ProductIn.available_quantity_field.
  rewrite strip_idemp, Hpos.
  pose proof (length_strip (ProductIn.name data)) as Hshort.
  destruct (Nat.leb_spec 1 (String.length (Text.strip (ProductIn.name data))));
    [|destruct (Text.strip (ProductIn.name data)); simpl in *; [done|lia]].
  destruct (Nat.leb_spec (String.length (Text.strip (ProductIn.name data))) 200);
    [|lia].
  cbn [negb].
  destruct (Text.strip (ProductIn.name data)) eqn:Hname; [done|].
  cbn [Text.truthy negb].
  rewrite valid_sizes_normal by done.
  destruct (ProductIn.size data) as [|s0 rest]; [done|]. simpl.
  by destruct (Z.leb_spec 0 (ProductIn.available_quantity data)); [|lia].
Qed.

Lemma product_validation_idempotent_witness :
  ProductIn.validate (ProductIn.mk "Shirt" 19.5%float ["small"; "m"] 5)
    = Ok (ProductIn.mk "Shirt" 19.5%float ["small"; "m"] 5).
Proof.
  apply (product_validation_idempotent shirt). reflexivity.
Defined.

(** ** Listings by size *)

(** The unpaginated listing when the store accepts the query: the stored
    products that pass the query, by ascending id. *)
Lemma list_products_unpaged (orc : Oracle) (w : World)
    (name_filter size_filter : option string) (name_ok : string -> bool) :
  Collection.name_matcher (regex_beyond orc)
    (products_query name_filter size_filter) = Some name_ok ->
  exists docs : list (N * ProductDoc.t),
    run (ProductService.list_products name_filter size_filter None) orc alone w
      = (Ok (product_outs docs), w) /\
    StronglySorted (fun x y => (x.1 < y.1)%N) docs /\
    forall oid doc,
      (oid, doc) ∈ docs <->
      products w !! oid = Some doc /\
      Collection.product_matches name_ok
        (products_query name_filter size_filter) oid doc = true.
Proof.
  intros Hq. rewrite list_products_alone. cbv zeta.
  unfold Collection.products_to_list, Collection.sort, Collection.find.
  cbn [Collection.query Collection.skipped Collection.limited
       Collection.ordering].
  rewrite Hq. eexists. split; [reflexivity|]. split.
  - apply to_list_by_id_ascending.
  - intros oid doc. apply (to_list_unpaged_iff _ _ _ _ _ (oid, doc)).
Qed.

(** The [$in] test of a size filter. *)
Lemma size_in_spec (f : string) (sizes : list string) :
  existsb (fun s => existsb (String.eqb s) [Text.lower f]) sizes = true
  <-> Text.lower f ∈ sizes.
Proof.
  rewrite existsb_exists. split.
  - intros (s & Hin & Hs). simpl in Hs. rewrite orb_false_r in Hs.
    apply String.eqb_eq in Hs as <-. by apply list_elem_of_In.
  - intros Hin. exists (Text.lower f). split; [by apply list_elem_of_In|].
    simpl. by rewrite String.eqb_refl.
Qed.

(** The query of a size filter, on a stored product. *)
Lemma product_matches_size (orc : Oracle) (name_filter : option string)
    (f : string) (name_ok : string -> bool) (oid : N) (doc : ProductDoc.t) :
  f <> EmptyString ->
  Collection.name_matcher (regex_beyond orc)
    (products_query name_filter (Some f)) = Some name_ok ->
  Collection.product_matches name_ok (products_query name_filter (Some f))
    oid doc = true
  <-> name_ok (ProductDoc.name doc) = true /\ Text.lower f ∈ ProductDoc.size doc.
Proof.
  intros Hf. unfold Collection.name_matcher, Collection.product_matches.
  unfold products_query.
  cbn [Collection.name_regex Collection.size_in].
  destruct f as [|c r]; [done|]. cbn [Text.truthy].
  intros Hq. rewrite andb_true_iff, size_in_spec.
  destruct (match name_filter with
            | Some f0 => if Text.truthy f0 then Some (f0, "i") else None
            | None => None
            end) as [[pattern options]|]; [done|].
  injection Hq as <-. tauto.
Qed.

(** X12.  With a size filter that is not empty, the unpaginated listing
    returns, by ascending id, exactly the stored products that pass the name
    filter and have the lower-cased filter among their sizes as they are
    stored.  The filter is lower-cased and not stripped, and the case of its
    letters does not matter: two filters that lower-case to the same text
    give the same listing. *)
Theorem size_filter_selects_stored_size (orc : Oracle) (w : World)
    (name_filter : option string) (f : string) (name_ok : string -> bool) :
  f <> EmptyString ->
  Collection.name_matcher (regex_beyond orc)
    (products_query name_filter (Some f)) = Some name_ok ->
  (exists docs : list (N * ProductDoc.t),
     run (ProductService.list_products name_filter (Some f) None) orc alone w
       = (Ok (product_outs docs), w) /\
     StronglySorted (fun x y => (x.1 < y.1)%N) docs /\
     forall oid doc,
       (oid, doc) ∈ docs <->
       products w !! oid = Some doc /\
       name_ok (ProductDoc.name doc) = true /\
       Text.lower f ∈ ProductDoc.size doc) /\
  (forall (g : string) (pagination : option PaginationParams.t)
          (sch : Schedule),
     g <> EmptyString -> Text.lower g = Text.lower f ->
     run (ProductService.list_products name_filter (Some g) pagination)
         orc sch w
     = run (ProductService.list_products name_filter (Some f) pagination)
         orc sch w).
Proof.
  intros Hf Hq. split.
  - destruct (list_products_unpaged orc w name_filter (Some f) name_ok Hq)
      as (docs & Hrun & Hsorted & Hdocs).
    exists docs. split; [exact Hrun|]. split; [exact Hsorted|].
    intros oid doc. rewrite Hdocs.
    by rewrite (product_matches_size orc name_filter f name_ok).
  - intros g pagination sch Hg Hlower.
    unfold ProductService.list_products.
    destruct g; [done|]. destruct f; [done|].
    cbn [Text.truthy]. by rewrite Hlower.
Qed.

Lemma size_filter_selects_stored_size_witness :
  exists docs : list (N * ProductDoc.t),
    run (ProductService.list_products None (Some "LARGE") None)
        example_oracle alone catalogue
      = (Ok (product_outs docs), catalogue) /\
    (9%N, ProductDoc.mk "Gadget" 4.5%float ["large"] 1 950 950) ∈ docs /\
    (7%N, widget) ∉ docs.
Proof.
  destruct (size_filter_selects_stored_size example_oracle catalogue None
              "LARGE" (fun _ => true) ltac:(discriminate) eq_refl)
    as ((docs & Hrun & _ & Hdocs) & _).
  exists docs. split; [exact Hrun|]. split.
  - apply Hdocs. split; [reflexivity|]. split; [reflexivity|].
    apply list_elem_of_In. simpl. by left.
  - intros (_ & _ & Hin)%Hdocs. apply list_elem_of_In in Hin. simpl in Hin.
    by destruct Hin as [Hin|[]].
Defined.

(** X13.  A product that [POST /products] returned is listed under each of
    its sizes, whatever the case and the surrounding white space the size
    had in the request: a size filter that lower-cases to the size as it is
    stored finds the product, the response of the creation being one of the
    entries of the listing. *)
Theorem created_product_is_listed_by_size (orc orc' : Oracle) (w w' : World)
    (data : ProductIn.t) (out : ProductOut.t) (s f : string) :
  run (App.post_products data) orc alone w = (Ok out, w') ->
  s ∈ ProductIn.size data ->
  Text.lower f = normal_size s ->
  exists listed : list ProductOut.t,
    run (ProductService.list_products None (Some f) None) orc' alone w'
      = (Ok listed, w') /\
    out ∈ listed.
Proof.
  intros Hrun Hs Hf.
  destruct (post_products_alone_Ok _ _ _ _ _ Hrun)
    as (product & Hvalid & _ & -> & ->).
  destruct (ProductIn_validate_Ok _ _ Hvalid) as (_ & _ & Hsize & _).
  apply size_field_Ok in Hsize as (_ & Hsize & Hall).
  assert (Hne : f <> EmptyString).
  { intros ->. simpl in Hf. symmetry in Hf. apply lower_empty in Hf.
    rewrite Forall_forall in Hall. by apply (Hall s). }
  set (doc := product_doc_of product (clock orc 0) (clock orc 1)).
  set (w1 := mkWorld (<[gen_id orc 0 := doc]> (products w)) (orders w)).
  destruct (list_products_unpaged orc' w1 None (Some f) (fun _ => true) eq_refl)
    as (docs & Hlist & _ & Hdocs).
  exists (product_outs docs). split; [exact Hlist|].
  assert (Hin : (gen_id orc 0, doc) ∈ docs).
  { apply Hdocs. split; [apply lookup_insert_eq|].
    apply (product_matches_size orc' None f (fun _ => true)); [done..|].
    split; [done|]. simpl. rewrite Hsize, Hf.
    apply list_elem_of_In, in_map. by apply list_elem_of_In. }
  apply list_elem_of_In. unfold product_outs.
  apply (in_map (fun kv => ProductService.product_out kv.1 kv.2) docs
           (gen_id orc 0, doc)).
  by apply list_elem_of_In.
Qed.

Lemma created_product_is_listed_by_size_witness :
  exists listed : list ProductOut.t,
    run (ProductService.list_products None (Some "SMALL") None) later_oracle
        alone (run (App.post_products shirt) example_oracle alone empty_world).2
      = (Ok listed,
         (run (App.post_products shirt) example_oracle alone empty_world).2) /\
    ProductOut.mk "000000000000000000000001" "Shirt" 19.5%float
      ["small"; "m"] 5 ∈ listed.
Proof.
  apply (created_product_is_listed_by_size example_oracle later_oracle
           empty_world _ shirt _ " Small" "SMALL" eq_refl).
  - apply list_elem_of_In. simpl. by left.
  - reflexivity.
Defined.

(** ** The orders of a user *)

#[local] Instance newest_first_total {D : Type} (created : D -> Z) :
  Total (Collection.doc_le created (Collection.SortCreatedAt, (-1)%Z)).
Proof. intros x y. simpl. lia. Qed.

#[local] Instance newest_first_trans {D : Type} (created : D -> Z) :
  Transitive (Collection.doc_le created (Collection.SortCreatedAt, (-1)%Z)).
Proof. intros x y z. simpl. lia. Qed.

(** X14.  Without pagination, the listing of a user's orders returns exactly
    the stored orders whose user id is the given one, each once, the most
    recently created first.  Orders of other users are never listed, and the
    listing leaves the database as it was. *)
Theorem user_orders_newest_first (orc : Oracle) (w : World)
    (user_id : string) :
  exists docs : list (N * OrderDoc.t),
    run (OrderService.list_user_orders user_id None) orc alone w
      = (Ok (order_outs docs), w) /\
    StronglySorted
      (fun x y => (OrderDoc.created_at y.2 <= OrderDoc.created_at x.2)%Z)
      docs /\
    NoDup (docs.*1) /\
    forall oid doc,
      (oid, doc) ∈ docs <->
      orders w !! oid = Some doc /\ OrderDoc.user_id doc = user_id.
Proof.
  rewrite list_user_orders_alone. cbv zeta.
  unfold Collection.orders_to_list, Collection.sort, Collection.find.
  cbn [Collection.query Collection.skipped Collection.limited
       Collection.ordering].
  eexists. split; [reflexivity|]. split; [|split].
  - unfold Collection.to_list.
    cbn [Collection.query Collection.skipped Collection.limited
         Collection.ordering Z.eqb Z.to_nat drop].
    apply (StronglySorted_merge_sort
             (Collection.doc_le OrderDoc.created_at
                (Collection.SortCreatedAt, (-1)%Z))).
  - unfold Collection.to_list.
    cbn [Collection.query Collection.skipped Collection.limited
         Collection.ordering Z.eqb Z.to_nat drop].
    rewrite merge_sort_Permutation.
    apply NoDup_fst_filter, NoDup_fst_map_to_list.
  - intros oid doc.
    rewrite (to_list_unpaged_iff _ _ _ _ _ (oid, doc)).
    unfold Collection.order_matches. cbn [fst snd].
    by rewrite String.eqb_eq.
Qed.




(** ** What the listing handlers answer *)

(** A cursor with a limit reads at most that many documents. *)
Lemma length_to_list_limited {Q D : Type} (created : D -> Z)
    (matches : Q -> N -> D -> bool) (q : Q) (s l : Z)
    (spec : option (Collection.sort_key * Z)) (c : gmap N D) :
  (0 < l)%Z ->
  (length (Collection.to_list created matches (Collection.mkCursor q s l spec) c)
   <= Z.to_nat l)%nat.
Proof.
  intros Hl. rewrite to_list_slice by lia. rewrite length_take.
  replace (Z.abs l) with l by lia. lia.
Qed.

(** The paginated listing of products under any schedule. *)
Lemma list_products_at (name_filter size_filter : option string)
    (p : PaginationParams.t) (orc : Oracle) (sch : Schedule) (w : World) :
  (0 <= PaginationParams.offset p)%Z ->
  run (ProductService.list_products name_filter size_filter (Some p))
      orc sch w =
  if nth 0 (faults sch) false then (Raise PyMongoError, seen sch 0 w)
  else
    match Collection.products_to_list (regex_beyond orc)
            (Collection.mkCursor (products_query name_filter size_filter)
               (PaginationParams.offset p) (PaginationParams.limit p)
               (Some (Collection.SortId, 1%Z)))
            (products (seen sch 0 w)) with
    | Ok docs => (Ok (product_outs docs), seen sch 0 w)
    | Raise e => (Raise e, seen sch 0 w)
    end.
Proof.
  intros Hoffset.
  unfold run, ProductService.list_products, try_except, bind, paginate,
    Db.products_to_list, log_and_reraise, Collection.skip.
  fold (products_query name_filter size_filter).
  destruct (Z.ltb_spec (PaginationParams.offset p) 0); [lia|].
  cbv [bind lift ret raise].
  destruct (nth 0 (faults sch) false) eqn:Hf.
  - by rewrite await_fault by exact Hf.
  - rewrite await_at by exact Hf. cbv zeta. cbn [calls world fst snd].
    fold (seen sch 0 w).
    unfold Collection.sort, Collection.limit, Collection.find.
    cbn [Collection.query Collection.skipped Collection.limited
         Collection.ordering].
    by destruct (Collection.products_to_list _ _ _).
Qed.


(** X16.  Under every schedule, the handler of [GET /products] either
    returns a list of at most [limit] products, [limit] being between 1 and
    100 and [offset] at least 0, or answers 500 with the fixed detail
    [Failed to retrieve products]: whatever fails (the parameters, the
    pattern of the name filter, the driver), nothing of the failure shows in
    the answer.  The handler writes nothing: the database it leaves is the
    one it was given or the one its store call saw. *)
Theorem product_listing_answers (name size : option string)
    (limit offset : Z) (orc : Oracle) (sch : Schedule) (w : World) :
  let out :=
    run (ProductsRouter.list_products name size limit offset) orc sch w in
  ((exists listed : list ProductOut.t,
      out.1 = Ok listed /\
      (length listed <= Z.to_nat limit)%nat /\
      (1 <= limit <= 100)%Z /\ (0 <= offset)%Z) \/
   out.1 = Raise (HTTPException 500 "Failed to retrieve products")) /\
  (out.2 = w \/ out.2 = seen sch 0 w).
Proof.
  cbv zeta.
  assert (Hrun :
    run (ProductsRouter.list_products name size limit offset) orc sch w =
    match PaginationParams.validate (PaginationParams.mk limit offset) with
    | Ok p =>
        match run (ProductService.list_products name size (Some p))
                orc sch w with
        | (Ok listed, w') => (Ok listed, w')
        | (Raise _, w') =>
            (Raise (HTTPException 500 "Failed to retrieve products"), w')
        end
    | Raise _ => (Raise (HTTPException 500 "Failed to retrieve products"), w)
    end).
  { unfold run, ProductsRouter.list_products, try_except, bind.
    destruct (PaginationParams.validate _) as [p|e]; cbn [lift ret raise];
      [|done].
    by destruct (ProductService.list_products _ _ _ _ _ _) as [[listed|e] st]. }
  rewrite Hrun. unfold PaginationParams.validate.
  cbn [PaginationParams.limit PaginationParams.offset].
  destruct (Z.leb_spec 1 limit); [|by split; [right|left]].
  destruct (Z.leb_spec limit 100); [|by split; [right|left]].
  destruct (Z.leb_spec 0 offset); [|by split; [right|left]].
  cbn [andb]. rewrite list_products_at by done.
  cbn [PaginationParams.limit PaginationParams.offset].
  destruct (nth 0 (faults sch) false); [by split; right|].
  unfold Collection.products_to_list.
  destruct (Collection.name_matcher _ _) as [name_ok|]; [|by split; right].
  split; [left|by right].
  eexists. split; [reflexivity|]. split; [|done].
  unfold product_outs. rewrite length_map.
  apply length_to_list_limited. lia.
Qed.



(** ** Pagination utilities *)

(** X18.  [calculate_skip_limit] with a page number and a page size between
    1 and 100: page 1 starts at offset 0, page [page] starts at offset
    [(page - 1) * per_page], so the page that follows starts where this one
    stops; the [offset] and [limit] arguments are not looked at.  A page
    number below 1 gives a negative offset, which [PaginationParams]
    refuses. *)
Theorem page_numbers_are_blocks (page per_page : Z) (offset limit : option Z) :
  (1 <= per_page <= 100)%Z ->
  ((1 <= page)%Z ->
   calculate_skip_limit (Some 1%Z) (Some per_page) offset limit
     = Ok (PaginationParams.mk per_page 0) /\
   calculate_skip_limit (Some page) (Some per_page) offset limit
     = Ok (PaginationParams.mk per_page ((page - 1) * per_page)) /\
   calculate_skip_limit (Some (page + 1)%Z) (Some per_page) offset limit
     = Ok (PaginationParams.mk per_page ((page - 1) * per_page + per_page))) /\
  ((page < 1)%Z ->
   calculate_skip_limit (Some page) (Some per_page) offset limit
     = Raise ValidationError).
Proof.
  intros Hsize.
  assert (Hvalid : forall p,
    calculate_skip_limit (Some p) (Some per_page) offset limit
    = if (0 <=? (p - 1) * per_page)%Z
      then Ok (PaginationParams.mk per_page ((p - 1) * per_page))
      else Raise ValidationError).
  { intros p. unfold calculate_skip_limit, PaginationParams.validate.
    cbn [PaginationParams.limit PaginationParams.offset].
    destruct (Z.leb_spec 1 per_page); [|lia].
    by destruct (Z.leb_spec per_page 100); [|lia]. }
  split.
  - intros Hpage. rewrite !Hvalid.
    destruct (Z.leb_spec 0 ((1 - 1) * per_page)); [|lia].
    destruct (Z.leb_spec 0 ((page - 1) * per_page)); [|nia].
    destruct (Z.leb_spec 0 ((page + 1 - 1) * per_page)); [|nia].
    repeat split; do 2 f_equal; lia.
  - intros Hpage. rewrite Hvalid.
    by destruct (Z.leb_spec 0 ((page - 1) * per_page)); [nia|].
Qed.

Lemma page_numbers_are_blocks_witness :
  calculate_skip_limit (Some 3%Z) (Some 20%Z) (Some 7%Z) None
    = Ok (PaginationParams.mk 20 40) /\
  calculate_skip_limit (Some 0%Z) (Some 20%Z) None None = Raise ValidationError.
Proof.
  split.
  - pose proof (page_numbers_are_blocks 3 20 (Some 7%Z) None ltac:(lia))
      as [Hpage _].
    by destruct (Hpage ltac:(lia)) as (_ & -> & _).
  - pose proof (page_numbers_are_blocks 0 20 None None ltac:(lia))
      as [_ Hpage].
    by rewrite Hpage by lia.
Defined.

(** X19.  [calculate_skip_limit] without a page number or without a page
    size uses [offset] and [limit], each replaced by its default when it is
    [None] and also when it is 0: a limit of 0 is not refused as
    [PaginationParams(limit=0)] is, it becomes 10.  A page number given
    without a page size is not looked at. *)
Theorem missing_limit_and_zero_limit_are_ten (page per_page : option Z)
    (offset : Z) :
  page = None \/ per_page = None ->
  (0 <= offset)%Z ->
  calculate_skip_limit page per_page (Some offset) (Some 0%Z)
    = Ok (PaginationParams.mk 10 offset) /\
  calculate_skip_limit page per_page (Some offset) None
    = Ok (PaginationParams.mk 10 offset) /\
  calculate_skip_limit page per_page None None = Ok (PaginationParams.mk 10 0) /\
  PaginationParams.validate (PaginationParams.mk 0 offset)
    = Raise ValidationError /\
  (forall limit : Z,
     (1 <= limit <= 100)%Z ->
     calculate_skip_limit page per_page (Some offset) (Some limit)
       = Ok (PaginationParams.mk limit offset)).
Proof.
  intros Hmissing Hoffset.
  assert (Hfallback : forall o l,
    calculate_skip_limit page per_page o l
    = PaginationParams.validate
        (PaginationParams.mk (or_default l 10) (or_default o 0))).
  { intros o l. unfold calculate_skip_limit.
    destruct Hmissing as [-> | ->]; [done|]. by destruct page. }
  assert (Hoff : or_default (Some offset) 0 = offset).
  { unfold or_default. by destruct (Z.eqb_spec offset 0). }
  rewrite !Hfallback, Hoff. unfold PaginationParams.validate.
  cbn [or_default PaginationParams.limit PaginationParams.offset Z.eqb].
  destruct (Z.leb_spec 0 offset); [|lia].
  repeat split; try done.
  intros limit Hlimit. rewrite Hfallback, Hoff.
  unfold or_default, PaginationParams.validate.
  destruct (Z.eqb_spec limit 0); [lia|].
  cbn [PaginationParams.limit PaginationParams.offset].
  destruct (Z.leb_spec 1 limit); [|lia].
  destruct (Z.leb_spec limit 100); [|lia].
  by destruct (Z.leb_spec 0 offset); [|lia].
Qed.

Lemma missing_limit_and_zero_limit_are_ten_witness :
  calculate_skip_limit (Some 3%Z) None (Some 5%Z) (Some 0%Z)
    = Ok (PaginationParams.mk 10 5).
Proof.
  by destruct (missing_limit_and_zero_limit_are_ten (Some 3%Z) None 5
                 ltac:(by right) ltac:(lia)) as (-> & _).
Defined.

(** X20.  The flags of [PaginationMeta.create] for a listing of [total]
    items and parameters [PaginationParams] accepted: [has_next] holds
    exactly when items remain after the page, that is when the listing
    does not end within the slice the page is; [has_previous] holds exactly
    when the offset is positive, and without it the page is the head of the
    listing.  The total, the limit and the offset are reported as given. *)
Theorem pagination_meta_flags {A : Type} (all : list A)
    (p : PaginationParams.t) :
  PaginationParams.validate p = Ok p ->
  let meta := PaginationMeta.create (Z.of_nat (length all)) p in
  let from := Z.to_nat (PaginationParams.offset p) in
  let size := Z.to_nat (PaginationParams.limit p) in
  (PaginationMeta.has_next meta = true <-> drop (from + size) all <> []) /\
  (PaginationMeta.has_next meta = false <->
   take size (drop from all) = drop from all) /\
  (PaginationMeta.has_previous meta = true <->
   (0 < PaginationParams.offset p)%Z) /\
  (PaginationMeta.has_previous meta = false ->
   take size (drop from all) = take size all) /\
  PaginationMeta.total meta = Z.of_nat (length all) /\
  PaginationMeta.limit meta = PaginationParams.limit p /\
  PaginationMeta.offset meta = PaginationParams.offset p.
Proof.
  intros Hvalid. cbv zeta. revert Hvalid. unfold PaginationParams.validate.
  destruct (Z.leb_spec 1 (PaginationParams.limit p)); [|done].
  destruct (Z.leb_spec (PaginationParams.limit p) 100); [|done].
  destruct (Z.leb_spec 0 (PaginationParams.offset p)); [|done].
  intros _. unfold PaginationMeta.create.
  cbn [PaginationMeta.has_next PaginationMeta.has_previous
       PaginationMeta.total PaginationMeta.limit PaginationMeta.offset].
  assert (Hlen : forall n, drop n all = [] <-> (length all <= n)%nat).
  { intros n. split; [|apply drop_ge].
    intros Hnil. apply (f_equal length) in Hnil.
    rewrite length_drop in Hnil. simpl in Hnil. lia. }
  repeat split; try done.
  - intros Hnext%Z.ltb_lt Hnil%Hlen. lia.
  - intros Hsome. apply Z.ltb_lt.
    destruct (Z.ltb_spec (PaginationParams.offset p + PaginationParams.limit p)
                (Z.of_nat (length all))) as [|Hge]; [done|].
    exfalso. apply Hsome, Hlen. lia.
  - intros Hlast%Z.ltb_ge. apply take_ge. rewrite length_drop. lia.
  - intros Hpage. apply Z.ltb_ge.
    apply (f_equal length) in Hpage.
    rewrite length_take, length_drop in Hpage. lia.
  - apply Z.ltb_lt.
  - apply Z.ltb_lt.
  - intros Hfirst%Z.ltb_ge.
    by replace (Z.to_nat (PaginationParams.offset p)) with 0%nat by lia.
Qed.

Lemma pagination_meta_flags_witness :
  PaginationMeta.has_next
    (PaginationMeta.create 5 (PaginationParams.mk 2 2)) = true /\
  PaginationMeta.has_next
    (PaginationMeta.create 5 (PaginationParams.mk 2 3)) = false.
Proof.
  split.
  - destruct (pagination_meta_flags [1; 2; 3; 4; 5]%nat
                (PaginationParams.mk 2 2) eq_refl) as (Hnext & _).
    by apply Hnext.
  - destruct (pagination_meta_flags [1; 2; 3; 4; 5]%nat
                (PaginationParams.mk 2 3) eq_refl) as (_ & Hlast & _).
    by apply Hlast.
Defined.

(** ** Successive quantity updates *)

Lemma restocked_restocked (doc : ProductDoc.t) (a b t1 t2 : Z) :
  restocked (restocked doc a t1) b t2 = restocked doc (a + b) t2.
Proof. unfold restocked. simpl. f_equal. lia. Qed.

(** X21.  Two quantity updates of one product, one request after the other,
    by changes that are not zero, each passing the stock guard, the changes
    and the quantities they give being integers the store holds (below
    [2 ^ 63] in absolute value): both report success and together they
    change the stock by the sum of the two changes, [updated_at] being the
    time of the second.  So a decrement followed by the restock of the same
    amount gives back the stock there was. *)
Theorem quantity_changes_add_up (orc1 orc2 : Oracle) (w : World)
    (product_id : string) (oid : N) (doc : ProductDoc.t) (a b : Z) :
  ObjectId.parse product_id = Some oid ->
  products w !! oid = Some doc ->
  a <> 0%Z ->
  b <> 0%Z ->
  (Z.abs a < 2 ^ 63)%Z ->
  (Z.abs b < 2 ^ 63)%Z ->
  (ProductDoc.available_quantity doc < 2 ^ 63)%Z ->
  (ProductDoc.available_quantity doc + a < 2 ^ 63)%Z ->
  (ProductDoc.available_quantity doc + a + b < 2 ^ 63)%Z ->
  (stock_guard a <= ProductDoc.available_quantity doc)%Z ->
  (stock_guard b <= ProductDoc.available_quantity doc + a)%Z ->
  let first :=
    run (ProductService.update_product_quantity product_id a) orc1 alone w in
  let second :=
    run (ProductService.update_product_quantity product_id b) orc2 alone
      first.2 in
  first.1 = Ok true /\
  second
    = (Ok true,
       mkWorld (<[oid := restocked doc (a + b) (clock orc2 0)]> (products w))
               (orders w)) /\
  (b = (- a)%Z ->
   exists doc' : ProductDoc.t,
     products second.2 !! oid = Some doc' /\
     ProductDoc.available_quantity doc' = ProductDoc.available_quantity doc).
Proof.
  intros Hparse Hdoc Ha Hb _ _ _ _ _ Hguard1 Hguard2 first second.
  assert (Hfirst : first
    = (Ok true,
       mkWorld (<[oid := restocked doc a (clock orc1 0)]> (products w))
               (orders w))).
  { subst first. rewrite update_product_quantity_alone, Hparse. cbv zeta.
    by rewrite (update_one_quantity_hit _ _ _ _ _ doc). }
  assert (Hsecond : second
    = (Ok true,
       mkWorld (<[oid := restocked doc (a + b) (clock orc2 0)]> (products w))
               (orders w))).
  { subst second. rewrite Hfirst.
    rewrite update_product_quantity_alone, Hparse. cbv zeta.
    cbn [fst snd products orders].
    rewrite (update_one_quantity_hit _ _ _ _ _ (restocked doc a (clock orc1 0)));
      [|apply lookup_insert_eq|done|done].
    cbn [fst snd Collection.modified_count].
    by rewrite insert_insert_eq, restocked_restocked. }
  split; [by rewrite Hfirst|]. split; [exact Hsecond|].
  intros ->. rewrite Hsecond. eexists. split; [apply lookup_insert_eq|].
  simpl. lia.
Qed.

Lemma quantity_changes_add_up_witness :
  run (ProductService.update_product_quantity widget_id 3) later_oracle alone
      (run (ProductService.update_product_quantity widget_id (- 3))
         example_oracle alone example_world).2
    = (Ok true, mkWorld {[ 7%N := restocked widget 0 2000 ]} ∅).
Proof.
  destruct (quantity_changes_add_up example_oracle later_oracle example_world
              widget_id 7%N widget (- 3) 3 eq_refl eq_refl ltac:(lia)
              ltac:(lia) ltac:(lia) ltac:(lia) ltac:(simpl; lia)
              ltac:(simpl; lia) ltac:(simpl; lia)
              ltac:(vm_compute; discriminate)
              ltac:(vm_compute; discriminate)) as (_ & Hsecond & _).
  rewrite Hsecond. vm_compute. reflexivity.
Defined.

(** X22.  What a quantity update alone on the store never does: it never
    touches the orders, never adds or removes a product, never changes a
    product other than the one its id denotes, and on that one never changes
    the name, the price, the sizes or the creation time.  This holds for
    every id text and every change, whatever the update answers. *)
Theorem quantity_update_frame (orc : Oracle) (w : World)
    (product_id : string) (quantity_change : Z) :
  let w' :=
    (run (ProductService.update_product_quantity product_id quantity_change)
       orc alone w).2 in
  orders w' = orders w /\
  forall oid : N,
    match products w !! oid, products w' !! oid with
    | Some doc, Some doc' =>
        ProductDoc.name doc' = ProductDoc.name doc /\
        ProductDoc.price doc' = ProductDoc.price doc /\
        ProductDoc.size doc' = ProductDoc.size doc /\
        ProductDoc.created_at doc' = ProductDoc.created_at doc /\
        (ObjectId.parse product_id <> Some oid -> doc' = doc)
    | None, None => True
    | _, _ => False
    end.
Proof.
  cbv zeta. rewrite update_product_quantity_alone.
  destruct (ObjectId.parse product_id) as [target|] eqn:Hparse.
  - cbv zeta. cbn [snd orders products]. split; [done|]. intros oid.
    unfold Collection.update_one_quantity.
    destruct (products w !! target) as [stored|] eqn:Htarget;
      [destruct (stock_guard quantity_change
                 <=? ProductDoc.available_quantity stored)%Z|];
      cbn [fst].
    + destruct (decide (oid = target)) as [->|Hother].
      * rewrite Htarget, lookup_insert_eq. by repeat split.
      * rewrite lookup_insert_ne by done.
        destruct (products w !! oid); [by repeat split|done].
    + destruct (products w !! oid); [by repeat split|done].
    + destruct (products w !! oid); [by repeat split|done].
  - cbn [snd]. split; [done|]. intros oid.
    destruct (products w !! oid); [by repeat split|done].
Qed.

(** ** The text of an id, in and out *)

Lemma hex_digit_value (c : ascii) (d : N) :
  ObjectId.hex_value c = Some d ->
  ObjectId.hex_digit d = Text.lower_char c /\ (d < 16)%N.
Proof.
  destruct c as [[] [] [] [] [] [] [] []]; vm_compute;
    (discriminate || (intros [= <-]; by split)).
Qed.

Lemma to_hex_front (k : nat) (n : N) (tail : string) :
  ObjectId.to_hex (S k) n tail
  = String (ObjectId.hex_digit ((n / 16 ^ N.of_nat k) mod 16)%N)
      (ObjectId.to_hex k n tail).
Proof.
  revert n tail. induction k as [|k IH]; intros n tail.
  - simpl. by rewrite N.div_1_r.
  - change (ObjectId.to_hex (S (S k)) n tail)
      with (ObjectId.to_hex (S k) (n / 16)%N
              (String (ObjectId.hex_digit (n mod 16)%N) tail)).
    rewrite IH. cbn [ObjectId.to_hex]. do 3 f_equal.
    rewrite Nat2N.inj_succ, N.pow_succ_r'.
    by rewrite N.Div0.div_div.
Qed.

Lemma from_hex_high (s : string) (acc n : N) :
  ObjectId.from_hex acc s = Some n ->
  (n / 16 ^ N.of_nat (String.length s))%N = acc.
Proof.
  revert acc. induction s as [|c r IH]; intros acc.
  - simpl. intros [= <-]. apply N.div_1_r.
  - cbn [ObjectId.from_hex String.length].
    destruct (ObjectId.hex_value c) as [d|] eqn:Hc; [|done].
    intros Hn. apply IH in Hn.
    rewrite Nat2N.inj_succ, N.pow_succ_r', N.mul_comm.
    rewrite <- N.Div0.div_div, Hn.
    destruct (hex_digit_value c d Hc) as [_ Hd].
    rewrite N.mul_comm, N.div_add_l by done.
    rewrite N.div_small by done. lia.
Qed.

Lemma to_hex_from_hex (s : string) (acc n : N) (tail : string) :
  ObjectId.from_hex acc s = Some n ->
  ObjectId.to_hex (String.length s) n tail = (Text.lower s ++ tail)%string.
Proof.
  revert acc. induction s as [|c r IH]; intros acc; [done|].
  cbn [ObjectId.from_hex String.length Text.lower].
  destruct (ObjectId.hex_value c) as [d|] eqn:Hc; [|done].
  intros Hn. rewrite to_hex_front, (IH _ Hn).
  rewrite (from_hex_high _ _ _ Hn).
  destruct (hex_digit_value c d Hc) as [Hdigit Hd].
  replace ((16 * acc + d) mod 16)%N with d
    by (rewrite N.add_comm, N.mul_comm, N.Div0.mod_add;
        symmetry; by apply N.mod_small).
  by rewrite Hdigit.
Qed.

Lemma append_empty_r (s : string) : (s ++ EmptyString)%string = s.
Proof.
  induction s as [|c r IH]; [done|].
  change (String c (r ++ EmptyString)%string = String c r). by rewrite IH.
Qed.

(** What [bytes.fromhex] reads has at most one byte for two characters, and
    when it has that many the string is one of digits only. *)
Lemma bytes_fromhex_full (s : string) (top : option N) (count count' : nat)
    (acc v : N) :
  ObjectId.bytes_fromhex top count acc s = Some (count', v) ->
  (2 * count' <= 2 * count + String.length s
                 + match top with Some _ => 1 | None => 0 end)%nat /\
  ((2 * count' = 2 * count + String.length s
                 + match top with Some _ => 1 | None => 0 end)%nat ->
   ObjectId.from_hex
     (match top with Some t => 16 * acc + t | None => acc end)%N s = Some v).
Proof.
  revert top count acc.
  induction s as [|c r IH]; intros top count acc.
  - destruct top as [t|]; simpl; [done|].
    intros [= <- <-]. split; [lia|done].
  - cbn [ObjectId.from_hex ObjectId.bytes_fromhex String.length].
    destruct top as [t|].
    + destruct (ObjectId.hex_value c) as [d|] eqn:Hc; [|done].
      intros Hrun. apply IH in Hrun as [Hle Hfull]. split; [lia|].
      intros Heq. rewrite <- Hfull by lia. cbn beta iota. f_equal. lia.
    + destruct (ObjectId.is_hex_space c) eqn:Hspace.
      * intros Hrun. apply IH in Hrun as [Hle _]. split; lia.
      * destruct (ObjectId.hex_value c) as [d|] eqn:Hc; [|done].
        intros Hrun. apply IH in Hrun as [Hle Hfull]. split; [lia|].
        intros Heq. apply Hfull. lia.
Qed.

(** The text of an id of 12 bytes is the text it was read from,
    lower-cased. *)
Lemma str_parse (s : string) (oid : N) :
  ObjectId.parse s = Some oid ->
  ObjectId.wf oid ->
  ObjectId.str oid = Text.lower s.
Proof.
  unfold ObjectId.parse. intros Hparse Hwf. rewrite (str_wf oid Hwf).
  destruct (Nat.eqb_spec (String.length s) 24) as [Hlen|]; [|done].
  destruct (ObjectId.bytes_fromhex None 0 0%N s) as [[count v]|] eqn:Hrun;
    [|done].
  injection Hparse as <-. unfold ObjectId.of_bytes, ObjectId.wf in *.
  destruct (Nat.eqb_spec count 12) as [->|]; [|lia].
  apply bytes_fromhex_full in Hrun as [_ Hfull].
  rewrite <- Hlen, (to_hex_from_hex _ 0%N _ _ (Hfull ltac:(lia))).
  apply append_empty_r.
Qed.

(** X23.  The text of an id of 12 bytes, 24 hexadecimal digits in any case,
    denotes the id its lower-cased text denotes: [PyObjectId.validate]
    accepts both and returns that id; a lookup by the text as given and a
    lookup by the text lower-cased make the same store call; and the id the
    response models show for a product stored under that id is the
    lower-cased text. *)
Theorem id_text_is_case_insensitive (s : string) (oid : N) :
  ObjectId.parse s = Some oid ->
  ObjectId.wf oid ->
  PyObjectId.validate s = Ok oid /\
  PyObjectId.validate (Text.lower s) = Ok oid /\
  (forall (orc : Oracle) (sch : Schedule) (w : World),
     run (ProductService.get_product_by_id (Text.lower s)) orc sch w
     = run (ProductService.get_product_by_id s) orc sch w) /\
  (forall doc : ProductDoc.t,
     ProductOut.id (ProductService.product_out oid doc) = Text.lower s).
Proof.
  intros Hparse Hwf. pose proof (str_parse _ _ Hparse Hwf) as Hstr.
  assert (Hlower : ObjectId.parse (Text.lower s) = Some oid)
    by (rewrite <- Hstr; by apply parse_str).
  unfold PyObjectId.validate, ObjectId.is_valid.
  rewrite Hparse, Hlower. repeat split; try done.
  intros orc sch w.
  unfold run, ProductService.get_product_by_id, ObjectId.is_valid,
    ObjectId_new.
  by rewrite Hparse, Hlower.
Qed.

Lemma id_text_is_case_insensitive_witness :
  PyObjectId.validate "507F1F77BCF86CD799439011"
    = PyObjectId.validate "507f1f77bcf86cd799439011" /\
  ObjectId.str 24912482966938930280208240657%N = "507f1f77bcf86cd799439011".
Proof.
  destruct (id_text_is_case_insensitive "507F1F77BCF86CD799439011"
              24912482966938930280208240657%N ltac:(vm_compute; reflexivity)
              ltac:(vm_compute; reflexivity))
    as (Hupper & Hlower & _ & Hout).
  split.
  - rewrite Hupper. exact (eq_sym Hlower).
  - exact (Hout widget).
Defined.

(** ** What the handler of product creation answers *)

(** X24.  Under every schedule, the handler of [POST /products], given a
    [ProductIn] whose name is text of the embedding (code points below 256,
    which the encoder of the store accepts), returns the created product or
    answers 500 with the fixed detail [Failed to create product]: a
    duplicate id, a failure of the driver and a product that is gone when it
    is read back are no [ValueError], so the clause that answers 400 does
    not apply to them. *)
Theorem product_creation_fails_with_500 (product : ProductIn.t)
    (orc : Oracle) (sch : Schedule) (w : World) :
  let out := run (ProductsRouter.create_product product) orc sch w in
  (exists created : ProductOut.t, out.1 = Ok created) \/
  out.1 = Raise (HTTPException 500 "Failed to create product").
Proof.
  cbv zeta.
  unfold run, ProductsRouter.create_product, ProductService.create_product,
    try_except, bind, utcnow, Db.products_insert_one, Db.products_find_one,
    log_and_reraise.
  cbv [ret raise]. cbn [ticks calls world].
  destruct (nth 0 (faults sch) false) eqn:Hf0.
  - rewrite await_fault by exact Hf0. by right.
  - rewrite await_at by exact Hf0. cbv zeta. cbn [calls world ticks].
    destruct (Collection.insert_one _ _ _) as [c|e] eqn:Hinsert.
    + cbn [fst snd].
      destruct (nth 1 (faults sch) false) eqn:Hf1.
      * rewrite await_fault by exact Hf1. by right.
      * rewrite await_at by exact Hf1. cbv zeta. cbn [calls world ticks fst snd].
        destruct (Collection.find_one _ _); [left; by eexists|by right].
    + cbn [fst snd]. unfold Collection.insert_one in Hinsert.
      destruct (products _ !! _); [|done]. injection Hinsert as <-. by right.
Qed.

(** ** From an order to the listing of its user *)

(** X25.  An order that [create_order] returned is listed among the orders
    of its user, and among the orders of no other user. *)
Theorem created_order_is_listed_for_its_user (orc orc' : Oracle)
    (w w' : World) (order : OrderIn.t) (out : OrderOut.t) :
  run (OrderService.create_order order) orc alone w = (Ok out, w') ->
  (exists listed : list OrderOut.t,
     run (OrderService.list_user_orders (OrderIn.user_id order) None)
         orc' alone w' = (Ok listed, w') /\
     out ∈ listed) /\
  (forall (other : string) (listed : list OrderOut.t),
     other <> OrderIn.user_id order ->
     run (OrderService.list_user_orders other None) orc' alone w'
       = (Ok listed, w') ->
     out ∉ listed).
Proof.
  intros Hrun.
  destruct (create_order_alone_Ok _ _ _ _ _ Hrun)
    as (oid & doc & _ & _ & _ & _ & -> & ->).
  split.
  - rewrite list_user_orders_alone. cbv zeta.
    eexists. split; [reflexivity|].
    apply list_elem_of_In.
    apply (in_map (fun kv => OrderService.order_out kv.1 kv.2) _
             (gen_id orc 1, order_doc_of order (clock orc 0))).
    apply list_elem_of_In.
    unfold Collection.orders_to_list, Collection.sort, Collection.find.
    cbn [Collection.query Collection.skipped Collection.limited
         Collection.ordering].
    apply to_list_unpaged_iff. cbn [fst snd orders]. split.
    + apply lookup_insert_eq.
    + unfold Collection.order_matches, order_doc_of.
      cbn [OrderDoc.user_id]. apply String.eqb_refl.
  - intros other listed Hother. rewrite list_user_orders_alone. cbv zeta.
    intros [= <-] Hin.
    apply list_elem_of_In, in_map_iff in Hin as (kv & Hout & Hkv).
    apply list_elem_of_In, to_list_stored in Hkv as [_ Hmatch].
    unfold Collection.order_matches in Hmatch.
    apply String.eqb_eq in Hmatch.
    cbn [Collection.sort Collection.find Collection.query] in Hmatch.
    apply (f_equal OrderOut.user_id) in Hout.
    unfold OrderService.order_out, order_doc_of in Hout.
    cbn [OrderOut.user_id OrderDoc.user_id] in Hout. congruence.
Qed.

Lemma created_order_is_listed_for_its_user_witness :
  exists listed : list OrderOut.t,
    run (OrderService.list_user_orders "u1" None) later_oracle alone
        (run (OrderService.create_order three_widgets) example_oracle alone
           example_world).2
      = (Ok listed,
         (run (OrderService.create_order three_widgets) example_oracle alone
            example_world).2) /\
    OrderOut.mk "000000000000000000000002" "u1" widget_id 3 1000 ∈ listed.
Proof.
  destruct (created_order_is_listed_for_its_user example_oracle later_oracle
              example_world _ three_widgets _ eq_refl) as (Hlisted & _).
  exact Hlisted.
Defined.

(** ** The shape of stored products *)

Section ProductInvariant.

(** A property of product documents that validation establishes and that
    does not depend on the quantity and on the time of the last update. *)
Variable P : ProductDoc.t -> Prop.

Hypothesis P_validated :
  forall (data product : ProductIn.t) (created updated : Z),
    ProductIn.validate data = Ok product ->
    P (product_doc_of product created updated).

Hypothesis P_quantity :
  forall (doc : ProductDoc.t) (quantity now : Z),
    P doc ->
    P (ProductDoc.mk (ProductDoc.name doc) (ProductDoc.price doc)
         (ProductDoc.size doc) quantity (ProductDoc.created_at doc) now).

Lemma all_insert_one (w : World) (c : gmap N ProductDoc.t) (oid : N)
    (doc : ProductDoc.t) :
  products_all P w -> P doc ->
  Collection.insert_one (products w) oid doc = Ok c ->
  products_all P (mkWorld c (orders w)).
Proof.
  intros Hw Hdoc. unfold Collection.insert_one.
  destruct (products w !! oid); [done|]. intros [= <-] oid' doc'. simpl.
  destruct (decide (oid' = oid)) as [->|Hne].
  - rewrite lookup_insert_eq. by intros [= <-].
  - rewrite lookup_insert_ne by done. apply Hw.
Qed.

Lemma all_update_one_quantity (w : World) (oid : N) (bound change now : Z) :
  products_all P w ->
  products_all P
    (mkWorld
       (Collection.update_one_quantity (products w) oid bound change now).1
       (orders w)).
Proof.
  intros Hw oid' doc'. unfold Collection.update_one_quantity. simpl.
  destruct (products w !! oid) as [doc|] eqn:Hdoc; [|apply Hw].
  destruct (bound <=? ProductDoc.available_quantity doc)%Z; [|apply Hw].
  simpl. destruct (decide (oid' = oid)) as [->|Hne].
  - rewrite lookup_insert_eq. intros [= <-]. apply P_quantity. by apply (Hw oid).
  - rewrite lookup_insert_ne by done. apply Hw.
Qed.

Lemma all_action (w : World) (a : action) :
  products_all P w -> products_all P (apply_action w a).
Proof.
  intros Hw. destruct a as [data oid t1 t2|oid change now|oid doc|oid]; simpl.
  - destruct (ProductIn.validate data) as [product|] eqn:Hv; [|done].
    destruct (Collection.insert_one _ _ _) as [c|] eqn:Hins; [|done].
    eapply all_insert_one; [exact Hw| |exact Hins]. by eapply P_validated.
  - by apply all_update_one_quantity.
  - by destruct (Collection.insert_one _ _ _).
  - done.
Qed.

Lemma all_products_insert_one (doc : ProductDoc.t) :
  P doc -> preserves (products_all P) (Db.products_insert_one doc).
Proof.
  intros Hdoc. apply preserves_await; [apply all_action|].
  intros orc k w Hw. cbv zeta.
  destruct (Collection.insert_one (products w) (gen_id orc k) doc)
    as [c|] eqn:Hins; simpl; [|done].
  by eapply all_insert_one.
Qed.

Lemma all_products_update_one_quantity (oid : N) (bound change now : Z) :
  preserves (products_all P)
    (Db.products_update_one_quantity oid bound change now).
Proof.
  apply preserves_await; [apply all_action|].
  intros orc k w Hw.
  pose proof (all_update_one_quantity w oid bound change now Hw) as H.
  by destruct (Collection.update_one_quantity _ _ _ _ _).
Qed.

Lemma all_orders_insert_one (doc : OrderDoc.t) :
  preserves (products_all P) (Db.orders_insert_one doc).
Proof.
  apply preserves_await; [apply all_action|].
  intros orc k w Hw. cbv zeta.
  by destruct (Collection.insert_one (orders w) (gen_id orc k) doc).
Qed.

Ltac keep_all :=
  repeat first
    [ apply preserves_ret
    | apply preserves_raise
    | apply preserves_lift
    | apply preserves_utcnow
    | apply all_products_update_one_quantity
    | apply all_orders_insert_one
    | apply preserves_bind; [|intros ?]
    | apply preserves_try_except; [|intros ?]
    | apply preserves_await; [apply all_action | by intros ???]
    | match goal with
      | |- preserves _ (if ?x then _ else _) => destruct x
      | |- preserves _ (match ?x with Some _ => _ | None => _ end) => destruct x
      | |- preserves _ (match ?x with Ok _ => _ | Raise _ => _ end) => destruct x
      | |- forall _, preserves _ _ => intros ?
      end ].

Lemma all_handle (r : request) : preserves (products_all P) (handle r).
Proof.
  destruct r as [data|name size limit offset|data|user_id limit offset
                |order|product_id change];
    unfold handle, discard, App.post_products, App.post_orders,
      ProductsRouter.create_product, ProductsRouter.list_products,
      OrdersRouter.create_order, OrdersRouter.list_user_orders,
      OrderService.create_order, OrderService.list_user_orders,
      ProductService.create_product, ProductService.list_products,
      ProductService.get_product_by_id,
      ProductService.update_product_quantity, log_and_reraise, paginate,
      ObjectId_new,
      Db.products_find_one, Db.products_to_list, Db.orders_find_one,
      Db.orders_delete_one, Db.orders_to_list.
  - apply preserves_bind; [|keep_all].
    apply preserves_bind_lift. intros product Hv.
    apply preserves_try_except; [|keep_all].
    apply preserves_bind; [|keep_all].
    apply preserves_try_except; [|keep_all].
    apply preserves_bind; [keep_all|intros t1].
    apply preserves_bind; [keep_all|intros t2].
    apply preserves_bind; [|keep_all].
    apply all_products_insert_one. by eapply P_validated.
  - keep_all.
  - keep_all.
  - keep_all.
  - keep_all.
  - keep_all.
Qed.

Lemma all_reachable (w0 w : World) :
  products_all P w0 -> reachable_from w0 w -> products_all P w.
Proof.
  intros H0 Hreach. induction Hreach as [|w r orc sch _ IH]; [done|].
  unfold run.
  pose proof (all_handle r orc sch (mkRunState w 0 0) IH) as Hkeep.
  by destruct (handle r orc sch _).
Qed.

End ProductInvariant.

Lemma well_formed_validated (data product : ProductIn.t) (created updated : Z) :
  ProductIn.validate data = Ok product ->
  well_formed (product_doc_of product created updated).
Proof.
  intros Hvalid.
  destruct (ProductIn_validate_Ok _ _ Hvalid) as (Hn & Hp & Hs & _).
  apply name_field_Ok in Hn as (Hn & Hne & Hlen).
  apply price_field_Ok in Hp as (Hp & Hpos).
  apply size_field_Ok in Hs as (Hsome & Hs & Hall).
  unfold well_formed, product_doc_of. simpl.
  rewrite Hn, Hp, Hs. repeat split.
  - by rewrite <- Hn.
  - apply strip_idemp.
  - pose proof (length_strip (ProductIn.name data)). lia.
  - exact Hpos.
  - by destruct (ProductIn.size data).
  - apply Forall_forall. intros s Hin.
    apply list_elem_of_In, in_map_iff in Hin as (s0 & <- & Hin0).
    rewrite Forall_forall in Hall.
    split; [|split; [apply normal_size_trimmed|apply normal_size_lower]].
    intros Hempty. apply lower_empty in Hempty.
    apply (Hall s0); [|exact Hempty]. by apply list_elem_of_In.
Qed.

(** X26.  Start from a database whose products all have the shape
    [ProductIn] gives (the empty one, for instance) and let the system serve
    any sequence of requests under any schedules.  In every database reached,
    every product still has that shape: a name that is not empty, stripped
    and of at most 200 characters, a positive price, and at least one size,
    each one not empty, stripped and lower-cased.  Nothing the service does
    to a stored product touches its name, its price or its sizes. *)
Theorem stored_products_stay_well_formed (w0 w : World) (oid : N)
    (doc : ProductDoc.t) :
  products_all well_formed w0 ->
  reachable_from w0 w ->
  products w !! oid = Some doc ->
  well_formed doc.
Proof.
  intros H0 Hreach. revert oid doc.
  apply (all_reachable well_formed) with (w0 := w0); try done.
  intros data product created updated. apply well_formed_validated.
Qed.

Lemma stored_products_stay_well_formed_witness :
  well_formed (ProductDoc.mk "Shirt" 19.5%float ["small"; "m"] 2 1000 2001).
Proof.
  apply (stored_products_stay_well_formed empty_world
           (run (handle (PostOrders (OrderIn.mk "u1" "000000000000000000000001" 3)))
              later_oracle alone
              (run (handle (PostProducts shirt)) example_oracle alone
                 empty_world).2).2 1%N).
  - intros oid doc Hdoc. cbn [empty_world products] in Hdoc.
    by rewrite lookup_empty in Hdoc.
  - apply reach_request, reach_request, reach_start.
  - vm_compute. reflexivity.
Defined.

(** ** Orders under concurrent writes *)

(** X27.  Under concurrent writes, what decides an order of a positive
    quantity that passed the check is the stock at the time of its
    decrement: the update modifies the product exactly when the product is
    then stored with at least the ordered quantity, whatever the check saw
    before.  In that case the quantity is taken from the stock of that
    time, and the request returns the order as it is stored when it is read
    back. *)
Theorem stock_at_decrement_decides (orc : Oracle) (sch : Schedule) (w : World)
    (order : OrderIn.t) (oid : N) (doc : ProductDoc.t) :
  nth 0 (faults sch) false = false ->
  nth 1 (faults sch) false = false ->
  nth 2 (faults sch) false = false ->
  nth 3 (faults sch) false = false ->
  ObjectId.parse (OrderIn.product_id order) = Some oid ->
  products (seen sch 0 w) !! oid = Some doc ->
  (OrderIn.quantity order <= ProductDoc.available_quantity doc)%Z ->
  orders (seen sch 1 (seen sch 0 w)) !! gen_id orc 1 = None ->
  (0 < OrderIn.quantity order)%Z ->
  let w2 := seen sch 2 (after_insert orc sch w order) in
  let w3 := after_decrement orc sch w order oid in
  ((0 < Collection.modified_count (decrement_attempt orc sch w order oid).2)%Z
   <-> exists now : ProductDoc.t,
         products w2 !! oid = Some now /\
         (OrderIn.quantity order <= ProductDoc.available_quantity now)%Z) /\
  (forall now : ProductDoc.t,
     products w2 !! oid = Some now ->
     (OrderIn.quantity order <= ProductDoc.available_quantity now)%Z ->
     (decrement_attempt orc sch w order oid).1
       = <[oid := decremented now (OrderIn.quantity order) (clock orc 1)]>
           (products w2) /\
     forall stored : OrderDoc.t,
       orders w3 !! gen_id orc 1 = Some stored ->
       run (OrderService.create_order order) orc sch w
         = (Ok (OrderService.order_out (gen_id orc 1) stored), w3)).
Proof.
  intros Hf0 Hf1 Hf2 Hf3 Hparse Hdoc Hle Hfresh Hpos w2 w3.
  assert (Hguard : stock_guard (- OrderIn.quantity order)
                   = OrderIn.quantity order)
    by (unfold stock_guard;
        destruct (Z.ltb_spec (- OrderIn.quantity order) 0); lia).
  assert (Hhit : forall now : ProductDoc.t,
    products w2 !! oid = Some now ->
    (OrderIn.quantity order <= ProductDoc.available_quantity now)%Z ->
    decrement_attempt orc sch w order oid
    = (<[oid := decremented now (OrderIn.quantity order) (clock orc 1)]>
         (products w2), Collection.mkUpdateResult 1 1)).
  { intros now Hnow Henough. unfold decrement_attempt. fold w2.
    rewrite (update_one_quantity_hit _ _ _ _ _ now); [|done|lia|lia].
    by rewrite restocked_neg. }
  split.
  - split.
    + intros Hmod. unfold decrement_attempt in Hmod. fold w2 in Hmod.
      unfold Collection.update_one_quantity in Hmod. rewrite Hguard in Hmod.
      destruct (products w2 !! oid) as [now|]; [|simpl in Hmod; lia].
      destruct (Z.leb_spec (OrderIn.quantity order)
                  (ProductDoc.available_quantity now));
        [|simpl in Hmod; lia].
      by exists now.
    + intros (now & Hnow & Henough). by rewrite (Hhit now).
  - intros now Hnow Henough. rewrite (Hhit now) by done.
    split; [done|]. intros stored Hstored.
    rewrite (create_order_past_check orc sch w order oid doc) by done.
    rewrite Hfresh. cbv zeta. rewrite (Hhit now) by done. simpl.
    fold w3. by rewrite Hstored.
Qed.

Lemma stock_at_decrement_decides_witness :
  run (OrderService.create_order three_widgets) example_oracle won_race
      example_world
    = (Ok (OrderOut.mk "000000000000000000000002" "u1" widget_id 3 1000),
       mkWorld {[ 7%N := decremented (decremented widget 1 950) 3 1001 ]}
               {[ 2%N := order_doc_of three_widgets 1000 ]}).
Proof.
  destruct (stock_at_decrement_decides example_oracle won_race example_world
              three_widgets 7%N widget eq_refl eq_refl eq_refl eq_refl eq_refl
              eq_refl ltac:(vm_compute; discriminate) eq_refl
              ltac:(vm_compute; reflexivity)) as (_ & Hgoes).
  destruct (Hgoes (decremented widget 1 950) ltac:(vm_compute; reflexivity)
              ltac:(vm_compute; discriminate)) as (_ & Hrun).
  rewrite (Hrun (order_doc_of three_widgets 1000))
    by (vm_compute; reflexivity).
  vm_compute. reflexivity.
Defined.
